(** * EduAgentGPT: validation, analysis, insight parsing and fallback

    A shallow embedding of the deterministic core of the repository:

    - [src/validator.ts]  ([validateGrade], [validateStudent], [validateStudents]);
    - [src/analyzer.ts]   ([average], [topN], [bottomN], [determineRisk],
                           [analyzeStudent]);
    - [src/insights.ts]   ([safeString], [normalizeStringArray],
                           [extractJsonObject], [parseStudentInsights],
                           [parseTeacherInsights], the two renderers and the
                           two fallback builders);
    - [src/main.ts]       (the parse / fallback / render step of [runOnce],
                           and [runOnce] itself from the decoded students
                           file on, with [loadStudents]);
    - [src/rules.ts]      ([sanitizeStringArray], [parseTone],
                           [loadTeacherRules]);
    - [src/email.ts]      ([buildStudentEmail], [buildTeacherEmail], the
                           file name and the file text of [sendEmail]);
    - [src/memory.ts]     ([uniqueList], [trimHistory],
                           [updateStudentMemory], [updateTeacherMemory]).

    Modelling conventions.

    - A JavaScript string is a Rocq [string].  The two agree on ASCII text;
      [String.length] counts 8-bit characters, so for the single non-ASCII
      literal of the source (the dash in the fixed encouragement sentence) the
      length computed here is an upper bound of the JavaScript [length].
      White space, for [trim] and for the [\s] class of the e-mail pattern,
      is the ASCII part of the ECMAScript definition (codes 9-13 and 32).
    - A JavaScript number that is finite is a rational ([Q]); arithmetic is
      exact.  The doubles of the program round at every operation, so a
      number computed here and the one the program computes can differ in
      the last place; where the result is then rounded to a fixed number
      of decimals ([average], [toFixed]) and the exact value is next to a
      tie, the two can differ by one unit of that decimal.  The theorems
      about numbers are theorems about the exact arithmetic.  [JSON.parse]
      can also produce infinities, so JSON numbers carry the non-finite
      cases explicitly.
    - [undefined] is [None]; [x[i]] out of range and a missing property are
      [None].
    - [-1] returned by [indexOf] / [lastIndexOf] is [None].
    - Arrays are lists; a [forEach] that pushes to accumulators is a
      [fold_left] over the elements paired with their indices; the one
      [while] loop runs on fuel and is shown to exit by its own condition.
    - Where a property is about what a function writes to, arrays live in
      a store ([Js.store]) and the objects hold their addresses: the
      sorting of [topN] and [bottomN], and the two fallback builders
      ([FallbackStore]), whose arguments are references that a [push]
      could reach.
    - Run-time built-ins that are not part of the repository ([JSON.parse],
      [Date.parse]) are section variables: the general theorems hold for
      any implementation of them.  [JsonText.parseJson] and
      [Validator.isoDateParses] are small executable instances, used where
      the sources are evaluated on a concrete text. *)

From Stdlib Require Import List String Ascii Bool Arith ZArith QArith Qround Qabs Lia.
From Stdlib Require Import DecimalString Permutation Sorted Lqa.
Import ListNotations.

Set Implicit Arguments.
Set Warnings "-register-all".


Close Scope Q_scope.
Open Scope string_scope.
Open Scope list_scope.
Open Scope nat_scope.

(* ================================================================= *)
(** * JavaScript built-ins used by the sources *)
(* ================================================================= *)

Module Js.

(** The line feed and the double quote, as one-character strings. *)
Definition nl : string := String (ascii_of_nat 10) EmptyString.
Definition dq : string := String (ascii_of_nat 34) EmptyString.
Definition quoted (s : string) : string := (dq ++ s ++ dq)%string.

(** [Boolean(s)] for a string: the empty string is falsy. *)
Definition truthy (s : string) : bool := negb (s =? "")%string.

(** White space removed by [String.prototype.trim] and matched by [\s]. *)
Definition isWhiteSpace (c : ascii) : bool :=
  let n := nat_of_ascii c in
  ((9 <=? n) && (n <=? 13)) || (n =? 32).

Fixpoint trimStart (s : string) : string :=
  match s with
  | EmptyString => EmptyString
  | String c r => if isWhiteSpace c then trimStart r else s
  end.

Fixpoint trimEnd (s : string) : string :=
  match s with
  | EmptyString => EmptyString
  | String c r =>
      let r' := trimEnd r in
      if isWhiteSpace c && (r' =? "")%string then EmptyString else String c r'
  end.

(** [s.trim()] *)
Definition trim (s : string) : string := trimEnd (trimStart s).

(** [s.slice(a, b)] for [0 <= a] and [0 <= b] (the only use in the
    sources); [b <= a] gives the empty string, as in JavaScript. *)
Definition slice (s : string) (a b : nat) : string := substring a (b - a) s.

(** Does the character occur in the string. *)
Fixpoint occurs (c : ascii) (s : string) : bool :=
  match s with
  | EmptyString => false
  | String d r => Ascii.eqb d c || occurs c r
  end.

(** [s.indexOf(c)] for a one-character needle; [None] stands for [-1]. *)
Fixpoint indexOfFrom (c : ascii) (s : string) (i : nat) : option nat :=
  match s with
  | EmptyString => None
  | String d r => if Ascii.eqb d c then Some i else indexOfFrom c r (S i)
  end.
Definition indexOf (c : ascii) (s : string) : option nat := indexOfFrom c s 0.

(** [s.lastIndexOf(c)]: a left-to-right scan remembering the last hit. *)
Fixpoint lastIndexOfFrom (c : ascii) (s : string) (i : nat) (found : option nat)
  : option nat :=
  match s with
  | EmptyString => found
  | String d r =>
      lastIndexOfFrom c r (S i) (if Ascii.eqb d c then Some i else found)
  end.
Definition lastIndexOf (c : ascii) (s : string) : option nat :=
  lastIndexOfFrom c s 0 None.

(** [xs.join(sep)] *)
Definition join (sep : string) (xs : list string) : string :=
  String.concat sep xs.

(** Template interpolation of a non-negative integer (an array index, a
    count): its decimal digits. *)
Definition natToString (n : nat) : string :=
  NilEmpty.string_of_uint (Nat.to_uint n).

(** Comparisons of finite numbers. *)
Definition Qltb (x y : Q) : bool := negb (Qle_bool y x).
Definition Qleb (x y : Q) : bool := Qle_bool x y.

(** [Math.round(x)]: the nearest integer, ties towards plus infinity. *)
Definition Math_round (x : Q) : Q := inject_Z (Qfloor (x + (1 # 2))%Q).

(** [x.toFixed(1)] for a finite [x] with [|x| < 10^21] (beyond that
    JavaScript switches to exponent notation): the sign is taken first,
    then the nearest number of tenths, the larger one on a tie.  The tie is
    decided here on the rational; a double next to a tie may print the
    other neighbour, with the same number of characters. *)
Definition toFixed1 (x : Q) : string :=
  let n := Z.to_nat (Qfloor (Qabs x * 10 + (1 # 2))%Q) in
  ((if Qltb x 0%Q then "-" else "")
     ++ natToString (n / 10) ++ "." ++ natToString (n mod 10))%string.

(** [items.map(f).filter(Boolean)] on an array of [string | undefined]. *)
Fixpoint keepTruthy (xs : list (option string)) : list string :=
  match xs with
  | [] => []
  | Some s :: r => if truthy s then s :: keepTruthy r else keepTruthy r
  | None :: r => keepTruthy r
  end.

(** Elements paired with their positions, as [forEach((x, index) => ..)]
    visits them. *)
Definition indexed (A : Type) (xs : list A) : list (nat * A) :=
  combine (seq 0 (List.length xs)) xs.

(** ** [Array.prototype.sort]

    The comparator returns a number; only its sign matters.  ECMAScript
    requires the sort to be stable, and for a consistent comparator the
    stable sorted permutation is unique, so any stable algorithm is a
    model of it: here, insertion from the right, where an element is
    placed before the first element it does not compare greater than. *)
Section Sort.
Variable T : Type.
Variable cmp : T -> T -> Q.

Fixpoint insert (x : T) (l : list T) : list T :=
  match l with
  | [] => [x]
  | y :: r => if Qle_bool (cmp x y) 0%Q then x :: y :: r else y :: insert x r
  end.

Fixpoint sort (l : list T) : list T :=
  match l with
  | [] => []
  | x :: r => insert x (sort r)
  end.
End Sort.

(** ** Array objects

    [sort] works in place.  To speak about which arrays a function
    changes, arrays live in a store and are named by their address. *)
Section Store.
Variable T : Type.

Definition store := list (list T).
Definition addr := nat.

Definition read (h : store) (a : addr) : list T := nth a h [].

Fixpoint write (h : store) (a : addr) (v : list T) : store :=
  match h, a with
  | [], _ => []
  | _ :: r, 0 => v :: r
  | x :: r, S a' => x :: write r a' v
  end.

(** A fresh array holding [v]; its address is returned. *)
Definition alloc (h : store) (v : list T) : store * addr :=
  (h ++ [v], List.length h).

(** [[...a]] *)
Definition spread (h : store) (a : addr) : store * addr :=
  alloc h (read h a).

(** [a.sort(cmp)]: sorts the array at [a] in place and returns [a]. *)
Definition sortInPlace (cmp : T -> T -> Q) (h : store) (a : addr)
  : store * addr :=
  (write h a (sort cmp (read h a)), a).

(** [a.slice(0, n)]: a fresh array. *)
Definition sliceArray (n : nat) (h : store) (a : addr) : store * addr :=
  alloc h (firstn n (read h a)).
End Store.

End Js.

(* ================================================================= *)
(** * JSON values ([unknown] after [JSON.parse]) *)
(* ================================================================= *)

Module Json.

Inductive number : Type :=
| Num (q : Q)
| Infinity (negative : bool)
| NaN.

Inductive json : Type :=
| JNull
| JBool (b : bool)
| JNum (n : number)
| JStr (s : string)
| JArr (items : list json)
| JObj (fields : list (string * json)).

(** Own property of an object built by [JSON.parse]; when a key is
    repeated in the text the last occurrence is the one kept. *)
Fixpoint lookup (k : string) (fields : list (string * json)) : option json :=
  match fields with
  | [] => None
  | (k', v) :: r =>
      match lookup k r with
      | Some w => Some w
      | None => if (k' =? k)%string then Some v else None
      end
  end.

(** [value.k] for the property names read by the sources (none of them
    is an index, [length], or an [Object.prototype] member, so arrays and
    primitives give [undefined]). *)
Definition getProp (v : json) (k : string) : option json :=
  match v with
  | JObj fields => lookup k fields
  | _ => None
  end.

(** [typeof v === "object" && v !== null] *)
Definition isObject (v : json) : bool :=
  match v with
  | JArr _ | JObj _ => true
  | _ => false
  end.

(** [Array.isArray(v)] *)
Definition isArray (v : option json) : bool :=
  match v with
  | Some (JArr _) => true
  | _ => false
  end.

End Json.

Import Js Json.

(* ================================================================= *)
(** * [src/types.ts] *)
(* ================================================================= *)

(** [ValidationResult<T>]: [{ ok: true, value }] or [{ ok: false, errors }]. *)
Inductive ValidationResult (T : Type) : Type :=
| Ok (value : T)
| Err (errors : list string).
Arguments Ok {T} value.
Arguments Err {T} errors.

Definition isOk (T : Type) (r : ValidationResult T) : bool :=
  match r with Ok _ => true | Err _ => false end.

(** [r.errors], read where the source has not narrowed [r] (empty for
    a success). *)
Definition errorsOf (T : Type) (r : ValidationResult T) : list string :=
  match r with Ok _ => [] | Err es => es end.

Inductive PerformanceTrend : Type := improving | stable | declining.

Definition trendEqb (a b : PerformanceTrend) : bool :=
  match a, b with
  | improving, improving | stable, stable | declining, declining => true
  | _, _ => false
  end.

Inductive RiskLevel : Type := low | medium | high.

Inductive Tone : Type := warm | neutral | direct.

Module Grade.
Record t : Type := mk { subject : string; score : Q }.
End Grade.

Module Student.
Record t : Type := mk {
  id : string;
  name : string;
  email : string;
  grades : list Grade.t;
  participationScore : Q;
  assignmentCompletionRate : Q;
  teacherNotes : string;
  performanceTrend : PerformanceTrend;
  lastAssessmentDate : string
}.
End Student.

Module StudentMetrics.
Record t : Type := mk {
  averageScore : Q;
  highestSubjects : list Grade.t;
  lowestSubjects : list Grade.t;
  participationScore : Q;
  assignmentCompletionRate : Q;
  needsAttention : bool
}.
End StudentMetrics.

Module StudentAnalysis.
Record t : Type := mk {
  student : Student.t;
  metrics : StudentMetrics.t;
  strengths : list string;
  improvementAreas : list string;
  riskLevel : RiskLevel
}.
End StudentAnalysis.

Module TeacherSummary.
Record t : Type := mk {
  classAverage : Q;
  topStudents : list string;
  attentionNeeded : list string;
  notes : list string
}.
End TeacherSummary.

(** Every field is optional. *)
Module TeacherPreferences.
Record t : Type := mk {
  classGoals : option (list string);
  focusAreas : option (list string);
  preferredStrategies : option (list string);
  tone : option Tone;
  teacherNotes : option string
}.
End TeacherPreferences.

Module StudentInsights.
Record t : Type := mk {
  positiveObservation : string;
  strengths : list string;
  improvementAreas : list string;
  strategies : list string;
  nextStepGoal : string;
  encouragement : string
}.
End StudentInsights.

Module Attention.
Record t : Type := mk { name : string; reason : string }.
End Attention.

Module TeacherInsights.
Record t : Type := mk {
  classOverview : string;
  strengths : list string;
  attentionNeeded : list Attention.t;
  nextSteps : list string
}.
End TeacherInsights.

(* ================================================================= *)
(** * [src/validator.ts] *)
(* ================================================================= *)

Module Validator.

(** [EMAIL_PATTERN = /^[^@\s]+@[^@\s]+\.[^@\s]+$/].

    [plain s]: every character of [s] is in the class [[^@\s]]. *)
Fixpoint plain (s : string) : bool :=
  match s with
  | EmptyString => true
  | String c r => negb (Ascii.eqb c "@") && negb (isWhiteSpace c) && plain r
  end.

(** [dotInside s]: [s] is [a ++ "." ++ b] with [a] and [b] non-empty.
    [dotBeforeLast s]: some ["."] of [s] is followed by a character. *)
Fixpoint dotBeforeLast (s : string) : bool :=
  match s with
  | String c (String _ _ as rest) => Ascii.eqb c "." || dotBeforeLast rest
  | _ => false
  end.
Definition dotInside (s : string) : bool :=
  match s with
  | EmptyString => false
  | String _ r => dotBeforeLast r
  end.

(** The text before the first ["@"], and the text after it. *)
Fixpoint splitAt (s : string) : option (string * string) :=
  match s with
  | EmptyString => None
  | String c r =>
      if Ascii.eqb c "@" then Some (EmptyString, r)
      else match splitAt r with
           | Some (a, b) => Some (String c a, b)
           | None => None
           end
  end.

(** [EMAIL_PATTERN.test(s)] *)
Definition EMAIL_PATTERN_test (s : string) : bool :=
  match splitAt s with
  | Some (local, domain) =>
      truthy local && plain local && plain domain && dotInside domain
  | None => false
  end.

(** [isRecord]: an object that is neither [null] nor an array. *)
Definition isRecord (value : option json) : bool :=
  match value with
  | Some (JObj _) => true
  | _ => false
  end.

Definition isNonEmptyString (value : option json) : bool :=
  match value with
  | Some (JStr s) => 0 <? String.length (trim s)
  | _ => false
  end.

Definition isFiniteNumber (value : option json) : bool :=
  match value with
  | Some (JNum (Num _)) => true
  | _ => false
  end.

Definition inRange (value : option json) (min max : Q) : bool :=
  match value with
  | Some (JNum (Num q)) => Qleb min q && Qleb q max
  | _ => false
  end.

Definition parseTrend (value : option json) : option PerformanceTrend :=
  match value with
  | Some (JStr s) =>
      if (s =? "improving")%string then Some improving
      else if (s =? "stable")%string then Some stable
      else if (s =? "declining")%string then Some declining
      else None
  | _ => None
  end.

(** The string carried by a value already known to be a string, its
    trimmed form, and the number carried by a finite number: the
    branches [isNonEmptyString(x) ? x.trim() : ""] and
    [isFiniteNumber(x) ? x : 0] of the source. *)
Definition trimmedOrEmpty (value : option json) : string :=
  match value with
  | Some (JStr s) => if isNonEmptyString value then trim s else ""
  | _ => ""
  end.

Definition numberOrZero (value : option json) : Q :=
  match value with
  | Some (JNum (Num q)) => q
  | _ => 0%Q
  end.

(** An executable stand-in for [Date.parse] on the ISO form
    [YYYY-MM-DD], used by the examples only. *)
Definition isDigit (c : ascii) : bool :=
  let n := nat_of_ascii c in (48 <=? n) && (n <=? 57).

Definition isoDateParses (s : string) : bool :=
  match list_ascii_of_string s with
  | [y1; y2; y3; y4; d1; m1; m2; d2; a1; a2] =>
      forallb isDigit [y1; y2; y3; y4; m1; m2; a1; a2]
      && Ascii.eqb d1 "-" && Ascii.eqb d2 "-"
      && let m := (nat_of_ascii m1 - 48) * 10 + (nat_of_ascii m2 - 48) in
         let a := (nat_of_ascii a1 - 48) * 10 + (nat_of_ascii a2 - 48) in
         (1 <=? m) && (m <=? 12) && (1 <=? a) && (a <=? 31)
  | _ => false
  end.

Section WithDateParse.

(** [dateParses s] is [!Number.isNaN(Date.parse(s))]. *)
Variable dateParses : string -> bool.

Definition isValidDate (value : option json) : bool :=
  match value with
  | Some (JStr s) =>
      if negb (isNonEmptyString value) then false else dateParses s
  | _ => false
  end.

Definition validateGrade (value : json) (index : nat)
  : ValidationResult Grade.t :=
  let errors : list string := [] in
  if negb (isRecord (Some value)) then
    Err [("grades[" ++ natToString index ++ "] must be an object")%string]
  else
    let subject := getProp value "subject" in
    let score := getProp value "score" in
    let subjectValue := trimmedOrEmpty subject in
    let scoreValue := numberOrZero score in
    let errors :=
      if negb (isNonEmptyString subject) then
        errors ++ [("grades[" ++ natToString index
                      ++ "].subject must be a non-empty string")%string]
      else errors in
    let errors :=
      if negb (inRange score 0%Q 100%Q) then
        errors ++ [("grades[" ++ natToString index
                      ++ "].score must be a number between 0 and 100")%string]
      else errors in
    if 0 <? List.length errors then Err errors
    else Ok (Grade.mk subjectValue scoreValue).

(** One turn of [grades.forEach((grade, gradeIndex) => ...)]: the state
    is the pair of accumulators [(validatedGrades, errors)]. *)
Definition gradeStep (st : list Grade.t * list string) (ig : nat * json)
  : list Grade.t * list string :=
  let '(validatedGrades, errors) := st in
  let '(gradeIndex, grade) := ig in
  match validateGrade grade gradeIndex with
  | Ok value => (validatedGrades ++ [value], errors)
  | Err es => (validatedGrades, errors ++ es)
  end.

Definition validateStudent (value : json) (index : nat)
  : ValidationResult Student.t :=
  let errors : list string := [] in
  if negb (isRecord (Some value)) then
    Err [("students[" ++ natToString index ++ "] must be an object")%string]
  else
    let id := getProp value "id" in
    let name := getProp value "name" in
    let email := getProp value "email" in
    let grades := getProp value "grades" in
    let participationScore := getProp value "participationScore" in
    let assignmentCompletionRate := getProp value "assignmentCompletionRate" in
    let teacherNotes := getProp value "teacherNotes" in
    let performanceTrend := parseTrend (getProp value "performanceTrend") in
    let lastAssessmentDate := getProp value "lastAssessmentDate" in
    let idValue := trimmedOrEmpty id in
    let nameValue := trimmedOrEmpty name in
    let emailValue := trimmedOrEmpty email in
    let participationValue := numberOrZero participationScore in
    let completionValue := numberOrZero assignmentCompletionRate in
    let notesValue :=
      match teacherNotes with Some (JStr s) => s | _ => "" end in
    (* the cast [performanceTrend as PerformanceTrend]; on the path that
       returns a student the trend is present *)
    let trendValue :=
      match performanceTrend with Some t => t | None => stable end in
    let lastAssessmentValue :=
      match lastAssessmentDate with
      | Some (JStr s) => if isValidDate lastAssessmentDate then s else ""
      | _ => ""
      end in
    let errors :=
      if negb (isNonEmptyString id)
      then errors ++ ["id must be a non-empty string"] else errors in
    let errors :=
      if negb (isNonEmptyString name)
      then errors ++ ["name must be a non-empty string"] else errors in
    let errors :=
      if negb (isNonEmptyString email)
         || negb (match email with
                  | Some (JStr s) => EMAIL_PATTERN_test s
                  | _ => false
                  end)
      then errors ++ ["email must be a valid address"] else errors in
    let '(validatedGrades, errors) :=
      match grades with
      | Some (JArr items) =>
          if List.length items =? 0
          then ([], errors ++ ["grades must be a non-empty array"])
          else fold_left gradeStep (indexed items) ([], errors)
      | _ => ([], errors ++ ["grades must be a non-empty array"])
      end in
    let errors :=
      if negb (inRange participationScore 1%Q 10%Q)
      then errors ++ ["participationScore must be a number between 1 and 10"]
      else errors in
    let errors :=
      if negb (inRange assignmentCompletionRate 0%Q 100%Q)
      then errors
             ++ ["assignmentCompletionRate must be a number between 0 and 100"]
      else errors in
    let errors :=
      match teacherNotes with
      | Some (JStr _) => errors
      | _ => errors ++ ["teacherNotes must be a string"]
      end in
    let errors :=
      match performanceTrend with
      | Some _ => errors
      | None =>
          errors ++ ["performanceTrend must be improving, stable, or declining"]
      end in
    let errors :=
      if negb (isValidDate lastAssessmentDate)
      then errors ++ ["lastAssessmentDate must be a valid date string"]
      else errors in
    if 0 <? List.length errors then Err errors
    else
      Ok (Student.mk idValue nameValue emailValue validatedGrades
            participationValue completionValue notesValue trendValue
            lastAssessmentValue).

(** The result of [validateStudents]. *)
Record Batch : Type := mkBatch {
  valid : list Student.t;
  errors : list string
}.

(** One turn of [data.forEach((value, index) => ...)]. *)
Definition studentStep (st : Batch) (iv : nat * json) : Batch :=
  let '(index, value) := iv in
  match validateStudent value index with
  | Ok s => mkBatch (valid st ++ [s]) (errors st)
  | Err es =>
      mkBatch (valid st)
        (fold_left
           (fun errors error =>
              errors
                ++ [("students[" ++ natToString index ++ "]: " ++ error)%string])
           es (errors st))
  end.

Definition validateStudents (data : json) : Batch :=
  let errors : list string := [] in
  let valid : list Student.t := [] in
  match data with
  | JArr items => fold_left studentStep (indexed items) (mkBatch valid errors)
  | _ => mkBatch valid ["students.json must be an array of student objects"]
  end.

End WithDateParse.

End Validator.

(* ================================================================= *)
(** * [src/analyzer.ts] *)
(* ================================================================= *)

Module Analyzer.

(** [scores.reduce((acc, score) => acc + score, 0)] *)
Definition sum (scores : list Q) : Q :=
  fold_left (fun acc score => (acc + score)%Q) scores 0%Q.

(** [Math.round((sum / scores.length) * 100) / 100], on exact
    rationals. *)
Definition average (scores : list Q) : Q :=
  if List.length scores =? 0 then 0%Q
  else
    (Math_round ((sum scores / inject_Z (Z.of_nat (List.length scores))) * 100)
       / 100)%Q.

Section TopBottom.
Variable T : Type.

(** The comparators [(a, b) => score(b) - score(a)] and
    [(a, b) => score(a) - score(b)]. *)
Definition descending (score : T -> Q) (a b : T) : Q := (score b - score a)%Q.
Definition ascending (score : T -> Q) (a b : T) : Q := (score a - score b)%Q.

(** [[...items].sort(cmp).slice(0, n)] on array objects: the copy is
    sorted in place, the argument array is only read. *)
Definition topN_store (h : store T) (items : addr) (n : nat) (score : T -> Q)
  : store T * addr :=
  let '(h1, copy) := spread h items in
  let '(h2, sorted) := sortInPlace (descending score) h1 copy in
  sliceArray n h2 sorted.

Definition bottomN_store (h : store T) (items : addr) (n : nat)
           (score : T -> Q) : store T * addr :=
  let '(h1, copy) := spread h items in
  let '(h2, sorted) := sortInPlace (ascending score) h1 copy in
  sliceArray n h2 sorted.

(** The same functions on array contents. *)
Definition topN (items : list T) (n : nat) (score : T -> Q) : list T :=
  firstn n (sort (descending score) items).

Definition bottomN (items : list T) (n : nat) (score : T -> Q) : list T :=
  firstn n (sort (ascending score) items).
End TopBottom.

Definition determineRisk (metrics : StudentMetrics.t) (trend : PerformanceTrend)
  : RiskLevel :=
  if Qltb (StudentMetrics.averageScore metrics) 70
     || Qleb (StudentMetrics.participationScore metrics) 4
     || Qltb (StudentMetrics.assignmentCompletionRate metrics) 70
     || trendEqb trend declining
  then high
  else if Qltb (StudentMetrics.averageScore metrics) 80
          || Qleb (StudentMetrics.participationScore metrics) 6
          || Qltb (StudentMetrics.assignmentCompletionRate metrics) 85
  then medium
  else low.

(** [xs.push(s)] guarded by a condition. *)
Definition pushIf (c : bool) (s : string) (xs : list string) : list string :=
  if c then xs ++ [s] else xs.

Definition analyzeStudent (student : Student.t) : StudentAnalysis.t :=
  let averageScore := average (map Grade.score (Student.grades student)) in
  let highestSubjects := topN (Student.grades student) 2 Grade.score in
  let lowestSubjects := bottomN (Student.grades student) 2 Grade.score in
  let metrics :=
    StudentMetrics.mk averageScore highestSubjects lowestSubjects
      (Student.participationScore student)
      (Student.assignmentCompletionRate student)
      (Qltb averageScore 75
       || Qltb (Student.assignmentCompletionRate student) 80
       || trendEqb (Student.performanceTrend student) declining) in
  let strengths : list string := [] in
  let strengths :=
    pushIf (Qleb 85 averageScore) "Strong overall academic performance"
      strengths in
  let strengths :=
    pushIf (Qleb 8 (Student.participationScore student))
      "Consistent class participation" strengths in
  let strengths :=
    pushIf (Qleb 90 (Student.assignmentCompletionRate student))
      "High assignment completion rate" strengths in
  let strengths :=
    pushIf (trendEqb (Student.performanceTrend student) improving)
      "Recent performance trend is improving" strengths in
  let improvementAreas : list string := [] in
  let improvementAreas :=
    pushIf (Qltb averageScore 75) "Overall grade average needs improvement"
      improvementAreas in
  let improvementAreas :=
    pushIf (Qleb (Student.participationScore student) 6)
      "Increase class participation" improvementAreas in
  let improvementAreas :=
    pushIf (Qltb (Student.assignmentCompletionRate student) 85)
      "Improve assignment completion rate" improvementAreas in
  let improvementAreas :=
    pushIf (trendEqb (Student.performanceTrend student) declining)
      "Address recent performance decline" improvementAreas in
  let improvementAreas :=
    if 0 <? List.length lowestSubjects then
      let subjects := join ", " (map Grade.subject lowestSubjects) in
      improvementAreas ++ [("Focus on weaker subjects: " ++ subjects)%string]
    else improvementAreas in
  let riskLevel := determineRisk metrics (Student.performanceTrend student) in
  StudentAnalysis.mk student metrics strengths improvementAreas riskLevel.

End Analyzer.

(* ================================================================= *)
(** * [src/insights.ts] *)
(* ================================================================= *)

Module Insights.

Definition safeString (value : option json) (maxLen : nat) : option string :=
  match value with
  | Some (JStr s) =>
      let trimmed := trim s in
      if negb (truthy trimmed) then None
      else Some (if maxLen <? String.length trimmed
                 then slice trimmed 0 maxLen else trimmed)
  | _ => None
  end.

Definition normalizeStringArray (value : option json) (min max : nat)
           (label : string) : ValidationResult (list string) :=
  match value with
  | Some (JArr items) =>
      let cleaned :=
        keepTruthy (map (fun item => safeString (Some item) 180) items) in
      if List.length cleaned <? min then
        Err [(label ++ " must include at least " ++ natToString min
                ++ " item(s)")%string]
      else Ok (firstn max cleaned)
  | _ => Err [(label ++ " must be an array")%string]
  end.

Definition extractJsonObject (text : string) : option string :=
  let start := indexOf "{" text in
  let end_ := lastIndexOf "}" text in
  match start, end_ with
  | Some s, Some e => if e <=? s then None else Some (slice text s (e + 1))
  | _, _ => None
  end.

(** [r.value] where the source relies on the preceding checks. *)
Definition valueOf (r : ValidationResult (list string)) : list string :=
  match r with Ok v => v | Err _ => [] end.

(** [x as string] for an [x : string | undefined]. *)
Definition asString (x : option string) : string :=
  match x with Some s => s | None => "" end.

(** [if (!x) errors.push(msg)] for an [x : string | undefined]. *)
Definition pushUnless (x : option string) (msg : string) (errors : list string)
  : list string :=
  match x with
  | Some s => if truthy s then errors else errors ++ [msg]
  | None => errors ++ [msg]
  end.

(** Steps 4 to 8 of [parseStudentInsights], on the decoded object. *)
Definition validateStudentRecord (record : json)
  : ValidationResult StudentInsights.t :=
  let positiveObservation :=
    safeString (getProp record "positiveObservation") 220 in
  let nextStepGoal := safeString (getProp record "nextStepGoal") 200 in
  let encouragement := safeString (getProp record "encouragement") 200 in
  let strengthsResult :=
    normalizeStringArray (getProp record "strengths") 1 3 "strengths" in
  let improvementResult :=
    normalizeStringArray (getProp record "improvementAreas") 1 2
      "improvementAreas" in
  let strategiesResult :=
    normalizeStringArray (getProp record "strategies") 2 3 "strategies" in
  let errors : list string := [] in
  if negb (isOk strengthsResult) || negb (isOk improvementResult)
     || negb (isOk strategiesResult)
  then Err ["Invalid student insights payload"]
  else
    let errors :=
      pushUnless positiveObservation
        "positiveObservation must be a non-empty string" errors in
    let errors :=
      pushUnless nextStepGoal "nextStepGoal must be a non-empty string" errors in
    let errors :=
      pushUnless encouragement "encouragement must be a non-empty string"
        errors in
    let errors :=
      if negb (isOk strengthsResult)
      then errors ++ errorsOf strengthsResult else errors in
    let errors :=
      if negb (isOk improvementResult)
      then errors ++ errorsOf improvementResult else errors in
    let errors :=
      if negb (isOk strategiesResult)
      then errors ++ errorsOf strategiesResult else errors in
    if 0 <? List.length errors then Err errors
    else
      Ok (StudentInsights.mk (asString positiveObservation)
            (valueOf strengthsResult) (valueOf improvementResult)
            (valueOf strategiesResult) (asString nextStepGoal)
            (asString encouragement)).

(** One turn of [attentionRaw.forEach((item, index) => ...)]; the state
    is [(attentionNeeded, attentionErrors)]. *)
Definition attentionStep (st : list Attention.t * list string)
           (ii : nat * json) : list Attention.t * list string :=
  let '(attentionNeeded, attentionErrors) := st in
  let '(index, item) := ii in
  if negb (isObject item) then
    (attentionNeeded,
     attentionErrors
       ++ [("attentionNeeded[" ++ natToString index ++ "] must be an object")%string])
  else
    let name := safeString (getProp item "name") 80 in
    let reason := safeString (getProp item "reason") 160 in
    match name, reason with
    | Some n, Some r =>
        if truthy n && truthy r
        then (attentionNeeded ++ [Attention.mk n r], attentionErrors)
        else (attentionNeeded,
              attentionErrors
                ++ [("attentionNeeded[" ++ natToString index
                       ++ "] must include name and reason")%string])
    | _, _ =>
        (attentionNeeded,
         attentionErrors
           ++ [("attentionNeeded[" ++ natToString index
                  ++ "] must include name and reason")%string])
    end.

(** Steps 4 to 8 of [parseTeacherInsights], on the decoded object. *)
Definition validateTeacherRecord (record : json)
  : ValidationResult TeacherInsights.t :=
  let classOverview := safeString (getProp record "classOverview") 240 in
  let strengthsResult :=
    normalizeStringArray (getProp record "strengths") 1 4 "strengths" in
  let nextStepsResult :=
    normalizeStringArray (getProp record "nextSteps") 2 4 "nextSteps" in
  let attentionRaw := getProp record "attentionNeeded" in
  let '(attentionNeeded, attentionErrors) :=
    match attentionRaw with
    | Some (JArr items) => fold_left attentionStep (indexed items) ([], [])
    | _ => ([], ["attentionNeeded must be an array"])
    end in
  let errors : list string := [] in
  let errors :=
    pushUnless classOverview "classOverview must be a non-empty string" errors in
  let errors :=
    if negb (isOk strengthsResult)
    then errors ++ errorsOf strengthsResult else errors in
  let errors :=
    if negb (isOk nextStepsResult)
    then errors ++ errorsOf nextStepsResult else errors in
  let errors :=
    if 0 <? List.length attentionErrors
    then errors ++ attentionErrors else errors in
  if 0 <? List.length errors then Err errors
  else if negb (isOk strengthsResult) || negb (isOk nextStepsResult)
  then Err ["Invalid teacher insights payload"]
  else
    Ok (TeacherInsights.mk (asString classOverview) (valueOf strengthsResult)
          attentionNeeded (valueOf nextStepsResult)).

Section WithJsonParse.

(** [JSON_parse text] is [Some v] when [JSON.parse(text)] returns [v]
    and [None] when it throws. *)
Variable JSON_parse : string -> option json.

(** Steps 1 to 3, shared by the two parsers: extraction, decoding, and
    the test that the decoded value is a non-null object. *)
Definition decodeObject (raw : string) : ValidationResult json :=
  match extractJsonObject raw with
  | None => Err ["No JSON object found in response"]
  | Some jsonCandidate =>
      if negb (truthy jsonCandidate)
      then Err ["No JSON object found in response"]
      else
        match JSON_parse jsonCandidate with
        | None => Err ["Invalid JSON in response"]
        | Some parsed =>
            if negb (isObject parsed)
            then Err ["Response JSON must be an object"]
            else Ok parsed
        end
  end.

Definition parseStudentInsights (raw : string)
  : ValidationResult StudentInsights.t :=
  match decodeObject raw with
  | Err errors => Err errors
  | Ok record => validateStudentRecord record
  end.

Definition parseTeacherInsights (raw : string)
  : ValidationResult TeacherInsights.t :=
  match decodeObject raw with
  | Err errors => Err errors
  | Ok record => validateTeacherRecord record
  end.

End WithJsonParse.

(** [xs.map((item) => `- ${item}`)] *)
Definition bullets (xs : list string) : list string :=
  map (fun item => ("- " ++ item)%string) xs.

Definition renderStudentMessage (insights : StudentInsights.t) : string :=
  join nl
    ([StudentInsights.positiveObservation insights; ""; "Strengths:"]
       ++ bullets (StudentInsights.strengths insights)
       ++ [""; "Focus areas:"]
       ++ bullets (StudentInsights.improvementAreas insights)
       ++ [""; "Try this:"]
       ++ bullets (StudentInsights.strategies insights)
       ++ [""; ("Next step goal: " ++ StudentInsights.nextStepGoal insights)%string;
           ""; StudentInsights.encouragement insights]).

Definition renderTeacherMessage (insights : TeacherInsights.t) : string :=
  let attentionLines :=
    if 0 <? List.length (TeacherInsights.attentionNeeded insights)
    then map (fun item =>
                ("- " ++ Attention.name item ++ ": " ++ Attention.reason item)%string)
             (TeacherInsights.attentionNeeded insights)
    else ["- No students flagged for immediate attention."] in
  join nl
    ([TeacherInsights.classOverview insights; ""; "Class strengths:"]
       ++ bullets (TeacherInsights.strengths insights)
       ++ [""; "Students needing attention:"]
       ++ attentionLines
       ++ [""; "Next steps (next week):"]
       ++ bullets (TeacherInsights.nextSteps insights)).

(** The fixed sentences of the student fallback. *)
Definition genericStrength : string :=
  "You're making steady progress across your classes.".
Definition genericImprovement : string :=
  "Keep building consistency with assignments and review routines.".
Definition deadlineTip : string :=
  "Use a checklist and finish assignments 24 hours before the deadline.".
Definition engagementTip : string :=
  "Prepare one question or comment before class and share it.".
Definition studyRoutineTip : string :=
  "Set a 20-minute daily review block and summarize notes in your own words.".
Definition subjectTip (subjects : string) : string :=
  ("Spend extra practice time on " ++ subjects
     ++ " with short, focused sessions.")%string.
Definition fillerStrategy : string :=
  "Ask for quick feedback from your teacher on one recent assignment.".
Definition genericGoal : string :=
  "Choose one focus area and practice it three times this week.".
Definition fixedEncouragement : string :=
  "Small steps add up—keep going, and reach out if you need support.".

(** [while (strategies.length < 2) strategies.push(filler)], on fuel. *)
Fixpoint padStrategies (fuel : nat) (strategies : list string) : list string :=
  match fuel with
  | 0 => strategies
  | S k =>
      if List.length strategies <? 2
      then padStrategies k (strategies ++ [fillerStrategy])
      else strategies
  end.

(** [preferences?.preferredStrategies ?? []] *)
Definition preferredStrategiesOf (preferences : option TeacherPreferences.t)
  : list string :=
  match preferences with
  | Some p =>
      match TeacherPreferences.preferredStrategies p with
      | Some items => items
      | None => []
      end
  | None => []
  end.

(** [preferences?.preferredStrategies?.filter((item) => item.trim()) ?? []] *)
Definition preferredOf (preferences : option TeacherPreferences.t)
  : list string :=
  match preferences with
  | Some p =>
      match TeacherPreferences.preferredStrategies p with
      | Some items => filter (fun item => truthy (trim item)) items
      | None => []
      end
  | None => []
  end.

(** [preferences?.classGoals?.[0]?.trim()] *)
Definition firstGoalOf (preferences : option TeacherPreferences.t)
  : option string :=
  match preferences with
  | Some p =>
      match TeacherPreferences.classGoals p with
      | Some (g :: _) => Some (trim g)
      | _ => None
      end
  | None => None
  end.

(** Step 3 of [buildFallbackStudentInsights]: the rule ladder, four
    guarded [strategies.push(..)] on an empty array. *)
Definition strategyLadder (metrics : StudentMetrics.t) : list string :=
  let strategies : list string := [] in
  let strategies :=
    if Qltb (StudentMetrics.assignmentCompletionRate metrics) 85
    then strategies ++ [deadlineTip] else strategies in
  let strategies :=
    if Qleb (StudentMetrics.participationScore metrics) 6
    then strategies ++ [engagementTip] else strategies in
  let strategies :=
    if Qltb (StudentMetrics.averageScore metrics) 75
    then strategies ++ [studyRoutineTip] else strategies in
  let strategies :=
    if 0 <? List.length (StudentMetrics.lowestSubjects metrics) then
      let subjects :=
        join ", " (map Grade.subject (StudentMetrics.lowestSubjects metrics)) in
      strategies ++ [subjectTip subjects]
    else strategies in
  strategies.

(** [items.forEach((item) => { if (acc.length < limit) acc.push(item); })] *)
Definition pushWhileBelow (limit : nat) (items acc : list string) : list string :=
  fold_left
    (fun acc item => if List.length acc <? limit then acc ++ [item] else acc)
    items acc.

Definition buildFallbackStudentInsights (analysis : StudentAnalysis.t)
           (preferences : option TeacherPreferences.t) : StudentInsights.t :=
  let strengths :=
    if 0 <? List.length (StudentAnalysis.strengths analysis)
    then StudentAnalysis.strengths analysis
    else [genericStrength] in
  let improvementAreas :=
    if 0 <? List.length (StudentAnalysis.improvementAreas analysis)
    then firstn 2 (StudentAnalysis.improvementAreas analysis)
    else [genericImprovement] in
  let strategies := strategyLadder (StudentAnalysis.metrics analysis) in
  let preferred := preferredOf preferences in
  let strategies := pushWhileBelow 3 preferred strategies in
  let strategies := padStrategies 2 strategies in
  let goal :=
    match firstGoalOf preferences with
    | Some g => if truthy g then g else genericGoal
    | None => genericGoal
    end in
  StudentInsights.mk
    (nth 0 strengths "")   (* [strengths[0]]; [strengths] is never empty *)
    (firstn 3 strengths)
    improvementAreas
    (firstn 3 strategies)
    goal
    fixedEncouragement.

Definition genericReason : string :=
  "Flagged for additional check-ins based on recent trends.".
Definition genericClassStrength : string :=
  "Several students are maintaining steady performance.".
Definition smallGroupStep : string :=
  "Plan one small-group session for students needing support.".
Definition successStoryStep : string :=
  "Highlight one success story to reinforce growth mindset.".
Definition topPerformers (names : string) : string :=
  ("Top performers this cycle: " ++ names ++ ".")%string.
Definition classOverviewOf (average : string) : string :=
  ("Class average is " ++ average
     ++ ". Overall trends are stable with a few students needing additional attention.")%string.

Definition buildFallbackTeacherInsights (summary : TeacherSummary.t)
           (preferences : option TeacherPreferences.t) : TeacherInsights.t :=
  let strengths :=
    if 0 <? List.length (TeacherSummary.topStudents summary)
    then [topPerformers (join ", " (TeacherSummary.topStudents summary))]
    else [genericClassStrength] in
  let attentionNeeded :=
    map (fun name => Attention.mk name genericReason)
        (TeacherSummary.attentionNeeded summary) in
  let nextSteps : list string := [] in
  let preferred := preferredStrategiesOf preferences in
  let nextSteps := pushWhileBelow 2 preferred nextSteps in
  let nextSteps :=
    if List.length nextSteps <? 2
    then nextSteps ++ [smallGroupStep; successStoryStep]
    else nextSteps in
  TeacherInsights.mk
    (classOverviewOf (toFixed1 (TeacherSummary.classAverage summary)))
    strengths
    attentionNeeded
    (firstn 4 nextSteps).

End Insights.

(* ================================================================= *)
(** * [src/main.ts]: the insight step of [runOnce] *)
(* ================================================================= *)

Module Main.

Module StudentOutcome.
Record t : Type := mk {
  insights : StudentInsights.t;
  message : string;
  usedFallback : bool
}.
End StudentOutcome.

Module TeacherOutcome.
Record t : Type := mk {
  insights : TeacherInsights.t;
  message : string;
  usedFallback : bool
}.
End TeacherOutcome.

Section WithJsonParse.
Variable JSON_parse : string -> option json.

(** From the provider's raw text to the message, for one student:
    [parseStudentInsights], the choice between the parsed value and the
    fallback, and [renderStudentMessage]. *)
Definition studentInsightStep (analysis : StudentAnalysis.t)
           (teacherRules : option TeacherPreferences.t)
           (rawInsights : string) : StudentOutcome.t :=
  let parsed := Insights.parseStudentInsights JSON_parse rawInsights in
  let usedFallback := negb (isOk parsed) in
  let insights :=
    match parsed with
    | Ok value => value
    | Err _ => Insights.buildFallbackStudentInsights analysis teacherRules
    end in
  let message := Insights.renderStudentMessage insights in
  StudentOutcome.mk insights message usedFallback.

(** The same step for the class summary. *)
Definition teacherInsightStep (teacherSummary : TeacherSummary.t)
           (teacherRules : option TeacherPreferences.t)
           (rawSummary : string) : TeacherOutcome.t :=
  let parsed := Insights.parseTeacherInsights JSON_parse rawSummary in
  let usedFallback := negb (isOk parsed) in
  let insights :=
    match parsed with
    | Ok value => value
    | Err _ => Insights.buildFallbackTeacherInsights teacherSummary teacherRules
    end in
  let message := Insights.renderTeacherMessage insights in
  TeacherOutcome.mk insights message usedFallback.

End WithJsonParse.

End Main.

(* ================================================================= *)
(** * An executable JSON decoder *)
(* ================================================================= *)

(** A recursive-descent decoder for JSON texts over ASCII (escapes
    [\uXXXX] are accepted below code 128 only).  It instantiates the
    [JSON_parse] variable where the parsers are evaluated on a concrete
    text; the general theorems are stated for any decoder. *)
Module JsonText.

Definition isJsonSpace (c : ascii) : bool :=
  let n := nat_of_ascii c in
  (n =? 32) || (n =? 9) || (n =? 10) || (n =? 13).

Fixpoint skipSpace (s : string) : string :=
  match s with
  | String c r => if isJsonSpace c then skipSpace r else s
  | EmptyString => EmptyString
  end.

Definition digitOf (c : ascii) : option Z :=
  let n := nat_of_ascii c in
  if (48 <=? n) && (n <=? 57) then Some (Z.of_nat (n - 48)) else None.

Definition hexOf (c : ascii) : option nat :=
  let n := nat_of_ascii c in
  if (48 <=? n) && (n <=? 57) then Some (n - 48)
  else if (65 <=? n) && (n <=? 70) then Some (n - 55)
  else if (97 <=? n) && (n <=? 102) then Some (n - 87)
  else None.

(** The longest prefix of digits, most significant first. *)
Fixpoint takeDigits (s : string) : list Z * string :=
  match s with
  | String c r =>
      match digitOf c with
      | Some d => let '(ds, rest) := takeDigits r in (d :: ds, rest)
      | None => ([], s)
      end
  | EmptyString => ([], EmptyString)
  end.

Definition valueOfDigits (ds : list Z) : Z :=
  fold_left (fun acc d => (acc * 10 + d)%Z) ds 0%Z.

(** Doubles overflow to an infinity from [2^1024 - 2^970] on. *)
Definition overflowBound : Q := inject_Z (2 ^ 1024 - 2 ^ 970)%Z.

Definition makeNumber (negative : bool) (mantissa : Z) (exponent : Z)
  : number :=
  let q :=
    if (0 <=? exponent)%Z
    then inject_Z (mantissa * 10 ^ exponent)%Z
    else Qmake mantissa (Z.to_pos (10 ^ (- exponent))%Z) in
  if Qle_bool overflowBound q then Infinity negative
  else Num (if negative then (- q)%Q else q).

Definition parseNumber (s : string) : option (number * string) :=
  let '(negative, s1) :=
    match s with
    | String "-" r => (true, r)
    | _ => (false, s)
    end in
  let '(intDigits, s2) := takeDigits s1 in
  match intDigits with
  | [] => None
  | d :: more =>
      if (d =? 0)%Z && (0 <? List.length more) then None
      else
        let fraction :=
          match s2 with
          | String "." r =>
              let '(ds, rest) := takeDigits r in
              match ds with [] => None | _ => Some (ds, rest) end
          | _ => Some ([], s2)
          end in
        match fraction with
        | None => None
        | Some (fracDigits, s3) =>
            let mantissa := valueOfDigits (intDigits ++ fracDigits) in
            let scale := Z.of_nat (List.length fracDigits) in
            let withExponent (r : string) :=
              let '(expNegative, r1) :=
                match r with
                | String "-" r' => (true, r')
                | String "+" r' => (false, r')
                | _ => (false, r)
                end in
              let '(ds, rest) := takeDigits r1 in
              match ds with
              | [] => None
              | _ =>
                  let e := valueOfDigits ds in
                  Some (makeNumber negative mantissa
                          ((if expNegative then - e else e) - scale)%Z,
                        rest)
              end in
            match s3 with
            | String "e" r => withExponent r
            | String "E" r => withExponent r
            | _ => Some (makeNumber negative mantissa (- scale)%Z, s3)
            end
        end
  end.

Definition unescape (c : ascii) : option ascii :=
  let n := nat_of_ascii c in
  if n =? 34 then Some c            (* quote *)
  else if n =? 92 then Some c       (* backslash *)
  else if n =? 47 then Some c       (* slash *)
  else if n =? 98 then Some (ascii_of_nat 8)
  else if n =? 102 then Some (ascii_of_nat 12)
  else if n =? 110 then Some (ascii_of_nat 10)
  else if n =? 114 then Some (ascii_of_nat 13)
  else if n =? 116 then Some (ascii_of_nat 9)
  else None.

(** The text after the opening quote, up to the closing quote. *)
Fixpoint parseStringBody (s : string) : option (string * string) :=
  match s with
  | EmptyString => None
  | String c r =>
      if nat_of_ascii c =? 34 then Some (EmptyString, r)
      else if nat_of_ascii c =? 92 then
        match r with
        | String "u" (String h1 (String h2 (String h3 (String h4 r')))) =>
            match hexOf h1, hexOf h2, hexOf h3, hexOf h4 with
            | Some a, Some b, Some c', Some d =>
                let code := ((a * 16 + b) * 16 + c') * 16 + d in
                if code <? 128 then
                  match parseStringBody r' with
                  | Some (t, rest) => Some (String (ascii_of_nat code) t, rest)
                  | None => None
                  end
                else None
            | _, _, _, _ => None
            end
        | String e r' =>
            match unescape e with
            | Some ch =>
                match parseStringBody r' with
                | Some (t, rest) => Some (String ch t, rest)
                | None => None
                end
            | None => None
            end
        | EmptyString => None
        end
      else if nat_of_ascii c <? 32 then None
      else
        match parseStringBody r with
        | Some (t, rest) => Some (String c t, rest)
        | None => None
        end
  end.

Definition dropPrefix (p s : string) : option string :=
  if prefix p s
  then Some (substring (String.length p) (String.length s - String.length p) s)
  else None.

Fixpoint parseValue (fuel : nat) (s : string) {struct fuel}
  : option (json * string) :=
  match fuel with
  | 0 => None
  | S k =>
      match skipSpace s with
      | EmptyString => None
      | String c r as s' =>
          let n := nat_of_ascii c in
          if n =? 123 then                      (* opening brace *)
            match skipSpace r with
            | String c' r' =>
                if nat_of_ascii c' =? 125 then Some (JObj [], r')
                else parseMembers k r []
            | EmptyString => None
            end
          else if n =? 91 then                  (* opening bracket *)
            match skipSpace r with
            | String c' r' =>
                if nat_of_ascii c' =? 93 then Some (JArr [], r')
                else parseElements k r []
            | EmptyString => None
            end
          else if n =? 34 then
            match parseStringBody r with
            | Some (t, rest) => Some (JStr t, rest)
            | None => None
            end
          else
            match dropPrefix "true" s', dropPrefix "false" s',
                  dropPrefix "null" s' with
            | Some rest, _, _ => Some (JBool true, rest)
            | _, Some rest, _ => Some (JBool false, rest)
            | _, _, Some rest => Some (JNull, rest)
            | None, None, None =>
                match parseNumber s' with
                | Some (x, rest) => Some (JNum x, rest)
                | None => None
                end
            end
      end
  end
with parseElements (fuel : nat) (s : string) (acc : list json) {struct fuel}
  : option (json * string) :=
  match fuel with
  | 0 => None
  | S k =>
      match parseValue k s with
      | Some (v, rest) =>
          match skipSpace rest with
          | String c r =>
              if nat_of_ascii c =? 44 then parseElements k r (acc ++ [v])
              else if nat_of_ascii c =? 93 then Some (JArr (acc ++ [v]), r)
              else None
          | EmptyString => None
          end
      | None => None
      end
  end
with parseMembers (fuel : nat) (s : string) (acc : list (string * json))
     {struct fuel} : option (json * string) :=
  match fuel with
  | 0 => None
  | S k =>
      match skipSpace s with
      | String q r =>
          if nat_of_ascii q =? 34 then
            match parseStringBody r with
            | Some (key, afterKey) =>
                match skipSpace afterKey with
                | String colon afterColon =>
                    if nat_of_ascii colon =? 58 then
                      match parseValue k afterColon with
                      | Some (v, rest) =>
                          match skipSpace rest with
                          | String c r' =>
                              if nat_of_ascii c =? 44
                              then parseMembers k r' (acc ++ [(key, v)])
                              else if nat_of_ascii c =? 125
                              then Some (JObj (acc ++ [(key, v)]), r')
                              else None
                          | EmptyString => None
                          end
                      | None => None
                      end
                    else None
                | EmptyString => None
                end
            | None => None
            end
          else None
      | EmptyString => None
      end
  end.

Definition parseJson (text : string) : option json :=
  match parseValue (2 * String.length text + 2) text with
  | Some (v, rest) =>
      if (skipSpace rest =? "")%string then Some v else None
  | None => None
  end.

End JsonText.

(* ================================================================= *)
(** * The schema bounds, as the specification words them *)
(* ================================================================= *)

(** These predicates are not part of the sources: they restate the bounds
    of the insight schema, and name the grades of a given score, so that
    the outputs of the sources can be checked against them. *)
Module Schema.

(** A non-empty string of at most [cap] characters. *)
Definition withinCap (cap : nat) (s : string) : bool :=
  truthy s && (String.length s <=? cap).

(** Between [min] and [max] entries, each within the cap of 180. *)
Definition entriesOk (min max : nat) (xs : list string) : bool :=
  (min <=? List.length xs) && (List.length xs <=? max)
  && forallb (withinCap 180) xs.

Definition studentSchemaOk (i : StudentInsights.t) : bool :=
  withinCap 220 (StudentInsights.positiveObservation i)
  && entriesOk 1 3 (StudentInsights.strengths i)
  && entriesOk 1 2 (StudentInsights.improvementAreas i)
  && entriesOk 2 3 (StudentInsights.strategies i)
  && withinCap 200 (StudentInsights.nextStepGoal i)
  && withinCap 200 (StudentInsights.encouragement i).

Definition attentionOk (a : Attention.t) : bool :=
  withinCap 80 (Attention.name a) && withinCap 160 (Attention.reason a).

(** Grades whose score is [v]. *)
Definition sameScore (v : Q) (g : Grade.t) : bool := Qeq_bool (Grade.score g) v.

(** Under the comparator [cmp], [a] may stand before [b]. *)
Definition before (T : Type) (cmp : T -> T -> Q) (a b : T) : Prop :=
  (cmp a b <= 0)%Q.

(** What one element of a raw batch, at a given position, contributes to
    the two lists returned by [validateStudents]. *)
Definition validContribution (dateParses : string -> bool) (iv : nat * json)
  : list Student.t :=
  match Validator.validateStudent dateParses (snd iv) (fst iv) with
  | Ok s => [s]
  | Err _ => []
  end.

Definition errorPrefix (index : nat) : string :=
  ("students[" ++ natToString index ++ "]: ")%string.

Definition errorContribution (dateParses : string -> bool) (iv : nat * json)
  : list string :=
  match Validator.validateStudent dateParses (snd iv) (fst iv) with
  | Ok _ => []
  | Err es => map (fun e => (errorPrefix (fst iv) ++ e)%string) es
  end.

(** The errors of the fields of a student payload and of a teacher
    payload, field by field, in the order in which the parsers look at
    the fields when they collect errors. *)
Definition studentFieldErrors (record : json) : list string :=
  Insights.pushUnless
    (Insights.safeString (getProp record "positiveObservation") 220)
    "positiveObservation must be a non-empty string" []
  ++ Insights.pushUnless
       (Insights.safeString (getProp record "nextStepGoal") 200)
       "nextStepGoal must be a non-empty string" []
  ++ Insights.pushUnless
       (Insights.safeString (getProp record "encouragement") 200)
       "encouragement must be a non-empty string" []
  ++ errorsOf (Insights.normalizeStringArray (getProp record "strengths")
                 1 3 "strengths")
  ++ errorsOf (Insights.normalizeStringArray (getProp record "improvementAreas")
                 1 2 "improvementAreas")
  ++ errorsOf (Insights.normalizeStringArray (getProp record "strategies")
                 2 3 "strategies").

Definition attentionEntry (ii : nat * json) : list Attention.t * list string :=
  Insights.attentionStep ([], []) ii.

Definition attentionErrors (record : json) : list string :=
  match getProp record "attentionNeeded" with
  | Some (JArr items) => flat_map (fun ii => snd (attentionEntry ii)) (indexed items)
  | _ => ["attentionNeeded must be an array"]
  end.

Definition teacherFieldErrors (record : json) : list string :=
  Insights.pushUnless
    (Insights.safeString (getProp record "classOverview") 240)
    "classOverview must be a non-empty string" []
  ++ errorsOf (Insights.normalizeStringArray (getProp record "strengths")
                 1 4 "strengths")
  ++ errorsOf (Insights.normalizeStringArray (getProp record "nextSteps")
                 2 4 "nextSteps")
  ++ attentionErrors record.

(** The text made of the given lines, each preceded by a line feed. *)
Fixpoint linesAfter (xs : list string) : string :=
  match xs with
  | [] => EmptyString
  | x :: r => (nl ++ x ++ linesAfter r)%string
  end.

(** The strings that the fallback builders copy from their arguments
    respect the caps of the fields they end up in. *)
Definition studentInputsOk (a : StudentAnalysis.t)
           (p : option TeacherPreferences.t) : bool :=
  forallb (withinCap 180) (firstn 3 (StudentAnalysis.strengths a))
  && forallb (withinCap 180) (firstn 2 (StudentAnalysis.improvementAreas a))
  && (String.length
        (Insights.subjectTip
           (join ", "
              (map Grade.subject
                 (StudentMetrics.lowestSubjects (StudentAnalysis.metrics a)))))
      <=? 180)
  && forallb (fun s => String.length s <=? 180) (Insights.preferredOf p)
  && match Insights.firstGoalOf p with
     | Some g => String.length g <=? 200
     | None => true
     end.

Definition teacherInputsOk (s : TeacherSummary.t)
           (p : option TeacherPreferences.t) : bool :=
  Qleb 0 (TeacherSummary.classAverage s)
  && Qleb (TeacherSummary.classAverage s) 100
  && (String.length
        (Insights.topPerformers (join ", " (TeacherSummary.topStudents s)))
      <=? 180)
  && forallb (withinCap 80) (TeacherSummary.attentionNeeded s)
  && forallb (withinCap 180) (firstn 2 (Insights.preferredStrategiesOf p)).

Definition contributesError (dateParses : string -> bool) (iv : nat * json)
  : bool :=
  0 <? List.length (errorContribution dateParses iv).

Definition teacherSchemaOk (i : TeacherInsights.t) : bool :=
  withinCap 240 (TeacherInsights.classOverview i)
  && entriesOk 1 4 (TeacherInsights.strengths i)
  && forallb attentionOk (TeacherInsights.attentionNeeded i)
  && entriesOk 2 4 (TeacherInsights.nextSteps i).

End Schema.

(* ================================================================= *)
(** * Inputs used by the examples *)
(* ================================================================= *)

Module Examples.


(** The student of [tests/analyzer_test.ts]. *)
Definition testStudent : Student.t :=
  Student.mk "S100" "Test Student" "test@example.com"
    [Grade.mk "Math" 90; Grade.mk "English" 70]
    5 60 "Needs confidence in class." declining "2024-09-01".

(** A student on the boundary of the risk classification. *)
Definition boundaryStudent : Student.t :=
  Student.mk "S101" "Boundary Student" "boundary@example.com"
    [Grade.mk "Math" 70]
    5 60 "" declining "2024-09-01".

(** A student whose average lies between 70 and 75 and whose other
    figures are good. *)
Definition midStudent : Student.t :=
  Student.mk "S102" "Mid Student" "mid@example.com"
    [Grade.mk "Math" 72]
    9 95 "" stable "2024-09-01".

(** A student who does well everywhere. *)
Definition strongStudent : Student.t :=
  Student.mk "S103" "Strong Student" "strong@example.com"
    [Grade.mk "Math" 95; Grade.mk "Art" 91]
    9 95 "" improving "2024-09-01".

(** Three grades, the first two with equal scores. *)
Definition tiedGrades : list Grade.t :=
  [Grade.mk "History" 80; Grade.mk "Biology" 80; Grade.mk "Math" 90].

Definition tiedStudent : Student.t :=
  Student.mk "S104" "Tied Student" "tied@example.com" tiedGrades
    7 88 "" stable "2024-09-01".

Definition noPreferences : TeacherPreferences.t :=
  TeacherPreferences.mk None None None None None.


Definition shortPreferences : TeacherPreferences.t :=
  TeacherPreferences.mk (Some ["Build a growth mindset"]) None
    (Some ["Use the Pomodoro technique for time management";
           "Practice active recall with flashcards"])
    (Some warm) None.


Definition smallSummary : TeacherSummary.t :=
  TeacherSummary.mk (8467 # 100) ["Emma"; "Liam"] ["Alex"] [].

(** The rejected payload of [tests/insights_test.ts]:
    an object with [positiveObservation] only. *)
Definition incompleteStudentPayload : string :=
  ("{ " ++ quoted "positiveObservation" ++ ": " ++ quoted "Good job" ++ " }")%string.

(** The same kind of payload for the teacher parser. *)
Definition incompleteTeacherPayload : string :=
  ("{ " ++ quoted "classOverview" ++ ": " ++ quoted "Steady" ++ " }")%string.

(** A complete student payload wrapped in conversational prose. *)
Definition wrappedBody : string :=
  (" " ++ quoted "positiveObservation" ++ ": " ++ quoted "You showed steady effort this week." ++ ", "
     ++ quoted "strengths" ++ ": [" ++ quoted "Consistent participation" ++ "], "
     ++ quoted "improvementAreas" ++ ": [" ++ quoted "Assignment organization" ++ "], "
     ++ quoted "strategies" ++ ": [" ++ quoted "Use a checklist" ++ ", "
     ++ quoted "Review notes for 15 minutes nightly" ++ "], "
     ++ quoted "nextStepGoal" ++ ": " ++ quoted "Complete all assignments on time this week." ++ ", "
     ++ quoted "encouragement" ++ ": " ++ quoted "Small steps add up." ++ " ")%string.

(** The object it denotes. *)
Definition wrappedValue : json :=
  JObj [("positiveObservation", JStr "You showed steady effort this week.");
        ("strengths", JArr [JStr "Consistent participation"]);
        ("improvementAreas", JArr [JStr "Assignment organization"]);
        ("strategies",
         JArr [JStr "Use a checklist"; JStr "Review notes for 15 minutes nightly"]);
        ("nextStepGoal", JStr "Complete all assignments on time this week.");
        ("encouragement", JStr "Small steps add up.")].

Definition wrapperBefore : string := ("Here is the JSON:" ++ nl)%string.
Definition wrapperAfter : string := (nl ++ "Thanks!")%string.

Definition wrappedPayload : string :=
  (wrapperBefore ++ "{" ++ wrappedBody ++ "}" ++ wrapperAfter)%string.

(** A raw batch: one good record, one that is not an object, one with
    two bad fields. *)
Definition goodRecord : json :=
  JObj [("id", JStr "S1"); ("name", JStr "Emma"); ("email", JStr "emma@example.com");
        ("grades", JArr [JObj [("subject", JStr "Math"); ("score", JNum (Num 95))]]);
        ("participationScore", JNum (Num 9));
        ("assignmentCompletionRate", JNum (Num 98));
        ("teacherNotes", JStr "");
        ("performanceTrend", JStr "improving");
        ("lastAssessmentDate", JStr "2026-01-07")].

Definition badRecord : json :=
  JObj [("id", JStr "S2"); ("name", JStr "  "); ("email", JStr "liam@example");
        ("grades", JArr [JObj [("subject", JStr "Math"); ("score", JNum (Num 95))]]);
        ("participationScore", JNum (Num 9));
        ("assignmentCompletionRate", JNum (Num 98));
        ("teacherNotes", JStr "");
        ("performanceTrend", JStr "improving");
        ("lastAssessmentDate", JStr "2026-01-07")].

Definition rawBatch : json := JArr [goodRecord; JNum (Num 7); badRecord].

End Examples.

(* ================================================================= *)
(** * [src/rules.ts] *)
(* ================================================================= *)

Module Rules.

(** [items.filter((item) => typeof item === "string")] *)
Fixpoint stringsOf (items : list json) : list string :=
  match items with
  | [] => []
  | JStr s :: r => s :: stringsOf r
  | _ :: r => stringsOf r
  end.

Definition sanitizeStringArray (value : option json) : option (list string) :=
  match value with
  | Some (JArr items) =>
      let cleaned := filter truthy (map trim (stringsOf items)) in
      if 0 <? List.length cleaned then Some cleaned else None
  | _ => None
  end.

Definition parseTone (value : option json) : option Tone :=
  match value with
  | Some (JStr s) =>
      if (s =? "warm")%string then Some warm
      else if (s =? "neutral")%string then Some neutral
      else if (s =? "direct")%string then Some direct
      else None
  | _ => None
  end.

(** Steps 4 and 5 of [loadTeacherRules], on the decoded file. *)
Definition rulesOfParsed (parsed : json) : option TeacherPreferences.t :=
  if negb (isObject parsed) then None
  else
    Some (TeacherPreferences.mk
            (sanitizeStringArray (getProp parsed "classGoals"))
            (sanitizeStringArray (getProp parsed "focusAreas"))
            (sanitizeStringArray (getProp parsed "preferredStrategies"))
            (parseTone (getProp parsed "tone"))
            (match getProp parsed "teacherNotes" with
             | Some (JStr s) => Some (trim s)
             | _ => None
             end)).

Section WithFiles.

(** [JSON.parse], and [Deno.readTextFile]: [None] when it throws. *)
Variable JSON_parse : string -> option json.
Variable readTextFile : string -> option string.

(** [loadTeacherRules], without its log messages: every failure (no path,
    unreadable file, malformed JSON, a value that is not an object) gives
    [undefined]. *)
Definition loadTeacherRules (path : option string)
  : option TeacherPreferences.t :=
  match path with
  | None => None
  | Some p =>
      if negb (truthy p) then None
      else
        match readTextFile p with
        | None => None
        | Some data =>
            match JSON_parse data with
            | None => None
            | Some parsed => rulesOfParsed parsed
            end
        end
  end.

End WithFiles.

End Rules.

(* ================================================================= *)
(** * [src/analyzer.ts]: the class summary *)
(* ================================================================= *)

Module ClassAnalyzer.

Definition averageOf (analysis : StudentAnalysis.t) : Q :=
  StudentMetrics.averageScore (StudentAnalysis.metrics analysis).

Definition nameOf (analysis : StudentAnalysis.t) : string :=
  Student.name (StudentAnalysis.student analysis).

Definition riskEqb (a b : RiskLevel) : bool :=
  match a, b with
  | low, low | medium, medium | high, high => true
  | _, _ => false
  end.

(** The filter of step 4: flagged for attention, or high risk. *)
Definition flagged (analysis : StudentAnalysis.t) : bool :=
  StudentMetrics.needsAttention (StudentAnalysis.metrics analysis)
  || riskEqb (StudentAnalysis.riskLevel analysis) high.

Definition isDeclining (analysis : StudentAnalysis.t) : bool :=
  trendEqb (Student.performanceTrend (StudentAnalysis.student analysis)) declining.

Definition hasStrongCompletion (analysis : StudentAnalysis.t) : bool :=
  Qleb 90 (StudentMetrics.assignmentCompletionRate (StudentAnalysis.metrics analysis)).

Definition buildTeacherSummary (analyses : list StudentAnalysis.t)
  : TeacherSummary.t :=
  let classAverage := Analyzer.average (map averageOf analyses) in
  let sortedByAverage := sort (Analyzer.descending averageOf) analyses in
  let topStudents := map nameOf (firstn 3 sortedByAverage) in
  let attentionNeeded := map nameOf (filter flagged analyses) in
  let notes : list string := [] in
  let declining := List.length (filter isDeclining analyses) in
  let notes :=
    if 0 <? declining
    then notes ++ [(natToString declining
                      ++ " student(s) show a declining trend.")%string]
    else notes in
  let strongCompletion := List.length (filter hasStrongCompletion analyses) in
  let notes :=
    if 0 <? strongCompletion
    then notes ++ [(natToString strongCompletion
                      ++ " student(s) have 90%+ assignment completion.")%string]
    else notes in
  TeacherSummary.mk classAverage topStudents attentionNeeded notes.

End ClassAnalyzer.

(* ================================================================= *)
(** * [src/email.ts] *)
(* ================================================================= *)

Module Email.

Module EmailContent.
Record t : Type := mk {
  to : string;
  subject : string;
  text : string;
  html : string
}.
End EmailContent.

(** [s.replace(/\n/g, "<br />")] *)
Fixpoint breakLines (s : string) : string :=
  match s with
  | EmptyString => EmptyString
  | String c r =>
      if Ascii.eqb c (ascii_of_nat 10) then ("<br />" ++ breakLines r)%string
      else String c (breakLines r)
  end.

Definition buildStudentEmail (student : Student.t) (insights : string)
  : EmailContent.t :=
  let subject :=
    ("Your learning update and next steps, " ++ Student.name student)%string in
  let trimmedInsights := trim insights in
  let text :=
    join nl
      [("Hi " ++ Student.name student ++ ",")%string;
       "";
       "Here is a supportive summary of your recent progress, plus a few next steps:";
       "";
       trimmedInsights;
       "";
       "You can do this. Pick one focus to try this week and build from there.";
       "Your Educational Assistant"] in
  let html :=
    (nl ++ "    <p>Hi " ++ Student.name student ++ ",</p>" ++ nl
        ++ "    <p>Here is a supportive summary of your recent progress, plus a few next steps:</p>"
        ++ nl
        ++ "    <p>" ++ breakLines trimmedInsights ++ "</p>" ++ nl
        ++ "    <p>You can do this. Pick one focus to try this week and build from there.<br />Your Educational Assistant</p>"
        ++ nl ++ "  ")%string in
  EmailContent.mk (Student.email student) subject text html.

Definition buildTeacherEmail (teacherEmail : string) (summary : string)
  : EmailContent.t :=
  let subject := "Class performance summary" in
  let text :=
    ("Hello," ++ nl ++ nl ++ summary ++ nl ++ nl ++ "Best," ++ nl
       ++ "Educational Assistant")%string in
  let html :=
    (nl ++ "    <p>Hello,</p>" ++ nl
        ++ "    <p>" ++ breakLines summary ++ "</p>" ++ nl
        ++ "    <p>Best,<br />Educational Assistant</p>" ++ nl ++ "  ")%string in
  EmailContent.mk teacherEmail subject text html.

(** The class [[a-zA-Z0-9._-]] of [sendEmail]. *)
Definition isFileSafe (c : ascii) : bool :=
  let n := nat_of_ascii c in
  ((97 <=? n) && (n <=? 122)) || ((65 <=? n) && (n <=? 90))
  || ((48 <=? n) && (n <=? 57))
  || (n =? 46) || (n =? 95) || (n =? 45).

(** [email.to.replace(/[^a-zA-Z0-9._-]/g, "_")] *)
Fixpoint safeRecipient (s : string) : string :=
  match s with
  | EmptyString => EmptyString
  | String c r =>
      String (if isFileSafe c then c else "_"%char) (safeRecipient r)
  end.

(** The file written by [sendEmail]: headers, a blank line, the text. *)
Definition emailFile (emailFrom : string) (email : EmailContent.t) : string :=
  join nl
    [("From: " ++ emailFrom)%string;
     ("To: " ++ EmailContent.to email)%string;
     ("Subject: " ++ EmailContent.subject email)%string;
     "";
     EmailContent.text email;
     ""].

End Email.

(* ================================================================= *)
(** * [src/memory.ts] *)
(* ================================================================= *)

Module Memory.

Module MemoryEntry.
Record t : Type := mk { date : string; note : string }.
End MemoryEntry.

Module StudentMemory.
Record t : Type := mk {
  studentId : string;
  summary : string;
  strengths : list string;
  improvementAreas : list string;
  goals : list string;
  lastUpdated : string;
  history : list MemoryEntry.t
}.
End StudentMemory.

Module TeacherMemory.
Record t : Type := mk {
  summary : string;
  classGoals : list string;
  focusAreas : list string;
  lastUpdated : string;
  history : list MemoryEntry.t
}.
End TeacherMemory.

(** [seen.has(item)], the set being the list of the items added so far. *)
Definition has (seen : list string) (item : string) : bool :=
  existsb (String.eqb item) seen.

(** The [for ... of] loop of [uniqueList]: [continue] on an item already
    seen, [break] as soon as the result has [max] entries. *)
Fixpoint uniqueLoop (cleaned seen result : list string) (max : nat)
  : list string :=
  match cleaned with
  | [] => result
  | item :: rest =>
      if has seen item then uniqueLoop rest seen result max
      else
        let seen := item :: seen in
        let result := result ++ [item] in
        if max <=? List.length result then result
        else uniqueLoop rest seen result max
  end.

Definition uniqueList (items : list string) (max : nat) : list string :=
  let cleaned := filter truthy (map trim items) in
  uniqueLoop cleaned [] [] max.

(** [limit] is an integer. *)
Definition trimHistory (entries : list MemoryEntry.t) (limit : Z)
  : list MemoryEntry.t :=
  if (limit <=? 0)%Z then [] else firstn (Z.to_nat limit) entries.

(** [now] is [new Date().toISOString()]. *)
Definition updateStudentMemory (now : string) (previous : StudentMemory.t)
           (student : Student.t) (insights : StudentInsights.t)
           (historyLimit : Z) : StudentMemory.t :=
  let summary :=
    join " " [StudentInsights.positiveObservation insights;
              ("Goal: " ++ StudentInsights.nextStepGoal insights)%string] in
  let historyEntry :=
    MemoryEntry.mk now
      ("Focus: " ++ join "; " (StudentInsights.improvementAreas insights)
         ++ " | Goal: " ++ StudentInsights.nextStepGoal insights)%string in
  StudentMemory.mk
    (Student.id student)
    summary
    (uniqueList (StudentInsights.positiveObservation insights
                   :: StudentInsights.strengths insights) 3)
    (uniqueList (StudentInsights.improvementAreas insights) 3)
    (uniqueList (StudentInsights.nextStepGoal insights
                   :: StudentMemory.goals previous) 3)
    now
    (trimHistory (historyEntry :: StudentMemory.history previous) historyLimit).

Definition updateTeacherMemory (now : string) (previous : TeacherMemory.t)
           (insights : TeacherInsights.t) (historyLimit : Z)
  : TeacherMemory.t :=
  let summary := TeacherInsights.classOverview insights in
  let historyEntry :=
    MemoryEntry.mk now
      ("Next steps: " ++ join "; " (TeacherInsights.nextSteps insights))%string in
  TeacherMemory.mk
    summary
    (uniqueList (TeacherMemory.classGoals previous) 4)
    (uniqueList (TeacherMemory.focusAreas previous) 4)
    now
    (trimHistory (historyEntry :: TeacherMemory.history previous) historyLimit).

End Memory.

(* ================================================================= *)
(** * [src/main.ts]: one cycle *)
(* ================================================================= *)

(** [runOnce] from the decoded students file on.  The history store is
    the list of the messages recorded, with the final status of the run;
    log messages are left out.  The provider and the mail writer depend on
    the outside world, so they are oracles indexed by the number of the
    call; the provider either returns a text or throws.  [analyzeStudent]
    cannot throw on a validated student, so the branch that records
    "analysis_failed" does not appear. *)
Module Run.

Inductive Provided : Type :=
| Returned (raw : string)
| Threw (message : string).

Module StudentMessage.
Record t : Type := mk {
  studentId : string;
  analysis : option StudentAnalysis.t;
  insights : option StudentInsights.t;
  emailSubject : option string;
  emailPath : option string;
  status : string;
  error : option string;
  usedFallback : bool
}.
End StudentMessage.

Module TeacherMessage.
Record t : Type := mk {
  summary : TeacherSummary.t;
  insights : option TeacherInsights.t;
  emailSubject : option string;
  emailPath : option string;
  status : string;
  error : option string;
  usedFallback : bool
}.
End TeacherMessage.

Module Outcome.
Record t : Type := mk {
  studentCount : nat;
  validStudentCount : nat;
  studentMessages : list StudentMessage.t;
  teacherMessage : option TeacherMessage.t;
  finalStatus : string
}.
End Outcome.

Section WithWorld.

Variable JSON_parse : string -> option json.
Variable dateParses : string -> bool.
Variable generateStudentInsights : nat -> StudentAnalysis.t -> Provided.
Variable generateTeacherSummary : TeacherSummary.t -> Provided.
(** [sendEmail]: the path of the file written, or [null]. *)
Variable sendEmail : nat -> Email.EmailContent.t -> option string.
Variable teacherEmail : string.
Variable teacherRules : option TeacherPreferences.t.

(** [loadStudents], after the file is read and decoded:
    the valid students and the number of records in the file. *)
Definition loadStudents (parsed : json) : list Student.t * nat :=
  let batch := Validator.validateStudents dateParses parsed in
  let totalCount :=
    match parsed with JArr items => List.length items | _ => 0 end in
  (Validator.valid batch, totalCount).

(** One turn of [for (const student of students)]; the state is the
    array [analyses] and the messages recorded so far. *)
Definition studentTurn
           (st : list StudentAnalysis.t * list StudentMessage.t)
           (ts : nat * Student.t)
  : list StudentAnalysis.t * list StudentMessage.t :=
  let '(analyses, recorded) := st in
  let '(turn, student) := ts in
  let analysis := Analyzer.analyzeStudent student in
  let analyses := analyses ++ [analysis] in
  match generateStudentInsights turn analysis with
  | Returned rawInsights =>
      let out :=
        Main.studentInsightStep JSON_parse analysis teacherRules rawInsights in
      let email :=
        Email.buildStudentEmail (StudentAnalysis.student analysis)
          (Main.StudentOutcome.message out) in
      let emailPath := sendEmail turn email in
      (analyses,
       recorded
         ++ [StudentMessage.mk
               (Student.id (StudentAnalysis.student analysis))
               (Some analysis)
               (Some (Main.StudentOutcome.insights out))
               (Some (Email.EmailContent.subject email))
               emailPath
               "sent"
               None
               (Main.StudentOutcome.usedFallback out)])
  | Threw message =>
      (analyses,
       recorded
         ++ [StudentMessage.mk
               (Student.id (StudentAnalysis.student analysis))
               (Some analysis)
               None None None
               "insights_failed"
               (Some message)
               false])
  end.

Definition teacherTurn (analyses : list StudentAnalysis.t) (turn : nat)
  : TeacherMessage.t :=
  let teacherSummary := ClassAnalyzer.buildTeacherSummary analyses in
  match generateTeacherSummary teacherSummary with
  | Returned rawSummary =>
      let out :=
        Main.teacherInsightStep JSON_parse teacherSummary teacherRules
          rawSummary in
      let email :=
        Email.buildTeacherEmail teacherEmail (Main.TeacherOutcome.message out) in
      let emailPath := sendEmail turn email in
      TeacherMessage.mk teacherSummary
        (Some (Main.TeacherOutcome.insights out))
        (Some (Email.EmailContent.subject email))
        emailPath
        "sent"
        None
        (Main.TeacherOutcome.usedFallback out)
  | Threw message =>
      TeacherMessage.mk (ClassAnalyzer.buildTeacherSummary analyses)
        None None None
        "summary_failed"
        (Some message)
        false
  end.

Definition runOnce (parsed : json) : Outcome.t :=
  let '(students, totalCount) := loadStudents parsed in
  if List.length students =? 0 then
    Outcome.mk totalCount (List.length students) [] None "no_valid_students"
  else
    let '(analyses, recorded) :=
      fold_left studentTurn (indexed students) ([], []) in
    if List.length analyses =? 0 then
      Outcome.mk totalCount (List.length students) recorded None
        "no_successful_analyses"
    else
      Outcome.mk totalCount (List.length students) recorded
        (Some (teacherTurn analyses (List.length students)))
        "completed".

End WithWorld.

End Run.

(* ================================================================= *)
(** * Vocabulary for further properties *)
(* ================================================================= *)

(** Like [Schema], these definitions are not part of the sources. *)
Module Props.

(** No white space at either end. *)
Definition isTrimmed (s : string) : bool := (trim s =? s)%string.

(** The first character, if any, is not white space. *)
Definition startsClean (s : string) : bool :=
  match s with
  | EmptyString => true
  | String c _ => negb (isWhiteSpace c)
  end.

(** A grade object that [validateGrade] has nothing to say against. *)
Definition wellFormedGrade (value : json) : bool :=
  Validator.isRecord (Some value)
  && Validator.isNonEmptyString (getProp value "subject")
  && Validator.inRange (getProp value "score") 0 100.

(** A student record that [validateStudent] has nothing to say against. *)
Definition wellFormedRecord (dateParses : string -> bool) (value : json)
  : bool :=
  Validator.isRecord (Some value)
  && Validator.isNonEmptyString (getProp value "id")
  && Validator.isNonEmptyString (getProp value "name")
  && Validator.isNonEmptyString (getProp value "email")
  && match getProp value "email" with
     | Some (JStr s) => Validator.EMAIL_PATTERN_test s
     | _ => false
     end
  && match getProp value "grades" with
     | Some (JArr (g :: gs)) => forallb wellFormedGrade (g :: gs)
     | _ => false
     end
  && Validator.inRange (getProp value "participationScore") 1 10
  && Validator.inRange (getProp value "assignmentCompletionRate") 0 100
  && match getProp value "teacherNotes" with
     | Some (JStr _) => true
     | _ => false
     end
  && match Validator.parseTrend (getProp value "performanceTrend") with
     | Some _ => true
     | None => false
     end
  && Validator.isValidDate dateParses (getProp value "lastAssessmentDate").

(** The invariants of a validated student. *)
Definition gradeOk (g : Grade.t) : bool :=
  truthy (Grade.subject g) && isTrimmed (Grade.subject g)
  && Qleb 0 (Grade.score g) && Qleb (Grade.score g) 100.

Definition studentOk (dateParses : string -> bool) (s : Student.t) : bool :=
  truthy (Student.id s) && isTrimmed (Student.id s)
  && truthy (Student.name s) && isTrimmed (Student.name s)
  && Validator.EMAIL_PATTERN_test (Student.email s)
  && (0 <? List.length (Student.grades s))
  && forallb gradeOk (Student.grades s)
  && Qleb 1 (Student.participationScore s)
  && Qleb (Student.participationScore s) 10
  && Qleb 0 (Student.assignmentCompletionRate s)
  && Qleb (Student.assignmentCompletionRate s) 100
  && dateParses (Student.lastAssessmentDate s).

(** The JSON object that carries a student insight, and the one that
    carries a teacher insight. *)
Definition studentInsightsToJson (i : StudentInsights.t) : json :=
  JObj [("positiveObservation", JStr (StudentInsights.positiveObservation i));
        ("strengths", JArr (map JStr (StudentInsights.strengths i)));
        ("improvementAreas", JArr (map JStr (StudentInsights.improvementAreas i)));
        ("strategies", JArr (map JStr (StudentInsights.strategies i)));
        ("nextStepGoal", JStr (StudentInsights.nextStepGoal i));
        ("encouragement", JStr (StudentInsights.encouragement i))].

Definition attentionToJson (a : Attention.t) : json :=
  JObj [("name", JStr (Attention.name a)); ("reason", JStr (Attention.reason a))].

Definition teacherInsightsToJson (i : TeacherInsights.t) : json :=
  JObj [("classOverview", JStr (TeacherInsights.classOverview i));
        ("strengths", JArr (map JStr (TeacherInsights.strengths i)));
        ("attentionNeeded",
         JArr (map attentionToJson (TeacherInsights.attentionNeeded i)));
        ("nextSteps", JArr (map JStr (TeacherInsights.nextSteps i)))].

(** Every string of an insight is trimmed. *)
Definition studentInsightsTrimmed (i : StudentInsights.t) : bool :=
  isTrimmed (StudentInsights.positiveObservation i)
  && forallb isTrimmed (StudentInsights.strengths i)
  && forallb isTrimmed (StudentInsights.improvementAreas i)
  && forallb isTrimmed (StudentInsights.strategies i)
  && isTrimmed (StudentInsights.nextStepGoal i)
  && isTrimmed (StudentInsights.encouragement i).

Definition teacherInsightsTrimmed (i : TeacherInsights.t) : bool :=
  isTrimmed (TeacherInsights.classOverview i)
  && forallb isTrimmed (TeacherInsights.strengths i)
  && forallb (fun a => isTrimmed (Attention.name a)
                       && isTrimmed (Attention.reason a))
       (TeacherInsights.attentionNeeded i)
  && forallb isTrimmed (TeacherInsights.nextSteps i).

(** The strings among the items of a JSON array that [safeString] keeps,
    as it returns them. *)
Definition usableStrings (items : list json) : list string :=
  keepTruthy (map (fun item => Insights.safeString (Some item) 180) items).

(** How often a character occurs. *)
Fixpoint countChar (c : ascii) (s : string) : nat :=
  match s with
  | EmptyString => 0
  | String d r => (if Ascii.eqb d c then 1 else 0) + countChar c r
  end.

(** Every character is in the class of file-safe characters. *)
Fixpoint allFileSafe (s : string) : bool :=
  match s with
  | EmptyString => true
  | String c r => Email.isFileSafe c && allFileSafe r
  end.

(** The two sentences of one pair contradict each other. *)
Definition contradictory : list (string * string) :=
  [("Strong overall academic performance",
    "Overall grade average needs improvement");
   ("Consistent class participation", "Increase class participation");
   ("High assignment completion rate", "Improve assignment completion rate");
   ("Recent performance trend is improving",
    "Address recent performance decline")].

End Props.

(* ================================================================= *)
(** * [src/insights.ts]: the fallback builders on array objects *)
(* ================================================================= *)

(** The two builders once more, statement by statement, with arrays as
    objects in a store.  An argument is then a record of numbers, strings
    and addresses; [x.push(..)] writes to the array at an address,
    [slice], [filter] and [map] and an array literal make a new array,
    and a bare [const y = x.items] makes [y] an alias of the argument's
    array.  Whatever else the program holds when a builder is called
    (the arrays that decoding a rejected response left behind, for one)
    is in the same store. *)
Module FallbackStore.

Record World : Type := mkWorld {
  strings : store string;
  grades : store Grade.t;
  attentions : store Attention.t
}.

Module AnalysisRef.
Record t : Type := mk {
  student : Student.t;
  averageScore : Q;
  highestSubjects : addr;
  lowestSubjects : addr;
  participationScore : Q;
  assignmentCompletionRate : Q;
  needsAttention : bool;
  strengths : addr;
  improvementAreas : addr;
  riskLevel : RiskLevel
}.
End AnalysisRef.

Module PreferencesRef.
Record t : Type := mk {
  classGoals : option addr;
  focusAreas : option addr;
  preferredStrategies : option addr;
  tone : option Tone;
  teacherNotes : option string
}.
End PreferencesRef.

Module SummaryRef.
Record t : Type := mk {
  classAverage : Q;
  topStudents : addr;
  attentionNeeded : addr;
  notes : addr
}.
End SummaryRef.

Module StudentInsightsRef.
Record t : Type := mk {
  positiveObservation : string;
  strengths : addr;
  improvementAreas : addr;
  strategies : addr;
  nextStepGoal : string;
  encouragement : string
}.
End StudentInsightsRef.

Module TeacherInsightsRef.
Record t : Type := mk {
  classOverview : string;
  strengths : addr;
  attentionNeeded : addr;
  nextSteps : addr
}.
End TeacherInsightsRef.

(** [a.push(x)] *)
Definition push (T : Type) (h : store T) (a : addr) (x : T) : store T :=
  write h a (read h a ++ [x]).

(** [if (c) a.push(x)] *)
Definition pushWhen (c : bool) (h : store string) (a : addr) (x : string)
  : store string :=
  if c then push h a x else h.

(** [src.forEach((item) => { if (dst.length < limit) dst.push(item); })]:
    the number of turns is the length of [src] when the loop starts; the
    element of a turn is read when the turn comes, and an index that is
    no longer there is skipped. *)
Fixpoint forEachPush (limit : nat) (h : store string) (src dst : addr)
         (i count : nat) : store string :=
  match count with
  | 0 => h
  | S k =>
      let h :=
        match nth_error (read h src) i with
        | Some item => pushWhen (List.length (read h dst) <? limit) h dst item
        | None => h
        end in
      forEachPush limit h src dst (S i) k
  end.

(** [while (a.length < 2) a.push(filler)], on fuel. *)
Fixpoint padLoop (fuel : nat) (h : store string) (a : addr) : store string :=
  match fuel with
  | 0 => h
  | S k =>
      if List.length (read h a) <? 2
      then padLoop k (push h a Insights.fillerStrategy) a
      else h
  end.

(** [preferences?.field] *)
Definition fieldOf (A : Type) (preferences : option PreferencesRef.t)
           (field : PreferencesRef.t -> option A) : option A :=
  match preferences with
  | Some p => field p
  | None => None
  end.

(** Step 1: [analysis.strengths] itself, or a new array. *)
Definition strengthsOrGeneric (h : store string) (strengths : addr)
  : store string * addr :=
  if 0 <? List.length (read h strengths)
  then (h, strengths)
  else alloc h [Insights.genericStrength].

(** Step 2: a slice of [analysis.improvementAreas], or a new array. *)
Definition improvementAreasOrGeneric (h : store string)
           (improvementAreas : addr) : store string * addr :=
  if 0 <? List.length (read h improvementAreas)
  then sliceArray 2 h improvementAreas
  else alloc h [Insights.genericImprovement].

(** Step 3: the four guarded [strategies.push(..)]; the last one goes
    through the array that [map] makes of the subject names. *)
Definition ruleLadder (h : store string) (hg : store Grade.t)
           (strategies : addr) (analysis : AnalysisRef.t) : store string :=
  let h :=
    pushWhen (Qltb (AnalysisRef.assignmentCompletionRate analysis) 85)
      h strategies Insights.deadlineTip in
  let h :=
    pushWhen (Qleb (AnalysisRef.participationScore analysis) 6)
      h strategies Insights.engagementTip in
  let h :=
    pushWhen (Qltb (AnalysisRef.averageScore analysis) 75)
      h strategies Insights.studyRoutineTip in
  if 0 <? List.length (read hg (AnalysisRef.lowestSubjects analysis))
  then
    let '(h, names) :=
      alloc h (map Grade.subject
                 (read hg (AnalysisRef.lowestSubjects analysis))) in
    let subjects := join ", " (read h names) in
    push h strategies (Insights.subjectTip subjects)
  else h.

(** Step 4, student:
    [preferences?.preferredStrategies?.filter((item) => item.trim()) ?? []],
    a new array either way. *)
Definition preferredCopy (h : store string)
           (preferences : option PreferencesRef.t) : store string * addr :=
  match fieldOf preferences PreferencesRef.preferredStrategies with
  | Some items =>
      alloc h (filter (fun item => truthy (trim item)) (read h items))
  | None => alloc h []
  end.

(** Step 6: [preferences?.classGoals?.[0]?.trim() || generic]. *)
Definition goalOf (h : store string) (preferences : option PreferencesRef.t)
  : string :=
  match fieldOf preferences PreferencesRef.classGoals with
  | Some goals =>
      match nth_error (read h goals) 0 with
      | Some g => if truthy (trim g) then trim g else Insights.genericGoal
      | None => Insights.genericGoal
      end
  | None => Insights.genericGoal
  end.

Definition buildFallbackStudentInsights (w : World) (analysis : AnalysisRef.t)
           (preferences : option PreferencesRef.t)
  : World * StudentInsightsRef.t :=
  let h := strings w in
  let '(h, strengths) :=
    strengthsOrGeneric h (AnalysisRef.strengths analysis) in
  let '(h, improvementAreas) :=
    improvementAreasOrGeneric h (AnalysisRef.improvementAreas analysis) in
  let '(h, strategies) := alloc h [] in
  let h := ruleLadder h (grades w) strategies analysis in
  let '(h, preferred) := preferredCopy h preferences in
  let h :=
    forEachPush 3 h preferred strategies 0 (List.length (read h preferred)) in
  let h := padLoop 2 h strategies in
  let goal := goalOf h preferences in
  let positiveObservation := nth 0 (read h strengths) "" in
  let '(h, strengthsOut) := sliceArray 3 h strengths in
  let '(h, strategiesOut) := sliceArray 3 h strategies in
  (mkWorld h (grades w) (attentions w),
   StudentInsightsRef.mk positiveObservation strengthsOut improvementAreas
     strategiesOut goal Insights.fixedEncouragement).

(** Step 1, teacher: a new array with one sentence. *)
Definition classStrength (h : store string) (topStudents : addr)
  : store string * addr :=
  if 0 <? List.length (read h topStudents)
  then alloc h [Insights.topPerformers (join ", " (read h topStudents))]
  else alloc h [Insights.genericClassStrength].

(** Step 3, teacher: [preferences?.preferredStrategies ?? []], the
    array of the preferences itself or a new empty one. *)
Definition preferredOrEmpty (h : store string)
           (preferences : option PreferencesRef.t) : store string * addr :=
  match fieldOf preferences PreferencesRef.preferredStrategies with
  | Some items => (h, items)
  | None => alloc h []
  end.

Definition buildFallbackTeacherInsights (w : World) (summary : SummaryRef.t)
           (preferences : option PreferencesRef.t)
  : World * TeacherInsightsRef.t :=
  let h := strings w in
  let '(h, strengths) := classStrength h (SummaryRef.topStudents summary) in
  let '(ha, attentionNeeded) :=
    alloc (attentions w)
      (map (fun name => Attention.mk name Insights.genericReason)
           (read h (SummaryRef.attentionNeeded summary))) in
  let '(h, nextSteps) := alloc h [] in
  let '(h, preferred) := preferredOrEmpty h preferences in
  let h :=
    forEachPush 2 h preferred nextSteps 0 (List.length (read h preferred)) in
  let h :=
    if List.length (read h nextSteps) <? 2
    then push (push h nextSteps Insights.smallGroupStep) nextSteps
           Insights.successStoryStep
    else h in
  let '(h, nextStepsOut) := sliceArray 4 h nextSteps in
  (mkWorld h (grades w) ha,
   TeacherInsightsRef.mk
     (Insights.classOverviewOf (toFixed1 (SummaryRef.classAverage summary)))
     strengths attentionNeeded nextStepsOut).

(** The values that the references stand for in a world. *)
Definition analysisView (w : World) (a : AnalysisRef.t) : StudentAnalysis.t :=
  StudentAnalysis.mk (AnalysisRef.student a)
    (StudentMetrics.mk (AnalysisRef.averageScore a)
       (read (grades w) (AnalysisRef.highestSubjects a))
       (read (grades w) (AnalysisRef.lowestSubjects a))
       (AnalysisRef.participationScore a)
       (AnalysisRef.assignmentCompletionRate a)
       (AnalysisRef.needsAttention a))
    (read (strings w) (AnalysisRef.strengths a))
    (read (strings w) (AnalysisRef.improvementAreas a))
    (AnalysisRef.riskLevel a).

Definition preferencesView (w : World) (preferences : option PreferencesRef.t)
  : option TeacherPreferences.t :=
  match preferences with
  | Some p =>
      Some (TeacherPreferences.mk
              (option_map (read (strings w)) (PreferencesRef.classGoals p))
              (option_map (read (strings w)) (PreferencesRef.focusAreas p))
              (option_map (read (strings w))
                 (PreferencesRef.preferredStrategies p))
              (PreferencesRef.tone p)
              (PreferencesRef.teacherNotes p))
  | None => None
  end.

Definition summaryView (w : World) (s : SummaryRef.t) : TeacherSummary.t :=
  TeacherSummary.mk (SummaryRef.classAverage s)
    (read (strings w) (SummaryRef.topStudents s))
    (read (strings w) (SummaryRef.attentionNeeded s))
    (read (strings w) (SummaryRef.notes s)).

Definition studentView (w : World) (r : StudentInsightsRef.t)
  : StudentInsights.t :=
  StudentInsights.mk (StudentInsightsRef.positiveObservation r)
    (read (strings w) (StudentInsightsRef.strengths r))
    (read (strings w) (StudentInsightsRef.improvementAreas r))
    (read (strings w) (StudentInsightsRef.strategies r))
    (StudentInsightsRef.nextStepGoal r)
    (StudentInsightsRef.encouragement r).

Definition teacherView (w : World) (r : TeacherInsightsRef.t)
  : TeacherInsights.t :=
  TeacherInsights.mk (TeacherInsightsRef.classOverview r)
    (read (strings w) (TeacherInsightsRef.strengths r))
    (read (attentions w) (TeacherInsightsRef.attentionNeeded r))
    (read (strings w) (TeacherInsightsRef.nextSteps r)).

(** The arrays that an argument refers to exist. *)
Definition inStore (T : Type) (h : store T) (a : option addr) : bool :=
  match a with
  | Some x => x <? List.length h
  | None => true
  end.

Definition analysisIn (w : World) (a : AnalysisRef.t) : bool :=
  (AnalysisRef.strengths a <? List.length (strings w))
  && (AnalysisRef.improvementAreas a <? List.length (strings w))
  && (AnalysisRef.highestSubjects a <? List.length (grades w))
  && (AnalysisRef.lowestSubjects a <? List.length (grades w)).

Definition preferencesIn (w : World) (preferences : option PreferencesRef.t)
  : bool :=
  inStore (strings w) (fieldOf preferences PreferencesRef.classGoals)
  && inStore (strings w) (fieldOf preferences PreferencesRef.focusAreas)
  && inStore (strings w) (fieldOf preferences PreferencesRef.preferredStrategies).

Definition summaryIn (w : World) (s : SummaryRef.t) : bool :=
  (SummaryRef.topStudents s <? List.length (strings w))
  && (SummaryRef.attentionNeeded s <? List.length (strings w))
  && (SummaryRef.notes s <? List.length (strings w)).

(** Every array that was in the store is in [w'] with the contents it
    had: nothing that existed was written to. *)
Definition untouched (w w' : World) : Prop :=
  (exists fresh, strings w' = strings w ++ fresh)
  /\ (exists fresh, grades w' = grades w ++ fresh)
  /\ (exists fresh, attentions w' = attentions w ++ fresh).

End FallbackStore.

(* ================================================================= *)
(** * Further sample inputs *)
(* ================================================================= *)

Module Samples.

(** The student that [Examples.goodRecord] denotes. *)
Definition goodStudent : Student.t :=
  Student.mk "S1" "Emma" "emma@example.com" [Grade.mk "Math" 95]
    9 98 "" improving "2026-01-07".

(** The insight that [Examples.wrappedValue] carries. *)
Definition wrappedInsights : StudentInsights.t :=
  StudentInsights.mk "You showed steady effort this week."
    ["Consistent participation"] ["Assignment organization"]
    ["Use a checklist"; "Review notes for 15 minutes nightly"]
    "Complete all assignments on time this week." "Small steps add up.".

(** A teacher insight with one student to look after. *)
Definition classInsights : TeacherInsights.t :=
  TeacherInsights.mk "The class is steady." ["Good participation"]
    [Attention.mk "Alex" "Two missed assignments"]
    ["Plan a check-in"; "Share the rubric"].

(** A rules file, decoded, that the loader turns into
    [Examples.shortPreferences]. *)
Definition rulesFile : json :=
  JObj [("classGoals", JArr [JStr " Build a growth mindset "; JStr "  "]);
        ("preferredStrategies",
         JArr [JStr "Use the Pomodoro technique for time management";
               JNum (Num 3);
               JStr "Practice active recall with flashcards "]);
        ("tone", JStr "warm")].

(** A run on [Examples.rawBatch] in which the provider answers every
    student with the wrapped payload and fails on the class summary, and
    no e-mail file is written. *)
Definition providerReturns (turn : nat) (analysis : StudentAnalysis.t)
  : Run.Provided := Run.Returned Examples.wrappedPayload.

Definition summaryFails (summary : TeacherSummary.t) : Run.Provided :=
  Run.Threw "provider unavailable".

Definition noFile (turn : nat) (email : Email.EmailContent.t) : option string :=
  None.

Definition sampleRun : Run.Outcome.t :=
  Run.runOnce JsonText.parseJson Validator.isoDateParses providerReturns
    summaryFails noFile "teacher@example.com" None Examples.rawBatch.



(** Two worlds that hold the same analysis and the same preferences at
    different addresses, the second among arrays that a rejected response
    left behind. *)
Definition plainWorld : FallbackStore.World :=
  FallbackStore.mkWorld
    [["Consistent class participation"];
     ["Overall grade average needs improvement";
      "Improve assignment completion rate";
      "Focus on weaker subjects: English, Math"];
     ["Use the Pomodoro technique for time management"; "   "];
     ["Build a growth mindset"];
     ["Emma"; "Liam"];
     ["Alex"];
     []]
    [[Grade.mk "Math" 90; Grade.mk "English" 70];
     [Grade.mk "English" 70; Grade.mk "Math" 90]]
    [].

Definition plainAnalysis : FallbackStore.AnalysisRef.t :=
  FallbackStore.AnalysisRef.mk Examples.testStudent 80 0 1 8 60 true 0 1 high.

Definition plainPreferences : FallbackStore.PreferencesRef.t :=
  FallbackStore.PreferencesRef.mk (Some 3) None (Some 2) (Some warm) None.

Definition busyWorld : FallbackStore.World :=
  FallbackStore.mkWorld
    [["IGNORE THE ANALYSIS"; "leaked from the response"];
     ["Overall grade average needs improvement";
      "Improve assignment completion rate";
      "Focus on weaker subjects: English, Math"];
     ["Build a growth mindset"];
     ["Consistent class participation"];
     ["another array of the response"];
     ["Use the Pomodoro technique for time management"; "   "];
     ["Alex"];
     ["Emma"; "Liam"];
     []]
    [[Grade.mk "English" 70; Grade.mk "Math" 90];
     [Grade.mk "Math" 90; Grade.mk "English" 70]]
    [[Attention.mk "Mallory" "from the response"]].

Definition busyAnalysis : FallbackStore.AnalysisRef.t :=
  FallbackStore.AnalysisRef.mk Examples.testStudent 80 1 0 8 60 true 3 1 high.

Definition busyPreferences : FallbackStore.PreferencesRef.t :=
  FallbackStore.PreferencesRef.mk (Some 2) None (Some 5) (Some warm) None.

(** A class summary in each of the two worlds. *)
Definition plainSummary : FallbackStore.SummaryRef.t :=
  FallbackStore.SummaryRef.mk (8467 # 100) 4 5 6.

Definition busySummary : FallbackStore.SummaryRef.t :=
  FallbackStore.SummaryRef.mk (8467 # 100) 7 6 8.

End Samples.

(* ================================================================= *)
(** * Part II: properties *)
(* ================================================================= *)

Import JsonText Examples.

(* ----------------------------------------------------------------- *)
(** ** Strings *)

Section StringFacts.

Lemma append_length (a b : string) :
  String.length (a ++ b) = String.length a + String.length b.
Proof. induction a as [|c a IH]; simpl; [reflexivity | now rewrite IH]. Qed.

Lemma append_assoc (a b c : string) : ((a ++ b) ++ c = a ++ (b ++ c))%string.
Proof. induction a as [|x a IH]; simpl; [reflexivity | now rewrite IH]. Qed.

Lemma append_empty_r (a : string) : (a ++ "" = a)%string.
Proof. induction a as [|x a IH]; simpl; [reflexivity | now rewrite IH]. Qed.

Lemma occurs_append (c : ascii) (a b : string) :
  occurs c (a ++ b) = occurs c a || occurs c b.
Proof.
  induction a as [|x a IH]; simpl; [reflexivity|].
  now rewrite IH, orb_assoc.
Qed.

(** A character that does not occur is not found ... *)
Lemma indexOfFrom_absent (c : ascii) (s : string) (i : nat) :
  occurs c s = false -> indexOfFrom c s i = None.
Proof.
  revert i; induction s as [|d s IH]; simpl; intros i H; [reflexivity|].
  apply orb_false_iff in H as [Hd Hs]. rewrite Hd. now apply IH.
Qed.

(** ... and the first occurrence is the one found. *)
Lemma indexOfFrom_first (c : ascii) (pre rest : string) (i : nat) :
  occurs c pre = false ->
  indexOfFrom c (pre ++ String c rest) i = Some (i + String.length pre).
Proof.
  revert i; induction pre as [|d pre IH]; simpl; intros i H.
  - rewrite Ascii.eqb_refl. f_equal; lia.
  - apply orb_false_iff in H as [Hd Hs]. rewrite Hd, IH by assumption.
    f_equal; lia.
Qed.

Lemma lastIndexOfFrom_absent (c : ascii) (s : string) (i : nat) (found : option nat) :
  occurs c s = false -> lastIndexOfFrom c s i found = found.
Proof.
  revert i found; induction s as [|d s IH]; simpl; intros i found H;
    [reflexivity|].
  apply orb_false_iff in H as [Hd Hs]. rewrite Hd. now apply IH.
Qed.

Lemma lastIndexOfFrom_last (c : ascii) (pre post : string) (i : nat)
      (found : option nat) :
  occurs c post = false ->
  lastIndexOfFrom c (pre ++ String c post) i found = Some (i + String.length pre).
Proof.
  revert i found; induction pre as [|d pre IH]; simpl; intros i found H.
  - rewrite Ascii.eqb_refl, lastIndexOfFrom_absent by assumption.
    f_equal; lia.
  - rewrite IH by assumption. f_equal; lia.
Qed.

Lemma substring_skip (pre s : string) (n : nat) :
  substring (String.length pre) n (pre ++ s) = substring 0 n s.
Proof. induction pre as [|d pre IH]; simpl; [reflexivity | exact IH]. Qed.

Lemma substring_prefix (s post : string) :
  substring 0 (String.length s) (s ++ post) = s.
Proof.
  induction s as [|d s IH]; simpl.
  - now destruct post.
  - now rewrite IH.
Qed.

Lemma substring_length (s : string) (a n : nat) :
  String.length (substring a n s) <= n.
Proof.
  revert a n; induction s as [|d s IH]; intros [|a] [|n]; simpl;
    try lia.
  - specialize (IH 0 n). lia.
  - apply (IH a 0).
  - apply (IH a (S n)).
Qed.

(** Every text has one of three shapes with respect to the two braces:
    no opening brace; a first opening brace with no closing brace after
    it; a first opening brace and, after it, a last closing brace. *)
Lemma split_first (c : ascii) (s : string) :
  occurs c s = true ->
  exists pre rest, s = (pre ++ String c rest)%string /\ occurs c pre = false.
Proof.
  induction s as [|d s IH]; simpl; [discriminate|].
  destruct (Ascii.eqb_spec d c) as [->|Hd]; simpl; intro H.
  - now exists EmptyString, s.
  - destruct (IH H) as (pre & rest & -> & Hpre).
    exists (String d pre), rest. split; [reflexivity|]. simpl.
    apply Ascii.eqb_neq in Hd. now rewrite Hd.
Qed.

Lemma split_last (c : ascii) (s : string) :
  occurs c s = true ->
  exists pre post, s = (pre ++ String c post)%string /\ occurs c post = false.
Proof.
  induction s as [|d s IH]; simpl; [discriminate|].
  destruct (occurs c s) eqn:Hs.
  - intros _. destruct (IH eq_refl) as (pre & post & -> & Hpost).
    now exists (String d pre), post.
  - rewrite orb_false_r. intro Hd. apply Ascii.eqb_eq in Hd as ->.
    now exists EmptyString, s.
Qed.

End StringFacts.

(* ----------------------------------------------------------------- *)
(** ** Lists *)

Section ListFacts.

Variable A : Type.
Implicit Types (l m : list A) (x : A) (n : nat).

Lemma In_firstn x n l : In x (firstn n l) -> In x l.
Proof.
  revert n; induction l as [|y l IH]; intros [|n]; simpl; try tauto.
  intros [H|H]; [now left | right; eauto].
Qed.

Lemma In_firstn_app x n l m : In x (firstn n l) -> In x (firstn n (l ++ m)).
Proof.
  revert n; induction l as [|y l IH]; intros [|n]; simpl; try tauto.
  intros [H|H]; [now left | right; eauto].
Qed.

Lemma Forall_firstn (P : A -> Prop) n l : Forall P l -> Forall P (firstn n l).
Proof.
  intro H. apply Forall_forall. intros x Hx. apply In_firstn in Hx.
  rewrite Forall_forall in H. now apply H.
Qed.

Lemma forallb_Forall (p : A -> bool) l :
  forallb p l = true <-> Forall (fun x => p x = true) l.
Proof. rewrite forallb_forall, Forall_forall. reflexivity. Qed.

End ListFacts.

(** Lengths of appended, cut and repeated sequences. *)
Create Rewrite HintDb lengths.
#[global] Hint Rewrite append_length length_app length_firstn repeat_length
  : lengths.

(* ----------------------------------------------------------------- *)
(** ** Extraction of the JSON candidate *)

Section Extraction.

Import Insights.

Lemma extract_span (pre mid post : string) :
  occurs "{" pre = false -> occurs "}" post = false ->
  extractJsonObject (pre ++ "{" ++ mid ++ "}" ++ post)
  = Some ("{" ++ mid ++ "}")%string.
Proof.
  intros Hpre Hpost. unfold extractJsonObject, indexOf, lastIndexOf.
  change (pre ++ "{" ++ mid ++ "}" ++ post)%string
    with (pre ++ String "{" (mid ++ String "}" post))%string.
  rewrite indexOfFrom_first by assumption.
  replace (pre ++ String "{" (mid ++ String "}" post))%string
    with ((pre ++ String "{" mid) ++ String "}" post)%string
    by (now rewrite append_assoc).
  rewrite lastIndexOfFrom_last by assumption.
  rewrite append_length. simpl.
  destruct (Nat.leb_spec (String.length pre + S (String.length mid))
                         (String.length pre)) as [Hle|_]; [lia|].
  f_equal. unfold slice.
  rewrite append_assoc. rewrite substring_skip.
  replace (String.length pre + S (String.length mid) + 1 - String.length pre)
    with (String.length (String "{" mid ++ "}"))
    by (rewrite append_length; simpl; lia).
  change (String "{" mid ++ String "}" post)%string
    with (String "{" (mid ++ String "}" post))%string.
  replace (String "{" (mid ++ String "}" post))
    with ((String "{" mid ++ "}") ++ post)%string.
  - apply substring_prefix.
  - simpl. now rewrite append_assoc.
Qed.

Lemma extract_no_open (text : string) :
  occurs "{" text = false -> extractJsonObject text = None.
Proof.
  intro H. unfold extractJsonObject, indexOf.
  now rewrite indexOfFrom_absent.
Qed.

Lemma extract_no_close (text : string) :
  occurs "}" text = false -> extractJsonObject text = None.
Proof.
  intro H. unfold extractJsonObject, lastIndexOf.
  rewrite lastIndexOfFrom_absent by assumption.
  now destruct (indexOf "{" text).
Qed.

(** No closing brace after the first opening brace. *)
Lemma extract_close_not_after (pre rest : string) :
  occurs "{" pre = false -> occurs "}" rest = false ->
  extractJsonObject (pre ++ "{" ++ rest) = None.
Proof.
  intros Hpre Hrest. unfold extractJsonObject, indexOf, lastIndexOf.
  change (pre ++ "{" ++ rest)%string with (pre ++ String "{" rest)%string.
  rewrite indexOfFrom_first by assumption. simpl.
  destruct (occurs "}" pre) eqn:Hc.
  - destruct (split_last _ _ Hc) as (a & b & -> & Hb).
    rewrite append_assoc. simpl.
    rewrite lastIndexOfFrom_last.
    + rewrite append_length. simpl.
      destruct (Nat.leb_spec (String.length a)
                  (String.length a + S (String.length b))); [reflexivity|lia].
    + rewrite occurs_append. simpl. now rewrite Hb, Hrest.
  - rewrite lastIndexOfFrom_absent; [reflexivity|].
    rewrite occurs_append. simpl. now rewrite Hc, Hrest.
Qed.

(** The candidate, when there is one, is never the empty string. *)
Lemma extract_shape (text candidate : string) :
  extractJsonObject text = Some candidate ->
  exists pre mid post,
    text = (pre ++ "{" ++ mid ++ "}" ++ post)%string
    /\ occurs "{" pre = false /\ occurs "}" post = false
    /\ candidate = ("{" ++ mid ++ "}")%string.
Proof.
  intro H.
  destruct (occurs "{" text) eqn:Ho.
  2:{ rewrite extract_no_open in H by assumption. discriminate. }
  destruct (split_first _ _ Ho) as (pre & rest & -> & Hpre).
  destruct (occurs "}" rest) eqn:Hc.
  2:{ change (pre ++ String "{" rest)%string
        with (pre ++ "{" ++ rest)%string in H.
      rewrite (extract_close_not_after pre rest) in H by assumption.
      discriminate. }
  destruct (split_last _ _ Hc) as (mid & post & -> & Hpost).
  exists pre, mid, post.
  change (pre ++ String "{" (mid ++ String "}" post))%string
    with (pre ++ "{" ++ mid ++ "}" ++ post)%string in H.
  rewrite (extract_span pre mid post) in H by assumption.
  inversion H. auto.
Qed.

End Extraction.

Section ExtractionClaim.

Import Insights.
Variable JSON_parse : string -> option json.

Lemma decodeObject_no_candidate (text : string) :
  extractJsonObject text = None ->
  decodeObject JSON_parse text = Err ["No JSON object found in response"].
Proof. intro H. unfold decodeObject. now rewrite H. Qed.

Lemma decodeObject_wrapped (pre body post : string) (v : json) :
  occurs "{" pre = false -> occurs "}" post = false ->
  JSON_parse ("{" ++ body ++ "}") = Some v ->
  decodeObject JSON_parse (pre ++ "{" ++ body ++ "}" ++ post)
  = if isObject v then Ok v else Err ["Response JSON must be an object"].
Proof.
  intros Hpre Hpost Hv. unfold decodeObject.
  rewrite extract_span by assumption.
  change (truthy ("{" ++ body ++ "}")) with true. simpl negb. cbv iota.
  rewrite Hv. now destruct (isObject v).
Qed.

(** C5.  [extractJsonObject] returns the text from the first opening
    brace to the last closing brace, both included, when the last closing
    brace comes after the first opening brace, and nothing otherwise;
    without a candidate both parsers fail with the "No JSON object found"
    error; and prose around one well-formed object, with no opening
    brace before it and no closing brace after it, yields exactly that
    object's text, which is then decoded. *)
Theorem extractJsonObject_first_to_last :
  (forall pre mid post,
      occurs "{" pre = false -> occurs "}" post = false ->
      extractJsonObject (pre ++ "{" ++ mid ++ "}" ++ post)
      = Some ("{" ++ mid ++ "}")%string)
  /\ (forall text candidate,
         extractJsonObject text = Some candidate ->
         exists pre mid post,
           text = (pre ++ "{" ++ mid ++ "}" ++ post)%string
           /\ occurs "{" pre = false /\ occurs "}" post = false
           /\ candidate = ("{" ++ mid ++ "}")%string)
  /\ (forall text,
         occurs "{" text = false \/ occurs "}" text = false ->
         extractJsonObject text = None)
  /\ (forall pre rest,
         occurs "{" pre = false -> occurs "}" rest = false ->
         extractJsonObject (pre ++ "{" ++ rest) = None)
  /\ (forall text,
         extractJsonObject text = None ->
         parseStudentInsights JSON_parse text
         = Err ["No JSON object found in response"]
         /\ parseTeacherInsights JSON_parse text
            = Err ["No JSON object found in response"])
  /\ (forall pre body post v,
         occurs "{" pre = false -> occurs "}" post = false ->
         JSON_parse ("{" ++ body ++ "}") = Some v -> isObject v = true ->
         extractJsonObject (pre ++ "{" ++ body ++ "}" ++ post)
         = Some ("{" ++ body ++ "}")%string
         /\ decodeObject JSON_parse (pre ++ "{" ++ body ++ "}" ++ post) = Ok v).
Proof.
  repeat split.
  - exact extract_span.
  - exact extract_shape.
  - intros text [H|H]; [now apply extract_no_open | now apply extract_no_close].
  - exact extract_close_not_after.
  - unfold parseStudentInsights. now rewrite decodeObject_no_candidate.
  - unfold parseTeacherInsights. now rewrite decodeObject_no_candidate.
  - now apply extract_span.
  - rewrite (decodeObject_wrapped pre body post (v := v)) by assumption.
    now rewrite H2.
Qed.

End ExtractionClaim.

(** The wrapped payload of the examples is cut at its braces and decoded;
    a text without braces is rejected by both parsers. *)
Lemma extractJsonObject_first_to_last_witness :
  Insights.extractJsonObject wrappedPayload
  = Some ("{" ++ wrappedBody ++ "}")%string
  /\ Insights.decodeObject parseJson wrappedPayload = Ok wrappedValue
  /\ Insights.parseStudentInsights parseJson "Sorry, I cannot help with that."
     = Err ["No JSON object found in response"]
  /\ Insights.extractJsonObject "} nothing opened, nothing {" = None.
Proof.
  destruct (extractJsonObject_first_to_last parseJson)
    as (Hspan & _ & Hnone & Hnot & Hparse & Hwrap).
  split; [|split; [|split]].
  - apply (Hspan wrapperBefore wrappedBody wrapperAfter); reflexivity.
  - apply (Hwrap wrapperBefore wrappedBody wrapperAfter wrappedValue);
      reflexivity.
  - apply Hparse, Hnone. left. reflexivity.
  - apply (Hnot "} nothing opened, nothing " ""); reflexivity.
Defined.

(* ----------------------------------------------------------------- *)
(** ** Numbers *)

Section NumberFacts.

Lemma Qltb_lt (x y : Q) : Qltb x y = true <-> (x < y)%Q.
Proof.
  unfold Qltb. rewrite negb_true_iff.
  destruct (Qle_bool y x) eqn:H.
  - apply Qle_bool_iff in H. split; [discriminate | intro; lra].
  - split; [intros _ | reflexivity].
    destruct (Qlt_le_dec x y) as [Hlt|Hle]; [assumption|].
    apply Qle_bool_iff in Hle. congruence.
Qed.

Lemma Qltb_ge (x y : Q) : Qltb x y = false <-> (y <= x)%Q.
Proof.
  unfold Qltb. rewrite negb_false_iff. apply Qle_bool_iff.
Qed.

Lemma Qleb_le (x y : Q) : Qleb x y = true <-> (x <= y)%Q.
Proof. apply Qle_bool_iff. Qed.

Lemma trendEqb_eq (a b : PerformanceTrend) : trendEqb a b = true <-> a = b.
Proof. destruct a, b; simpl; split; intro H; congruence. Qed.

End NumberFacts.

(** Boolean tests on numbers and trends, read as propositions. *)
Ltac reflect_tests :=
  rewrite ?orb_true_iff, ?Qltb_lt, ?Qleb_le, ?trendEqb_eq.

(* ----------------------------------------------------------------- *)
(** ** The stable sort *)

Section SortFacts.

Variable T : Type.
Variable cmp : T -> T -> Q.

Import Schema.

Lemma insert_perm (x : T) (l : list T) : Permutation (insert cmp x l) (x :: l).
Proof.
  induction l as [|y r IH]; simpl; [reflexivity|].
  destruct (Qle_bool (cmp x y) 0); [reflexivity|].
  rewrite IH. apply perm_swap.
Qed.

Lemma sort_perm (l : list T) : Permutation (sort cmp l) l.
Proof.
  induction l as [|x r IH]; simpl; [reflexivity|].
  rewrite insert_perm. now constructor.
Qed.

(** A comparator that orders: any two elements compare one way or the
    other, and transitively. *)
Hypothesis cmp_total : forall a b, ~ before cmp a b -> before cmp b a.
Hypothesis cmp_trans : forall a b c, before cmp a b -> before cmp b c -> before cmp a c.

Lemma insert_sorted (x : T) (l : list T) :
  StronglySorted (before cmp) l -> StronglySorted (before cmp) (insert cmp x l).
Proof.
  induction 1 as [|y r Hr IH Hy]; simpl.
  - repeat constructor.
  - destruct (Qle_bool (cmp x y) 0) eqn:Hxy.
    + apply Qle_bool_iff in Hxy.
      constructor; [now constructor|].
      constructor; [exact Hxy|].
      eapply Forall_impl; [|exact Hy]. intros z Hz.
      now apply cmp_trans with y.
    + constructor; [exact IH|].
      assert (Hyx : before cmp y x).
      { apply cmp_total. intro Hb. apply Qle_bool_iff in Hb. congruence. }
      eapply Permutation_Forall; [symmetry; apply insert_perm|].
      now constructor.
Qed.

Lemma sort_sorted (l : list T) : StronglySorted (before cmp) (sort cmp l).
Proof.
  induction l as [|x r IH]; simpl; [constructor | now apply insert_sorted].
Qed.

End SortFacts.

Section Stability.

Variable T : Type.
Variable cmp : T -> T -> Q.

(** [p] selects elements that the comparator does not separate. *)
Variable p : T -> bool.
Hypothesis p_ties :
  forall x y, p x = true -> p y = true -> Qle_bool (cmp x y) 0 = true.

Lemma filter_insert (x : T) (l : list T) :
  filter p (insert cmp x l) = if p x then x :: filter p l else filter p l.
Proof.
  induction l as [|y r IH]; simpl; [reflexivity|].
  destruct (Qle_bool (cmp x y) 0) eqn:Hxy; simpl; [reflexivity|].
  rewrite IH.
  destruct (p x) eqn:Hx, (p y) eqn:Hy; try reflexivity.
  rewrite (p_ties Hx Hy) in Hxy. discriminate.
Qed.

(** Sorting keeps the elements selected by [p] in their order. *)
Lemma filter_sort (l : list T) : filter p (sort cmp l) = filter p l.
Proof.
  induction l as [|x r IH]; simpl; [reflexivity|].
  rewrite filter_insert, IH. reflexivity.
Qed.

(** Cutting a list cuts each of its selections. *)
Lemma filter_firstn (n : nat) (l : list T) :
  exists k, filter p (firstn n l) = firstn k (filter p l).
Proof.
  revert n; induction l as [|x r IH]; intros [|n]; simpl.
  - now exists 0.
  - now exists 0.
  - now exists 0.
  - destruct (IH n) as [k Hk]. destruct (p x).
    + exists (S k). simpl. now rewrite Hk.
    + now exists k.
Qed.

End Stability.

(* ----------------------------------------------------------------- *)
(** ** Array objects *)

Section StoreFacts.

Variable T : Type.
Implicit Types (h : store T) (a b : addr) (v : list T).

Lemma read_alloc_old h v a : a < List.length h -> read (h ++ [v]) a = read h a.
Proof. intro H. unfold read. now apply app_nth1. Qed.

Lemma read_alloc_new h v : read (h ++ [v]) (List.length h) = v.
Proof. unfold read. apply nth_middle. Qed.

Lemma write_length h a v : List.length (write h a v) = List.length h.
Proof.
  revert a; induction h as [|x r IH]; intros [|a]; simpl; auto.
Qed.

Lemma read_write_same h a v : a < List.length h -> read (write h a v) a = v.
Proof.
  revert a; induction h as [|x r IH]; intros [|a]; simpl; intro H;
    try lia; [reflexivity|].
  apply IH. lia.
Qed.

Lemma read_write_other h a b v : a <> b -> read (write h a v) b = read h b.
Proof.
  revert a b; induction h as [|x r IH]; intros [|a] [|b]; simpl; intro H;
    try reflexivity; try congruence.
  apply IH. congruence.
Qed.

(** Copy, sort the copy in place, slice: the result is the prefix of the
    sorted contents, and the arrays that existed before are as they were. *)
Lemma copy_sort_slice (cmp : T -> T -> Q) h items (n : nat) :
  items < List.length h ->
  let '(h1, copy) := spread h items in
  let '(h2, sorted) := sortInPlace cmp h1 copy in
  let '(h3, result) := sliceArray n h2 sorted in
  read h3 result = firstn n (sort cmp (read h items))
  /\ forall a, a < List.length h -> read h3 a = read h a.
Proof.
  intro Hlt. unfold spread, sortInPlace, sliceArray, alloc.
  set (h1 := h ++ [read h items]).
  assert (Hlen1 : List.length h1 = S (List.length h)).
  { unfold h1. rewrite length_app. simpl. lia. }
  assert (Hcopy : read h1 (List.length h) = read h items).
  { unfold h1. apply read_alloc_new. }
  set (h2 := write h1 (List.length h) (sort cmp (read h1 (List.length h)))).
  assert (Hlen2 : List.length h2 = S (List.length h)).
  { unfold h2. now rewrite write_length. }
  split.
  - rewrite read_alloc_new. unfold h2.
    rewrite read_write_same by lia. now rewrite Hcopy.
  - intros a Ha. rewrite read_alloc_old by lia. unfold h2.
    rewrite read_write_other by lia. unfold h1.
    now apply read_alloc_old.
Qed.

End StoreFacts.

Section TopBottomFacts.

Import Analyzer.
Variable T : Type.
Variable score : T -> Q.

Lemma topN_store_spec (h : store T) (items : addr) (n : nat) :
  items < List.length h ->
  read (fst (topN_store h items n score)) (snd (topN_store h items n score))
  = topN (read h items) n score
  /\ forall a, a < List.length h ->
               read (fst (topN_store h items n score)) a = read h a.
Proof.
  intro H. unfold topN_store, topN.
  pose proof (copy_sort_slice (descending score) h n H) as Hc.
  destruct (spread h items) as [h1 copy].
  destruct (sortInPlace (descending score) h1 copy) as [h2 sorted].
  destruct (sliceArray n h2 sorted) as [h3 result]. exact Hc.
Qed.

Lemma bottomN_store_spec (h : store T) (items : addr) (n : nat) :
  items < List.length h ->
  read (fst (bottomN_store h items n score)) (snd (bottomN_store h items n score))
  = bottomN (read h items) n score
  /\ forall a, a < List.length h ->
               read (fst (bottomN_store h items n score)) a = read h a.
Proof.
  intro H. unfold bottomN_store, bottomN.
  pose proof (copy_sort_slice (ascending score) h n H) as Hc.
  destruct (spread h items) as [h1 copy].
  destruct (sortInPlace (ascending score) h1 copy) as [h2 sorted].
  destruct (sliceArray n h2 sorted) as [h3 result]. exact Hc.
Qed.

Lemma StronglySorted_weaken (R S : T -> T -> Prop) (l : list T) :
  (forall a b, R a b -> S a b) -> StronglySorted R l -> StronglySorted S l.
Proof.
  intros HRS. induction 1 as [|x r Hr IH Hx]; constructor; [exact IH|].
  eapply Forall_impl; [|exact Hx]. intros b. apply HRS.
Qed.

(** The two comparators order by score. *)
Lemma descending_sorted (l : list T) :
  StronglySorted (fun a b => (score b <= score a)%Q) (sort (descending score) l).
Proof.
  apply StronglySorted_weaken with (R := Schema.before (descending score)).
  - unfold Schema.before, descending. intros a b Hab. lra.
  - apply sort_sorted; unfold Schema.before, descending.
    + intros a b Hab. lra.
    + intros a b c Hab Hbc. lra.
Qed.

Lemma ascending_sorted (l : list T) :
  StronglySorted (fun a b => (score a <= score b)%Q) (sort (ascending score) l).
Proof.
  apply StronglySorted_weaken with (R := Schema.before (ascending score)).
  - unfold Schema.before, ascending. intros a b Hab. lra.
  - apply sort_sorted; unfold Schema.before, ascending.
    + intros a b Hab. lra.
    + intros a b c Hab Hbc. lra.
Qed.

(** Elements of one score are not separated by either comparator. *)
Lemma descending_ties (v : Q) (x y : T) :
  Qeq_bool (score x) v = true -> Qeq_bool (score y) v = true ->
  Qle_bool (descending score x y) 0 = true.
Proof.
  intros Hx Hy. apply Qeq_bool_iff in Hx, Hy. apply Qle_bool_iff.
  unfold descending. lra.
Qed.

Lemma ascending_ties (v : Q) (x y : T) :
  Qeq_bool (score x) v = true -> Qeq_bool (score y) v = true ->
  Qle_bool (ascending score x y) 0 = true.
Proof.
  intros Hx Hy. apply Qeq_bool_iff in Hx, Hy. apply Qle_bool_iff.
  unfold ascending. lra.
Qed.

End TopBottomFacts.

(* ----------------------------------------------------------------- *)
(** ** Highest and lowest subjects *)

Section SubjectsClaim.

Import Analyzer Schema.

Lemma filter_cons_inv (T : Type) (p : T -> bool) (l : list T) (x : T)
      (r : list T) :
  filter p l = x :: r ->
  exists l1 l2,
    l = l1 ++ x :: l2 /\ Forall (fun y => p y = false) l1 /\ filter p l2 = r.
Proof.
  induction l as [|y l IH]; simpl; [discriminate|].
  destruct (p y) eqn:Hy; intro H.
  - inversion H; subst. exists [], l. repeat split. constructor.
  - destruct (IH H) as (l1 & l2 & -> & Hl1 & Hl2).
    exists (y :: l1), l2. repeat split; [|exact Hl2]. now constructor.
Qed.

(** Two listed grades of one score are the first two grades of that score
    in the input, in that order. *)
Lemma tied_pair_in_input_order (grades listed : list Grade.t) (g1 g2 : Grade.t) :
  (forall v, exists k,
      filter (sameScore v) listed = firstn k (filter (sameScore v) grades)) ->
  listed = [g1; g2] ->
  (Grade.score g1 == Grade.score g2)%Q ->
  exists l1 l2 l3,
    grades = l1 ++ g1 :: l2 ++ g2 :: l3
    /\ Forall (fun g => sameScore (Grade.score g1) g = false) l1
    /\ Forall (fun g => sameScore (Grade.score g1) g = false) l2.
Proof.
  intros Hprefix -> Heq.
  destruct (Hprefix (Grade.score g1)) as [k Hk].
  assert (H1 : sameScore (Grade.score g1) g1 = true).
  { apply Qeq_bool_iff. reflexivity. }
  assert (H2 : sameScore (Grade.score g1) g2 = true).
  { apply Qeq_bool_iff. now symmetry. }
  simpl in Hk. rewrite H1, H2 in Hk.
  destruct (filter (sameScore (Grade.score g1)) grades) as [|a [|b rest]] eqn:Hf;
    destruct k as [|[|k]]; simpl in Hk; try discriminate.
  inversion Hk; subst a b.
  destruct (filter_cons_inv _ _ Hf) as (l1 & l' & -> & Hl1 & Hf').
  destruct (filter_cons_inv _ _ Hf') as (l2 & l3 & -> & Hl2 & _).
  now exists l1, l2, l3.
Qed.

(** C8.  The highest and the lowest subjects recorded by [analyzeStudent]
    are the first two entries of a sorted copy of the grades, by score
    descending and ascending; the sort is a permutation, ordered, and
    stable: the grades of any one score [v] stand in the sorted copy in
    the order they have in the input, so those that reach either list
    form a prefix of the input's grades of that score, and two listed
    grades of equal score are the first two of that score in the input,
    in the input's order; and the array the grades were read from holds
    the same contents afterwards. *)
Theorem topN_bottomN_stable
        (s : Student.t) (h : store Grade.t) (items : addr) :
  items < List.length h ->
  read h items = Student.grades s ->
  let grades := Student.grades s in
  let m := StudentAnalysis.metrics (analyzeStudent s) in
  let top := topN_store h items 2 Grade.score in
  let bottom := bottomN_store h items 2 Grade.score in
  (read (fst top) (snd top) = StudentMetrics.highestSubjects m
   /\ read (fst bottom) (snd bottom) = StudentMetrics.lowestSubjects m)
  /\ (StudentMetrics.highestSubjects m
      = firstn 2 (sort (descending Grade.score) grades)
      /\ StudentMetrics.lowestSubjects m
         = firstn 2 (sort (ascending Grade.score) grades))
  /\ (Permutation (sort (descending Grade.score) grades) grades
      /\ StronglySorted (fun a b => (Grade.score b <= Grade.score a)%Q)
           (sort (descending Grade.score) grades)
      /\ Permutation (sort (ascending Grade.score) grades) grades
      /\ StronglySorted (fun a b => (Grade.score a <= Grade.score b)%Q)
           (sort (ascending Grade.score) grades))
  /\ (forall v,
         filter (sameScore v) (sort (descending Grade.score) grades)
         = filter (sameScore v) grades
         /\ filter (sameScore v) (sort (ascending Grade.score) grades)
            = filter (sameScore v) grades)
  /\ (forall v,
         (exists k, filter (sameScore v) (StudentMetrics.highestSubjects m)
                    = firstn k (filter (sameScore v) grades))
         /\ (exists k, filter (sameScore v) (StudentMetrics.lowestSubjects m)
                       = firstn k (filter (sameScore v) grades)))
  /\ (forall g1 g2,
         (StudentMetrics.highestSubjects m = [g1; g2]
          \/ StudentMetrics.lowestSubjects m = [g1; g2]) ->
         (Grade.score g1 == Grade.score g2)%Q ->
         exists l1 l2 l3,
           grades = l1 ++ g1 :: l2 ++ g2 :: l3
           /\ Forall (fun g => sameScore (Grade.score g1) g = false) l1
           /\ Forall (fun g => sameScore (Grade.score g1) g = false) l2)
  /\ (read (fst top) items = grades /\ read (fst bottom) items = grades).
Proof.
  intros Hlt Hread grades m top bottom.
  destruct (topN_store_spec Grade.score h 2 Hlt) as [Htop Htop'].
  destruct (bottomN_store_spec Grade.score h 2 Hlt) as [Hbot Hbot'].
  assert (Hd : forall v l,
             filter (sameScore v) (sort (descending Grade.score) l)
             = filter (sameScore v) l).
  { intros v l. apply filter_sort. intros x y. apply descending_ties. }
  assert (Ha : forall v l,
             filter (sameScore v) (sort (ascending Grade.score) l)
             = filter (sameScore v) l).
  { intros v l. apply filter_sort. intros x y. apply ascending_ties. }
  assert (Hhigh : forall v, exists k,
               filter (sameScore v) (StudentMetrics.highestSubjects m)
               = firstn k (filter (sameScore v) grades)).
  { intro v.
    destruct (filter_firstn (sameScore v) 2
                (sort (descending Grade.score) grades)) as [k Hk].
    exists k. rewrite Hd in Hk. exact Hk. }
  assert (Hlow : forall v, exists k,
              filter (sameScore v) (StudentMetrics.lowestSubjects m)
              = firstn k (filter (sameScore v) grades)).
  { intro v.
    destruct (filter_firstn (sameScore v) 2
                (sort (ascending Grade.score) grades)) as [k Hk].
    exists k. rewrite Ha in Hk. exact Hk. }
  split; [|split; [|split; [|split; [|split; [|split]]]]].
  - split.
    + unfold top. rewrite Htop, Hread. reflexivity.
    + unfold bottom. rewrite Hbot, Hread. reflexivity.
  - split; reflexivity.
  - split; [apply sort_perm|]. split; [apply descending_sorted|].
    split; [apply sort_perm | apply ascending_sorted].
  - intro v. split; [apply Hd | apply Ha].
  - intro v. split; [apply Hhigh | apply Hlow].
  - intros g1 g2 [Hl|Hl] Heq.
    + exact (@tied_pair_in_input_order grades _ g1 g2 Hhigh Hl Heq).
    + exact (@tied_pair_in_input_order grades _ g1 g2 Hlow Hl Heq).
  - split.
    + unfold top. rewrite Htop' by assumption. exact Hread.
    + unfold bottom. rewrite Hbot' by assumption. exact Hread.
Qed.

End SubjectsClaim.

(** Three grades of which the first two tie at 80: "History" precedes
    "Biology" in the input and in the list of the lowest subjects. *)
Lemma topN_bottomN_stable_witness :
  StudentMetrics.lowestSubjects
    (StudentAnalysis.metrics (Analyzer.analyzeStudent tiedStudent))
  = [Grade.mk "History" 80; Grade.mk "Biology" 80]
  /\ (exists l1 l2 l3,
         tiedGrades
         = l1 ++ Grade.mk "History" 80 :: l2 ++ Grade.mk "Biology" 80 :: l3
         /\ Forall (fun g => Schema.sameScore 80 g = false) l1
         /\ Forall (fun g => Schema.sameScore 80 g = false) l2)
  /\ (exists k,
         filter (Schema.sameScore 80)
           (StudentMetrics.highestSubjects
              (StudentAnalysis.metrics (Analyzer.analyzeStudent tiedStudent)))
         = firstn k [Grade.mk "History" 80; Grade.mk "Biology" 80])
  /\ read (fst (Analyzer.topN_store [tiedGrades] 0 2 Grade.score)) 0 = tiedGrades.
Proof.
  assert (H0 : 0 < List.length [tiedGrades]) by (simpl; lia).
  destruct (@topN_bottomN_stable tiedStudent [tiedGrades] 0 H0 eq_refl)
    as (_ & [_ Hlow] & _ & _ & Hk & Hpair & [Hin _]).
  split; [exact Hlow|]. split; [|split; [|exact Hin]].
  - apply (Hpair (Grade.mk "History" 80) (Grade.mk "Biology" 80)).
    + right. exact Hlow.
    + reflexivity.
  - exact (proj1 (Hk 80%Q)).
Defined.

(* ----------------------------------------------------------------- *)
(** ** Risk classification *)

Section RiskClaim.

Import Analyzer.

(** C6.  The risk level set by [analyzeStudent]: high when the average is
    below 70, or participation is at most 4, or completion is below 70, or
    the trend is declining; otherwise medium when the average is below
    80, or participation is at most 6, or completion is below 85;
    otherwise low.  An entity with average 70, participation 5,
    completion 60 and a declining trend is therefore high. *)
Theorem analyzeStudent_risk (s : Student.t) :
  let a := analyzeStudent s in
  let avg := StudentMetrics.averageScore (StudentAnalysis.metrics a) in
  let part := Student.participationScore s in
  let compl := Student.assignmentCompletionRate s in
  let trend := Student.performanceTrend s in
  let isHigh := (avg < 70 \/ part <= 4 \/ compl < 70 \/ trend = declining)%Q in
  let isMedium := (avg < 80 \/ part <= 6 \/ compl < 85)%Q in
  (isHigh -> StudentAnalysis.riskLevel a = high)
  /\ (~ isHigh -> isMedium -> StudentAnalysis.riskLevel a = medium)
  /\ (~ isHigh -> ~ isMedium -> StudentAnalysis.riskLevel a = low)
  /\ ((avg == 70)%Q -> (part == 5)%Q -> (compl == 60)%Q -> trend = declining ->
      StudentAnalysis.riskLevel a = high).
Proof.
  intros a avg part compl trend isHigh isMedium.
  assert (Hrisk : StudentAnalysis.riskLevel a
                  = if Qltb avg 70 || Qleb part 4 || Qltb compl 70
                       || trendEqb trend declining
                    then high
                    else if Qltb avg 80 || Qleb part 6 || Qltb compl 85
                         then medium else low) by reflexivity.
  assert (Hhigh : isHigh <->
                  Qltb avg 70 || Qleb part 4 || Qltb compl 70
                  || trendEqb trend declining = true).
  { unfold isHigh. reflect_tests. tauto. }
  assert (Hmed : isMedium <->
                 Qltb avg 80 || Qleb part 6 || Qltb compl 85 = true).
  { unfold isMedium. reflect_tests. tauto. }
  rewrite Hrisk.
  destruct (Qltb avg 70 || Qleb part 4 || Qltb compl 70
            || trendEqb trend declining) eqn:Eh.
  - assert (Hh : isHigh) by now apply Hhigh.
    repeat split; intros; try reflexivity; contradiction.
  - assert (Hh : ~ isHigh).
    { intro H. apply Hhigh in H. congruence. }
    split; [intro; contradiction|].
    destruct (Qltb avg 80 || Qleb part 6 || Qltb compl 85) eqn:Em.
    + assert (Hm : isMedium) by now apply Hmed.
      repeat split; intros; try reflexivity; try contradiction.
      exfalso. apply Hh. right; right; right. assumption.
    + assert (Hm : ~ isMedium).
      { intro H. apply Hmed in H. congruence. }
      repeat split; intros; try reflexivity; try contradiction.
      exfalso. apply Hh. right; right; right. assumption.
Qed.

End RiskClaim.

(** The boundary student has exactly the average 70 (one grade of 70), with
    participation 5, completion 60 and a declining trend. *)
Lemma analyzeStudent_risk_witness :
  (StudentMetrics.averageScore
     (StudentAnalysis.metrics (Analyzer.analyzeStudent boundaryStudent)) == 70)%Q
  /\ StudentAnalysis.riskLevel (Analyzer.analyzeStudent boundaryStudent) = high
  /\ StudentAnalysis.riskLevel (Analyzer.analyzeStudent midStudent) = medium
  /\ StudentAnalysis.riskLevel (Analyzer.analyzeStudent strongStudent) = low.
Proof.
  assert (Hnot_high : forall s : Student.t,
             Qltb (StudentMetrics.averageScore
                     (StudentAnalysis.metrics (Analyzer.analyzeStudent s))) 70
             || Qleb (Student.participationScore s) 4
             || Qltb (Student.assignmentCompletionRate s) 70
             || trendEqb (Student.performanceTrend s) declining = false ->
             ~ ((StudentMetrics.averageScore
                   (StudentAnalysis.metrics (Analyzer.analyzeStudent s)) < 70)%Q
                \/ (Student.participationScore s <= 4)%Q
                \/ (Student.assignmentCompletionRate s < 70)%Q
                \/ Student.performanceTrend s = declining)).
  { intros s Hb H. apply not_true_iff_false in Hb. apply Hb.
    reflect_tests. tauto. }
  split; [reflexivity|]. split; [|split].
  - apply (analyzeStudent_risk boundaryStudent); reflexivity.
  - apply (analyzeStudent_risk midStudent).
    + apply Hnot_high. reflexivity.
    + left. reflexivity.
  - apply (analyzeStudent_risk strongStudent).
    + apply Hnot_high. reflexivity.
    + intros [H|[H|H]];
        [apply Qltb_lt in H | apply Qleb_le in H | apply Qltb_lt in H];
        vm_compute in H; discriminate.
Defined.

(* ----------------------------------------------------------------- *)
(** ** Batch validation *)

Section ValidationClaim.

Import Validator Schema.
Variable dateParses : string -> bool.

Lemma indexed_length (A : Type) (xs : list A) :
  List.length (indexed xs) = List.length xs.
Proof. unfold indexed. rewrite length_combine, length_seq. lia. Qed.

(** A rejected record carries at least one error. *)
Lemma validateStudent_errors_nonempty (value : json) (index : nat)
      (es : list string) :
  validateStudent dateParses value index = Err es -> es <> [].
Proof.
  unfold validateStudent. destruct (negb (isRecord (Some value))).
  - intro H. inversion H. discriminate.
  - match goal with
    | |- context [let '(_, _) := ?m in _] => destruct m as [vg errs]
    end.
    match goal with
    | |- context [if 0 <? List.length ?e then _ else _] =>
        destruct (0 <? List.length e) eqn:E
    end; intro H; inversion H; subst.
    apply Nat.ltb_lt in E. intro Hnil. rewrite Hnil in E. simpl in E. lia.
Qed.

(** Pushing the prefixed errors one by one appends their list. *)
Lemma push_prefixed (index : nat) (es acc : list string) :
  fold_left
    (fun errors error =>
       errors ++ [("students[" ++ natToString index ++ "]: " ++ error)%string])
    es acc
  = acc ++ map (fun e => (errorPrefix index ++ e)%string) es.
Proof.
  revert acc; induction es as [|e es IH]; intro acc; simpl.
  - now rewrite app_nil_r.
  - rewrite IH, <- app_assoc. simpl. unfold errorPrefix.
    now rewrite !append_assoc.
Qed.

Lemma studentStep_contributions (st : Batch) (iv : nat * json) :
  studentStep dateParses st iv
  = mkBatch (valid st ++ validContribution dateParses iv)
      (errors st ++ errorContribution dateParses iv).
Proof.
  destruct iv as [index value].
  unfold studentStep, validContribution, errorContribution. cbn [fst snd].
  destruct (validateStudent dateParses value index) as [s|es].
  - now rewrite app_nil_r.
  - now rewrite push_prefixed, app_nil_r.
Qed.

Lemma fold_studentStep (l : list (nat * json)) (st : Batch) :
  fold_left (studentStep dateParses) l st
  = mkBatch (valid st ++ flat_map (validContribution dateParses) l)
      (errors st ++ flat_map (errorContribution dateParses) l).
Proof.
  revert st; induction l as [|iv l IH]; intro st; simpl.
  - rewrite !app_nil_r. now destruct st.
  - rewrite IH, studentStep_contributions. simpl.
    now rewrite <- !app_assoc.
Qed.

Lemma prefix_append (a b : string) : prefix a (a ++ b) = true.
Proof. apply prefix_correct, substring_prefix. Qed.

(** One student and no error, or no student and at least one error, each
    starting with the position of the record. *)
Lemma contribution_dichotomy (iv : nat * json) :
  (exists s, validContribution dateParses iv = [s]
             /\ errorContribution dateParses iv = [])
  \/ (validContribution dateParses iv = []
      /\ errorContribution dateParses iv <> []
      /\ Forall (fun e => prefix (errorPrefix (fst iv)) e = true)
           (errorContribution dateParses iv)).
Proof.
  unfold validContribution, errorContribution.
  destruct (validateStudent dateParses (snd iv) (fst iv)) as [s|es] eqn:E.
  - left. now exists s.
  - right. split; [reflexivity|]. split.
    + apply validateStudent_errors_nonempty in E.
      destruct es; [contradiction | discriminate].
    + apply Forall_forall. intros e He. apply in_map_iff in He.
      destruct He as (e' & <- & _). apply prefix_append.
Qed.

Lemma contribution_count (l : list (nat * json)) :
  List.length (flat_map (validContribution dateParses) l)
  + List.length (filter (contributesError dateParses) l)
  = List.length l.
Proof.
  induction l as [|iv l IH]; simpl; [reflexivity|].
  rewrite length_app. unfold contributesError at 1.
  destruct (contribution_dichotomy iv) as [(s & -> & ->)|(-> & Hne & _)]; simpl.
  - lia.
  - destruct (errorContribution dateParses iv); [contradiction|]. simpl. lia.
Qed.

(** C7.  [validateStudents] on any value.  A value that is not an array
    gives no valid student and the single top-level error.  For an array,
    the valid list and the error list are, in order, what the elements
    contribute one by one; each element contributes either exactly one
    student and no error, or no student and at least one error, every
    such error prefixed with the element's position; so the number of
    valid students plus the number of elements with an error is the
    length of the array. *)
Theorem validateStudents_partition (x : json) :
  match x with
  | JArr items =>
      let r := validateStudents dateParses x in
      valid r = flat_map (validContribution dateParses) (indexed items)
      /\ errors r = flat_map (errorContribution dateParses) (indexed items)
      /\ Forall
           (fun iv =>
              (exists s, validContribution dateParses iv = [s]
                         /\ errorContribution dateParses iv = [])
              \/ (validContribution dateParses iv = []
                  /\ errorContribution dateParses iv <> []
                  /\ Forall (fun e => prefix (errorPrefix (fst iv)) e = true)
                       (errorContribution dateParses iv)))
           (indexed items)
      /\ List.length (valid r)
         + List.length (filter (contributesError dateParses) (indexed items))
         = List.length items
  | _ =>
      validateStudents dateParses x
      = mkBatch [] ["students.json must be an array of student objects"]
  end.
Proof.
  destruct x as [| b | n | s | items | fields]; try reflexivity.
  cbv zeta. unfold validateStudents. rewrite fold_studentStep. simpl.
  repeat split.
  - apply Forall_forall. intros iv _. apply contribution_dichotomy.
  - rewrite contribution_count. apply indexed_length.
Qed.

End ValidationClaim.

(** The example batch: one valid record, and two rejected ones. *)
Example validateStudents_rawBatch :
  List.length (Validator.valid (Validator.validateStudents Validator.isoDateParses rawBatch)) = 1
  /\ Validator.errors (Validator.validateStudents Validator.isoDateParses rawBatch)
     = ["students[1]: students[1] must be an object";
        "students[2]: name must be a non-empty string";
        "students[2]: email must be a valid address"]
  /\ List.length (filter (Schema.contributesError Validator.isoDateParses)
                    (indexed [Examples.goodRecord; JNum (Num 7); Examples.badRecord])) = 2.
Proof. repeat split. Qed.

(* ----------------------------------------------------------------- *)
(** ** Field validation of the two insight payloads *)

Section FieldValidation.

Import Insights Schema.

(** *** The normalising helpers *)

Lemma safeString_withinCap (value : option json) (maxLen : nat) (s : string) :
  0 < maxLen -> safeString value maxLen = Some s -> withinCap maxLen s = true.
Proof.
  intros Hpos. unfold safeString.
  destruct value as [[| | |t| |]|]; try discriminate.
  destruct (truthy (trim t)) eqn:Ht; simpl; [|discriminate].
  intro H. inversion H as [Hs]. clear H. unfold withinCap.
  destruct (Nat.ltb_spec maxLen (String.length (trim t))) as [Hlong|Hshort].
  - apply andb_true_intro. split.
    + unfold slice. rewrite Nat.sub_0_r.
      destruct (trim t) as [|c r]; [discriminate|].
      destruct maxLen; [lia | reflexivity].
    + apply Nat.leb_le. unfold slice. rewrite Nat.sub_0_r.
      apply substring_length.
  - rewrite Ht. simpl. now apply Nat.leb_le.
Qed.

Lemma keepTruthy_Forall (P : string -> Prop) (xs : list (option string)) :
  (forall s, In (Some s) xs -> P s) -> Forall P (keepTruthy xs).
Proof.
  induction xs as [|[s|] xs IH]; simpl; intro H.
  - constructor.
  - destruct (truthy s); [constructor|]; auto.
  - auto.
Qed.

Lemma normalizeStringArray_ok (value : option json) (min max : nat)
      (label : string) (l : list string) :
  min <= max ->
  normalizeStringArray value min max label = Ok l ->
  entriesOk min max l = true.
Proof.
  intros Hmm. unfold normalizeStringArray.
  destruct value as [[| | | |items|]|]; try discriminate.
  set (cleaned := keepTruthy (map (fun item => safeString (Some item) 180) items)).
  destruct (Nat.ltb_spec (List.length cleaned) min) as [|Hmin]; [discriminate|].
  intro H. inversion H. clear H. unfold entriesOk.
  rewrite length_firstn.
  repeat (apply andb_true_intro; split).
  - apply Nat.leb_le. lia.
  - apply Nat.leb_le. lia.
  - apply forallb_forall. intros s Hs. apply In_firstn in Hs.
    assert (HF : Forall (fun s => withinCap 180 s = true) cleaned).
    { apply keepTruthy_Forall. intros s' Hin. apply in_map_iff in Hin.
      destruct Hin as (item & Hitem & _).
      apply (safeString_withinCap (Some item)); [lia | exact Hitem]. }
    rewrite Forall_forall in HF. now apply HF.
Qed.

Lemma normalizeStringArray_err (value : option json) (min max : nat)
      (label : string) (es : list string) :
  normalizeStringArray value min max label = Err es -> es <> [].
Proof.
  unfold normalizeStringArray.
  destruct value as [[| | | |items|]|]; try (intro H; inversion H; discriminate).
  destruct (_ <? min); intro H; inversion H; discriminate.
Qed.

(** *** The student payload *)

(** As soon as one of the three array fields is rejected, the result is
    the single generic error, whatever else is wrong. *)
Lemma validateStudentRecord_array_rejected (record : json) :
  isOk (normalizeStringArray (getProp record "strengths") 1 3 "strengths")
  && isOk (normalizeStringArray (getProp record "improvementAreas") 1 2
             "improvementAreas")
  && isOk (normalizeStringArray (getProp record "strategies") 2 3 "strategies")
  = false ->
  validateStudentRecord record = Err ["Invalid student insights payload"].
Proof.
  intro H. unfold validateStudentRecord.
  destruct (normalizeStringArray (getProp record "strengths") 1 3 "strengths");
    destruct (normalizeStringArray (getProp record "improvementAreas") 1 2
                "improvementAreas");
    destruct (normalizeStringArray (getProp record "strategies") 2 3
                "strategies");
    simpl in H |- *; try reflexivity; discriminate.
Qed.

Lemma pushUnless_app (x : option string) (msg : string) (acc : list string) :
  pushUnless x msg acc = acc ++ pushUnless x msg [].
Proof.
  unfold pushUnless. destruct x as [s|]; [destruct (truthy s)|];
    simpl; now rewrite ?app_nil_r.
Qed.

(** When the three array fields are accepted, the errors of the scalar
    fields are all collected. *)
Lemma validateStudentRecord_scalars_collected (record : json) :
  isOk (normalizeStringArray (getProp record "strengths") 1 3 "strengths")
  && isOk (normalizeStringArray (getProp record "improvementAreas") 1 2
             "improvementAreas")
  && isOk (normalizeStringArray (getProp record "strategies") 2 3 "strategies")
  = true ->
  match validateStudentRecord record with
  | Ok _ => studentFieldErrors record = []
  | Err es => es = studentFieldErrors record
  end.
Proof.
  intro H. unfold validateStudentRecord, studentFieldErrors.
  destruct (normalizeStringArray (getProp record "strengths") 1 3 "strengths");
    [|discriminate].
  destruct (normalizeStringArray (getProp record "improvementAreas") 1 2
              "improvementAreas"); [|discriminate].
  destruct (normalizeStringArray (getProp record "strategies") 2 3
              "strategies"); [|discriminate].
  cbn [isOk negb orb errorsOf]. rewrite !app_nil_r.
  set (e1 := pushUnless _ "positiveObservation must be a non-empty string" []).
  rewrite (pushUnless_app _ "nextStepGoal must be a non-empty string" e1).
  rewrite (pushUnless_app _ "encouragement must be a non-empty string" (e1 ++ _)).
  rewrite <- app_assoc.
  match goal with
  | |- context [if 0 <? List.length ?e then _ else _] =>
      destruct (0 <? List.length e) eqn:E; [reflexivity|];
      apply Nat.ltb_ge in E; destruct e; [reflexivity | simpl in E; lia]
  end.
Qed.

(** A success is complete and within the schema; a failure has errors. *)
Lemma validateStudentRecord_total (record : json) :
  match validateStudentRecord record with
  | Ok v => studentSchemaOk v = true
  | Err es => es <> []
  end.
Proof.
  unfold validateStudentRecord.
  destruct (normalizeStringArray (getProp record "strengths") 1 3 "strengths")
    as [s1|e1] eqn:E1; simpl; [|discriminate].
  destruct (normalizeStringArray (getProp record "improvementAreas") 1 2
              "improvementAreas") as [s2|e2] eqn:E2; simpl; [|discriminate].
  destruct (normalizeStringArray (getProp record "strategies") 2 3 "strategies")
    as [s3|e3] eqn:E3; simpl; [|discriminate].
  apply normalizeStringArray_ok in E1, E2, E3; try lia.
  destruct (safeString (getProp record "positiveObservation") 220)
    as [po|] eqn:Epo;
    destruct (safeString (getProp record "nextStepGoal") 200) as [g|] eqn:Eg;
    destruct (safeString (getProp record "encouragement") 200)
      as [en|] eqn:Een;
    unfold pushUnless;
    try destruct (truthy po) eqn:Tpo;
    try destruct (truthy g) eqn:Tg;
    try destruct (truthy en) eqn:Ten;
    simpl; try discriminate.
  apply safeString_withinCap in Epo, Eg, Een; try lia.
  unfold studentSchemaOk. simpl.
  now rewrite Epo, Eg, Een, E1, E2, E3.
Qed.

(** *** The teacher payload *)

Lemma attentionStep_split (st : list Attention.t * list string) (ii : nat * json) :
  attentionStep st ii
  = (fst st ++ fst (attentionEntry ii), snd st ++ snd (attentionEntry ii)).
Proof.
  destruct st as [needed errs], ii as [index item].
  unfold attentionEntry, attentionStep. cbn [fst snd].
  destruct (negb (isObject item)); cbn [fst snd];
    [now rewrite app_nil_r|].
  destruct (safeString (getProp item "name") 80) as [n|];
    destruct (safeString (getProp item "reason") 160) as [r|];
    cbn [fst snd]; try now rewrite app_nil_r.
  destruct (truthy n && truthy r); cbn [fst snd]; now rewrite app_nil_r.
Qed.

Lemma fold_attentionStep (l : list (nat * json))
      (st : list Attention.t * list string) :
  fold_left attentionStep l st
  = (fst st ++ flat_map (fun ii => fst (attentionEntry ii)) l,
     snd st ++ flat_map (fun ii => snd (attentionEntry ii)) l).
Proof.
  revert st; induction l as [|ii l IH]; intro st; simpl.
  - rewrite !app_nil_r. now destruct st.
  - rewrite IH, attentionStep_split. cbn [fst snd].
    now rewrite <- !app_assoc.
Qed.

Lemma attentionEntry_ok (ii : nat * json) :
  Forall (fun a => attentionOk a = true) (fst (attentionEntry ii)).
Proof.
  destruct ii as [index item]. unfold attentionEntry, attentionStep.
  destruct (negb (isObject item)); cbn [fst]; [constructor|].
  destruct (safeString (getProp item "name") 80) as [n|] eqn:En;
    destruct (safeString (getProp item "reason") 160) as [r|] eqn:Er;
    cbn [fst]; try constructor.
  destruct (truthy n && truthy r); cbn [fst]; constructor; [|constructor].
  unfold attentionOk. cbn.
  apply safeString_withinCap in En, Er; try lia. now rewrite En, Er.
Qed.

(** Every field is looked at, and the errors of all of them are returned
    together. *)
Lemma validateTeacherRecord_collects (record : json) :
  match validateTeacherRecord record with
  | Ok v => teacherFieldErrors record = [] /\ teacherSchemaOk v = true
  | Err es => es = teacherFieldErrors record /\ es <> []
  end.
Proof.
  unfold validateTeacherRecord, teacherFieldErrors, attentionErrors.
  destruct (normalizeStringArray (getProp record "strengths") 1 4 "strengths")
    as [s1|e1] eqn:E1;
    destruct (normalizeStringArray (getProp record "nextSteps") 2 4 "nextSteps")
      as [s2|e2] eqn:E2;
    try (apply normalizeStringArray_ok in E1; [|lia]);
    try (apply normalizeStringArray_ok in E2; [|lia]);
    try (apply normalizeStringArray_err in E1);
    try (apply normalizeStringArray_err in E2);
    cbn [isOk negb errorsOf valueOf orb].
  all: set (attention :=
              match getProp record "attentionNeeded" with
              | Some (JArr items) =>
                  fold_left attentionStep (indexed items) ([], [])
              | _ => ([], ["attentionNeeded must be an array"])
              end).
  all: assert (Hatt : snd attention
                      = match getProp record "attentionNeeded" with
                        | Some (JArr items) =>
                            flat_map (fun ii => snd (attentionEntry ii))
                              (indexed items)
                        | _ => ["attentionNeeded must be an array"]
                        end
                      /\ Forall (fun a => attentionOk a = true) (fst attention));
    [unfold attention;
     destruct (getProp record "attentionNeeded") as [[| | | |items|]|];
     try (split; [reflexivity | constructor]);
     rewrite fold_attentionStep; cbn [fst snd]; split; [reflexivity|];
     apply Forall_flat_map, Forall_forall; intros ii _;
     apply attentionEntry_ok |].
  all: destruct attention as [needed aerrs]; cbn [fst snd] in Hatt;
    destruct Hatt as [<- Hneeded].
  all: set (errs0 := pushUnless (safeString (getProp record "classOverview") 240)
                       "classOverview must be a non-empty string" []).
  all: rewrite ?app_nil_r.
  - (* both arrays accepted *)
    destruct (0 <? List.length aerrs) eqn:Ea.
    + apply Nat.ltb_lt in Ea.
      destruct (0 <? List.length (errs0 ++ aerrs)) eqn:El.
      * split; [reflexivity|]. destruct aerrs; [simpl in Ea; lia|].
        now destruct errs0.
      * apply Nat.ltb_ge in El. rewrite length_app in El. lia.
    + apply Nat.ltb_ge in Ea. destruct aerrs; [|simpl in Ea; lia].
      rewrite app_nil_r.
      destruct (0 <? List.length errs0) eqn:El.
      * split; [reflexivity|]. apply Nat.ltb_lt in El.
        now destruct errs0; [simpl in El; lia|].
      * apply Nat.ltb_ge in El. destruct errs0 eqn:Eerrs; [|simpl in El; lia].
        split; [reflexivity|].
        unfold teacherSchemaOk. cbn.
        rewrite E1, E2. rewrite andb_true_r.
        apply andb_true_intro; split.
        -- unfold errs0, pushUnless in Eerrs.
           destruct (safeString (getProp record "classOverview") 240)
             as [co|] eqn:Eco; [|discriminate].
           apply safeString_withinCap in Eco; [|lia].
           cbn [asString]. now rewrite Eco.
        -- apply forallb_Forall. exact Hneeded.
  - (* nextSteps rejected *)
    replace (if 0 <? List.length aerrs then (errs0 ++ e2) ++ aerrs else errs0 ++ e2)
      with (errs0 ++ e2 ++ aerrs)
      by (destruct aerrs; simpl; now rewrite ?app_nil_r, ?app_assoc).
    destruct (0 <? List.length (errs0 ++ e2 ++ aerrs)) eqn:El.
    + split; [reflexivity|]. destruct e2; [contradiction|]. now destruct errs0.
    + apply Nat.ltb_ge in El. rewrite !length_app in El.
      destruct e2; [contradiction | simpl in El; lia].
  - (* strengths rejected *)
    replace (if 0 <? List.length aerrs then (errs0 ++ e1) ++ aerrs else errs0 ++ e1)
      with (errs0 ++ e1 ++ aerrs)
      by (destruct aerrs; simpl; now rewrite ?app_nil_r, ?app_assoc).
    destruct (0 <? List.length (errs0 ++ e1 ++ aerrs)) eqn:El.
    + split; [reflexivity|]. destruct e1; [contradiction|]. now destruct errs0.
    + apply Nat.ltb_ge in El. rewrite !length_app in El.
      destruct e1; [contradiction | simpl in El; lia].
  - (* both rejected *)
    replace (if 0 <? List.length aerrs
             then ((errs0 ++ e1) ++ e2) ++ aerrs else (errs0 ++ e1) ++ e2)
      with (errs0 ++ e1 ++ e2 ++ aerrs)
      by (destruct aerrs; simpl; now rewrite ?app_nil_r, ?app_assoc).
    destruct (0 <? List.length (errs0 ++ e1 ++ e2 ++ aerrs)) eqn:El.
    + split; [reflexivity|]. destruct e1; [contradiction|]. now destruct errs0.
    + apply Nat.ltb_ge in El. rewrite !length_app in El.
      destruct e1; [contradiction | simpl in El; lia].
Qed.

End FieldValidation.

(** C1.  On the rejected payload of the test suite, an object with
    [positiveObservation] only, five fields are invalid; [parseStudentInsights]
    returns the single error "Invalid student insights payload" and none of
    the five field errors, because it returns as soon as an array field is
    rejected.  [parseTeacherInsights], on the analogous payload, returns the
    error of each invalid field.  This holds for any [JSON.parse] that
    decodes the two texts to the objects they denote. *)
Theorem parseStudentInsights_drops_field_errors
        (JSON_parse : string -> option json) :
  JSON_parse incompleteStudentPayload
  = Some (JObj [("positiveObservation", JStr "Good job")]) ->
  JSON_parse incompleteTeacherPayload
  = Some (JObj [("classOverview", JStr "Steady")]) ->
  Insights.parseStudentInsights JSON_parse incompleteStudentPayload
  = Err ["Invalid student insights payload"]
  /\ Schema.studentFieldErrors (JObj [("positiveObservation", JStr "Good job")])
     = ["nextStepGoal must be a non-empty string";
        "encouragement must be a non-empty string";
        "strengths must be an array";
        "improvementAreas must be an array";
        "strategies must be an array"]
  /\ Insights.parseTeacherInsights JSON_parse incompleteTeacherPayload
     = Err ["strengths must be an array"; "nextSteps must be an array";
            "attentionNeeded must be an array"].
Proof.
  intros Hstudent Hteacher.
  assert (Hs : Insights.decodeObject JSON_parse incompleteStudentPayload
               = Ok (JObj [("positiveObservation", JStr "Good job")])).
  { unfold Insights.decodeObject.
    change (Insights.extractJsonObject incompleteStudentPayload)
      with (Some incompleteStudentPayload).
    cbv iota. change (truthy incompleteStudentPayload) with true.
    cbv iota beta delta [negb]. now rewrite Hstudent. }
  assert (Ht : Insights.decodeObject JSON_parse incompleteTeacherPayload
               = Ok (JObj [("classOverview", JStr "Steady")])).
  { unfold Insights.decodeObject.
    change (Insights.extractJsonObject incompleteTeacherPayload)
      with (Some incompleteTeacherPayload).
    cbv iota. change (truthy incompleteTeacherPayload) with true.
    cbv iota beta delta [negb]. now rewrite Hteacher. }
  split; [|split].
  - unfold Insights.parseStudentInsights. rewrite Hs.
    apply validateStudentRecord_array_rejected. reflexivity.
  - reflexivity.
  - unfold Insights.parseTeacherInsights. rewrite Ht. reflexivity.
Qed.

(** With the decoder of this file. *)
Lemma parseStudentInsights_drops_field_errors_witness :
  Insights.parseStudentInsights parseJson incompleteStudentPayload
  = Err ["Invalid student insights payload"]
  /\ Insights.parseTeacherInsights parseJson incompleteTeacherPayload
     = Err ["strengths must be an array"; "nextSteps must be an array";
            "attentionNeeded must be an array"].
Proof.
  destruct (parseStudentInsights_drops_field_errors parseJson)
    as (Hstudent & _ & Hteacher); [reflexivity | reflexivity |].
  split; [exact Hstudent | exact Hteacher].
Defined.

(* ----------------------------------------------------------------- *)
(** ** The fallback builders *)

Section FallbackFacts.

Import Insights Schema.

(** The [forEach] that pushes while the array is short appends as many of
    the items as still fit. *)
Lemma pushWhileBelow_closed (limit : nat) (items acc : list string) :
  pushWhileBelow limit items acc
  = acc ++ firstn (limit - List.length acc) items.
Proof.
  unfold pushWhileBelow. revert acc.
  induction items as [|x r IH]; intro acc; simpl.
  - now rewrite firstn_nil, app_nil_r.
  - destruct (Nat.ltb_spec (List.length acc) limit) as [Hlt|Hge].
    + rewrite IH, length_app, <- app_assoc. simpl.
      replace (limit - List.length acc) with (S (limit - (List.length acc + 1)))
        by lia.
      reflexivity.
    + rewrite IH. replace (limit - List.length acc) with 0 by lia.
      reflexivity.
Qed.

(** The [while] loop has enough fuel: it stops because the array has two
    entries, having appended the filler as often as needed. *)
Lemma padStrategies_closed (strategies : list string) :
  padStrategies 2 strategies
  = strategies ++ repeat fillerStrategy (2 - List.length strategies)
  /\ 2 <= List.length (padStrategies 2 strategies).
Proof.
  destruct strategies as [|a [|b r]]; simpl; rewrite ?app_nil_r;
    split; try reflexivity; lia.
Qed.

(** The strategies of the student fallback, in closed form. *)
Lemma fallback_strategies (a : StudentAnalysis.t)
      (p : option TeacherPreferences.t) :
  let ladder := strategyLadder (StudentAnalysis.metrics a) in
  let kept := firstn (3 - List.length ladder) (preferredOf p) in
  StudentInsights.strategies (buildFallbackStudentInsights a p)
  = firstn 3 (ladder ++ kept
                ++ repeat fillerStrategy (2 - List.length (ladder ++ kept))).
Proof.
  intros ladder kept. unfold buildFallbackStudentInsights.
  cbn [StudentInsights.strategies].
  rewrite pushWhileBelow_closed.
  destruct (padStrategies_closed
              (strategyLadder (StudentAnalysis.metrics a)
                 ++ firstn (3 - List.length (strategyLadder (StudentAnalysis.metrics a)))
                      (preferredOf p))) as [-> _].
  now rewrite <- app_assoc.
Qed.

Lemma fallback_strategies_count (a : StudentAnalysis.t)
      (p : option TeacherPreferences.t) :
  2 <= List.length (StudentInsights.strategies (buildFallbackStudentInsights a p))
  <= 3.
Proof.
  rewrite fallback_strategies. autorewrite with lengths. lia.
Qed.

(** Every entry of the ladder is one of the four tips. *)
Lemma strategyLadder_entries (m : StudentMetrics.t) (s : string) :
  In s (strategyLadder m) ->
  s = deadlineTip \/ s = engagementTip
  \/ (s = studyRoutineTip /\ Qltb (StudentMetrics.averageScore m) 75 = true)
  \/ (s = subjectTip (join ", " (map Grade.subject (StudentMetrics.lowestSubjects m)))
      /\ StudentMetrics.lowestSubjects m <> []).
Proof.
  unfold strategyLadder.
  destruct (Qltb (StudentMetrics.assignmentCompletionRate m) 85);
    destruct (Qleb (StudentMetrics.participationScore m) 6);
    destruct (Qltb (StudentMetrics.averageScore m) 75);
    destruct (StudentMetrics.lowestSubjects m) as [|g gs] eqn:El;
    cbn [List.length Nat.ltb Nat.leb app In];
    intro H; repeat (destruct H as [<-|H]); try contradiction; auto;
    right; right; right; split; try reflexivity; discriminate.
Qed.

(** The study-routine tip, when the ladder adds it, is among the first
    three entries. *)
Lemma strategyLadder_study (m : StudentMetrics.t) :
  Qltb (StudentMetrics.averageScore m) 75 = true ->
  In studyRoutineTip (firstn 3 (strategyLadder m)).
Proof.
  intro H. unfold strategyLadder. rewrite H.
  destruct (Qltb (StudentMetrics.assignmentCompletionRate m) 85);
    destruct (Qleb (StudentMetrics.participationScore m) 6);
    destruct (0 <? List.length (StudentMetrics.lowestSubjects m));
    cbn [app firstn In]; auto.
Qed.

Lemma preferredOf_entries (p : option TeacherPreferences.t) (s : string) :
  In s (preferredOf p) -> truthy s = true /\ In s (preferredStrategiesOf p).
Proof.
  unfold preferredOf, preferredStrategiesOf.
  destruct p as [p|]; [|contradiction].
  destruct (TeacherPreferences.preferredStrategies p) as [items|];
    [|contradiction].
  intro H. apply filter_In in H as [Hin Ht]. split; [|exact Hin].
  destruct s; [discriminate Ht | reflexivity].
Qed.

End FallbackFacts.

Section StudyTipClaim.

Import Insights.

Lemma tips_distinct (subjects : string) :
  studyRoutineTip <> deadlineTip /\ studyRoutineTip <> engagementTip
  /\ studyRoutineTip <> subjectTip subjects
  /\ studyRoutineTip <> fillerStrategy.
Proof. repeat split; discriminate. Qed.

(** C3, as the code has it.  The study-routine tip is among the fallback
    strategies whenever the average is below 75, the threshold that
    [analyzeStudent] also uses for the improvement areas; and when the
    teacher's preferred strategies do not themselves contain that
    sentence, it is among them only then. *)
Theorem fallback_study_tip_threshold
        (a : StudentAnalysis.t) (p : option TeacherPreferences.t) :
  let avg := StudentMetrics.averageScore (StudentAnalysis.metrics a) in
  let out := StudentInsights.strategies (buildFallbackStudentInsights a p) in
  ((avg < 75)%Q -> In studyRoutineTip out)
  /\ (~ In studyRoutineTip (preferredStrategiesOf p) ->
      In studyRoutineTip out -> (avg < 75)%Q).
Proof.
  intros avg out. unfold out. rewrite fallback_strategies. split.
  - intro H. apply In_firstn_app. apply strategyLadder_study.
    now apply Qltb_lt.
  - intros Hpref Hin. apply In_firstn in Hin.
    apply in_app_or in Hin as [Hin|Hin].
    + apply strategyLadder_entries in Hin.
      destruct (tips_distinct
                  (join ", " (map Grade.subject
                                (StudentMetrics.lowestSubjects
                                   (StudentAnalysis.metrics a)))))
        as (H1 & H2 & H3 & _).
      destruct Hin as [H|[H|[[_ H]|[H _]]]]; try contradiction.
      now apply Qltb_lt.
    + apply in_app_or in Hin as [Hin|Hin].
      * apply In_firstn, preferredOf_entries in Hin. tauto.
      * apply repeat_spec in Hin.
        destruct (tips_distinct "") as (_ & _ & _ & H4). contradiction.
Qed.

End StudyTipClaim.

(** An average of 72 lies in [70, 75): the tip is given. *)
Lemma fallback_study_tip_at_72 :
  (70 <= StudentMetrics.averageScore
           (StudentAnalysis.metrics (Analyzer.analyzeStudent midStudent)))%Q
  /\ (StudentMetrics.averageScore
        (StudentAnalysis.metrics (Analyzer.analyzeStudent midStudent)) < 75)%Q
  /\ In Insights.studyRoutineTip
       (StudentInsights.strategies
          (Insights.buildFallbackStudentInsights
             (Analyzer.analyzeStudent midStudent) None)).
Proof.
  split; [|split].
  - apply Qleb_le. reflexivity.
  - apply Qltb_lt. reflexivity.
  - vm_compute. left. reflexivity.
Qed.

Lemma fallback_study_tip_threshold_witness :
  In Insights.studyRoutineTip
    (StudentInsights.strategies
       (Insights.buildFallbackStudentInsights
          (Analyzer.analyzeStudent midStudent) (Some shortPreferences)))
  /\ (StudentMetrics.averageScore
        (StudentAnalysis.metrics (Analyzer.analyzeStudent midStudent)) < 75)%Q.
Proof.
  destruct (fallback_study_tip_threshold
              (Analyzer.analyzeStudent midStudent) (Some shortPreferences))
    as [Hthen Honly].
  assert (Hin : In Insights.studyRoutineTip
                  (StudentInsights.strategies
                     (Insights.buildFallbackStudentInsights
                        (Analyzer.analyzeStudent midStudent)
                        (Some shortPreferences)))).
  { apply Hthen. apply Qltb_lt. reflexivity. }
  split; [exact Hin|].
  apply Honly; [|exact Hin].
  simpl. intros [H|[H|H]]; try discriminate; contradiction.
Defined.

(* ----------------------------------------------------------------- *)
(** ** The fallback outputs and the schema *)

Section FallbackSchema.

Import Insights Schema.

Lemma withinCap_weaken (c d : nat) (s : string) :
  c <= d -> withinCap c s = true -> withinCap d s = true.
Proof.
  unfold withinCap. intros Hcd H. apply andb_prop in H as [Ht Hl].
  rewrite Ht. simpl. apply Nat.leb_le in Hl. apply Nat.leb_le. lia.
Qed.

Lemma withinCap_intro (c : nat) (s : string) :
  truthy s = true -> String.length s <= c -> withinCap c s = true.
Proof.
  intros Ht Hl. unfold withinCap. rewrite Ht. simpl. now apply Nat.leb_le.
Qed.

(** Decimal digits of small numbers. *)
Lemma natToString_upto_100 (n : nat) :
  n <= 100 -> String.length (natToString n) <= 3.
Proof.
  intro H.
  assert (Hall : forallb (fun k => String.length (natToString k) <=? 3)
                   (seq 0 101) = true) by (vm_compute; reflexivity).
  rewrite forallb_forall in Hall. apply Nat.leb_le, Hall, in_seq. lia.
Qed.

Lemma natToString_digit (n : nat) :
  n < 10 -> String.length (natToString n) = 1.
Proof.
  intro H.
  assert (Hall : forallb (fun k => String.length (natToString k) =? 1)
                   (seq 0 10) = true) by (vm_compute; reflexivity).
  rewrite forallb_forall in Hall. apply Nat.eqb_eq, Hall, in_seq. lia.
Qed.

(** An average between 0 and 100 prints in at most five characters. *)
Lemma toFixed1_length (x : Q) :
  (0 <= x)%Q -> (x <= 100)%Q ->
  1 <= String.length (toFixed1 x) <= 5.
Proof.
  intros H0 H100. unfold toFixed1.
  assert (Hneg : Qltb x 0 = false) by now apply Qltb_ge.
  rewrite Hneg.
  set (n := Z.to_nat (Qfloor (Qabs x * 10 + (1 # 2)))).
  assert (Hn : n <= 1000).
  { unfold n. rewrite Qabs_pos by assumption.
    assert (Hle : (Qfloor (x * 10 + (1 # 2)) <= Qfloor (2001 # 2))%Z).
    { apply Qfloor_resp_le. lra. }
    change (Qfloor (2001 # 2)) with 1000%Z in Hle. lia. }
  assert (Hq : n / 10 <= 100) by (apply Nat.Div0.div_le_upper_bound; lia).
  pose proof (natToString_upto_100 Hq).
  assert (Hr : n mod 10 < 10) by (apply Nat.mod_upper_bound; lia).
  pose proof (natToString_digit Hr).
  cbn [append]. rewrite append_length. cbn [String.length]. lia.
Qed.

(** *** Bounds that hold for every argument *)

Lemma fallback_student_counts (a : StudentAnalysis.t)
      (p : option TeacherPreferences.t) :
  let out := buildFallbackStudentInsights a p in
  1 <= List.length (StudentInsights.strengths out) <= 3
  /\ 1 <= List.length (StudentInsights.improvementAreas out) <= 2
  /\ 2 <= List.length (StudentInsights.strategies out) <= 3
  /\ StudentInsights.encouragement out = fixedEncouragement.
Proof.
  intro out. repeat split; try apply fallback_strategies_count.
  all: unfold out, buildFallbackStudentInsights;
    cbn [StudentInsights.strengths StudentInsights.improvementAreas].
  - destruct (StudentAnalysis.strengths a); simpl; lia.
  - destruct (StudentAnalysis.strengths a) as [|x [|y [|z r]]]; simpl; lia.
  - destruct (StudentAnalysis.improvementAreas a); simpl; lia.
  - destruct (StudentAnalysis.improvementAreas a) as [|x [|y r]]; simpl; lia.
Qed.

Lemma fallback_teacher_nextSteps (s : TeacherSummary.t)
      (p : option TeacherPreferences.t) :
  let kept := firstn 2 (preferredStrategiesOf p) in
  TeacherInsights.nextSteps (buildFallbackTeacherInsights s p)
  = if List.length kept <? 2
    then kept ++ [smallGroupStep; successStoryStep] else kept.
Proof.
  intro kept. unfold buildFallbackTeacherInsights.
  cbn [TeacherInsights.nextSteps]. rewrite pushWhileBelow_closed.
  cbn [List.length Nat.sub app]. fold kept.
  assert (Hk : List.length kept <= 2) by (unfold kept; apply firstn_le_length).
  destruct (List.length kept <? 2) eqn:E.
  - apply Nat.ltb_lt in E. apply firstn_all2. rewrite length_app. simpl. lia.
  - apply firstn_all2. lia.
Qed.

Lemma fallback_teacher_counts (s : TeacherSummary.t)
      (p : option TeacherPreferences.t) :
  let out := buildFallbackTeacherInsights s p in
  List.length (TeacherInsights.strengths out) = 1
  /\ 2 <= List.length (TeacherInsights.nextSteps out) <= 3
  /\ TeacherInsights.attentionNeeded out
     = map (fun name => Attention.mk name genericReason)
         (TeacherSummary.attentionNeeded s).
Proof.
  intro out. split; [|split].
  - unfold out, buildFallbackTeacherInsights. cbn [TeacherInsights.strengths].
    now destruct (0 <? _).
  - unfold out. rewrite fallback_teacher_nextSteps.
    destruct (preferredStrategiesOf p) as [|x [|y r]]; simpl; lia.
  - reflexivity.
Qed.

(** *** Caps, when the copied strings respect them *)

Lemma entriesOk_intro (min max : nat) (xs : list string) :
  min <= List.length xs <= max ->
  Forall (fun s => withinCap 180 s = true) xs ->
  entriesOk min max xs = true.
Proof.
  intros [Hmin Hmax] HF. unfold entriesOk.
  repeat (apply andb_true_intro; split); try now apply Nat.leb_le.
  now apply forallb_Forall.
Qed.

Lemma strategyLadder_withinCap (m : StudentMetrics.t) :
  String.length
    (subjectTip (join ", " (map Grade.subject (StudentMetrics.lowestSubjects m))))
  <= 180 ->
  Forall (fun s => withinCap 180 s = true) (strategyLadder m).
Proof.
  intro Hsub. apply Forall_forall. intros s Hs.
  apply strategyLadder_entries in Hs.
  destruct Hs as [->|[->|[[-> _]|[-> _]]]]; try reflexivity.
  now apply withinCap_intro.
Qed.

Lemma fallback_student_schema (a : StudentAnalysis.t)
      (p : option TeacherPreferences.t) :
  studentInputsOk a p = true ->
  studentSchemaOk (buildFallbackStudentInsights a p) = true.
Proof.
  unfold studentInputsOk. intro H.
  apply andb_prop in H as [H Hg]. apply andb_prop in H as [H Hp].
  apply andb_prop in H as [H Hsub]. apply andb_prop in H as [Hs Hi].
  apply Nat.leb_le in Hsub.
  rewrite forallb_Forall in Hs, Hi, Hp.
  destruct (fallback_student_counts a p) as (Cs & Ci & Ct & _).
  assert (F1 : withinCap 220
                 (StudentInsights.positiveObservation
                    (buildFallbackStudentInsights a p)) = true).
  { unfold buildFallbackStudentInsights.
    cbn [StudentInsights.positiveObservation].
    destruct (StudentAnalysis.strengths a) as [|x r]; [reflexivity|].
    change (withinCap 220 x = true).
    cbn [firstn] in Hs. inversion Hs as [|? ? Hx _]. subst.
    apply withinCap_weaken with 180; [lia | exact Hx]. }
  assert (F2 : entriesOk 1 3
                 (StudentInsights.strengths (buildFallbackStudentInsights a p))
               = true).
  { apply entriesOk_intro; [exact Cs|].
    unfold buildFallbackStudentInsights. cbn [StudentInsights.strengths].
    destruct (StudentAnalysis.strengths a) as [|x r];
      [repeat constructor | exact Hs]. }
  assert (F3 : entriesOk 1 2
                 (StudentInsights.improvementAreas
                    (buildFallbackStudentInsights a p)) = true).
  { apply entriesOk_intro; [exact Ci|].
    unfold buildFallbackStudentInsights.
    cbn [StudentInsights.improvementAreas].
    destruct (StudentAnalysis.improvementAreas a) as [|x r];
      [repeat constructor | exact Hi]. }
  assert (F4 : entriesOk 2 3
                 (StudentInsights.strategies (buildFallbackStudentInsights a p))
               = true).
  { apply entriesOk_intro; [exact Ct|].
    rewrite fallback_strategies. apply Forall_firstn.
    apply Forall_app. split; [now apply strategyLadder_withinCap|].
    apply Forall_app. split.
    + apply Forall_firstn. apply Forall_forall. intros s Hin.
      rewrite Forall_forall in Hp. specialize (Hp s Hin).
      apply preferredOf_entries in Hin as [Ht _].
      apply withinCap_intro; [exact Ht | now apply Nat.leb_le].
    + apply Forall_forall. intros s Hin. apply repeat_spec in Hin.
      now subst. }
  assert (F5 : withinCap 200
                 (StudentInsights.nextStepGoal (buildFallbackStudentInsights a p))
               = true).
  { unfold buildFallbackStudentInsights. cbn [StudentInsights.nextStepGoal].
    destruct (firstGoalOf p) as [g|]; [|reflexivity].
    destruct (truthy g) eqn:Ht; [|reflexivity].
    apply withinCap_intro; [exact Ht | now apply Nat.leb_le]. }
  unfold studentSchemaOk. rewrite F1, F2, F3, F4, F5. reflexivity.
Qed.

Lemma fallback_teacher_schema (s : TeacherSummary.t)
      (p : option TeacherPreferences.t) :
  teacherInputsOk s p = true ->
  teacherSchemaOk (buildFallbackTeacherInsights s p) = true.
Proof.
  unfold teacherInputsOk. intro H.
  apply andb_prop in H as [H Hp]. apply andb_prop in H as [H Hn].
  apply andb_prop in H as [H Htop]. apply andb_prop in H as [H0 H100].
  apply Qleb_le in H0, H100. apply Nat.leb_le in Htop.
  rewrite forallb_Forall in Hn, Hp.
  destruct (fallback_teacher_counts s p) as (Cs & Cn & Ca).
  assert (F1 : withinCap 240
                 (TeacherInsights.classOverview (buildFallbackTeacherInsights s p))
               = true).
  { unfold buildFallbackTeacherInsights. cbn [TeacherInsights.classOverview].
    apply withinCap_intro; [reflexivity|].
    unfold classOverviewOf. cbn [append String.length].
    rewrite append_length.
    pose proof (toFixed1_length H0 H100). cbn [String.length]. lia. }
  assert (F2 : entriesOk 1 4
                 (TeacherInsights.strengths (buildFallbackTeacherInsights s p))
               = true).
  { apply entriesOk_intro; [lia|].
    unfold buildFallbackTeacherInsights. cbn [TeacherInsights.strengths].
    destruct (0 <? _); repeat constructor.
    now apply withinCap_intro. }
  assert (F3 : forallb attentionOk
                 (TeacherInsights.attentionNeeded
                    (buildFallbackTeacherInsights s p)) = true).
  { rewrite Ca. apply forallb_Forall, Forall_map.
    eapply Forall_impl; [|exact Hn]. intros name Hname.
    unfold attentionOk. cbn [Attention.name Attention.reason].
    now rewrite Hname. }
  assert (F4 : entriesOk 2 4
                 (TeacherInsights.nextSteps (buildFallbackTeacherInsights s p))
               = true).
  { apply entriesOk_intro; [lia|].
    rewrite fallback_teacher_nextSteps.
    destruct (_ <? 2); [|exact Hp].
    apply Forall_app. split; [exact Hp | repeat constructor]. }
  unfold teacherSchemaOk. rewrite F1, F2, F3, F4. reflexivity.
Qed.

End FallbackSchema.

Section FallbackSchemaClaim.

Import Insights Schema.


End FallbackSchemaClaim.



(* ----------------------------------------------------------------- *)
(** ** The fallback builders on the store *)

Section StoreSteps.

Import FallbackStore.

Lemma write_read_id (T : Type) (h : store T) (a : addr) :
  write h a (read h a) = h.
Proof.
  revert a; induction h as [|x h IH]; intros [|a]; simpl; try reflexivity.
  unfold read in IH. now rewrite IH.
Qed.

Lemma write_app_old (T : Type) (h f : store T) (a : addr) (v : list T) :
  a < List.length h -> write (h ++ f) a v = write h a v ++ f.
Proof.
  revert a; induction h as [|x h IH]; intros [|a] H; simpl in *; try lia;
    [reflexivity|].
  now rewrite IH by lia.
Qed.

Lemma write_app_fresh (T : Type) (h f : store T) (k : nat) (v : list T) :
  write (h ++ f) (List.length h + k) v = h ++ write f k v.
Proof.
  induction h as [|x h IH]; simpl; [reflexivity | now rewrite IH].
Qed.

Lemma read_app_old (T : Type) (h f : store T) (a : addr) :
  a < List.length h -> read (h ++ f) a = read h a.
Proof. intro H. unfold read. now apply app_nth1. Qed.

Lemma read_app_fresh (T : Type) (h f : store T) (k : nat) :
  read (h ++ f) (List.length h + k) = read f k.
Proof.
  unfold read. rewrite app_nth2 by lia. f_equal. lia.
Qed.

Lemma write_write (T : Type) (h : store T) (a : addr) (u v : list T) :
  write (write h a u) a v = write h a v.
Proof.
  revert a; induction h as [|x h IH]; intros [|a]; simpl; try reflexivity.
  now rewrite IH.
Qed.

Lemma pushWhen_write (c : bool) (h : store string) (a : addr) (x : string) :
  pushWhen c h a x = write h a (Analyzer.pushIf c x (read h a)).
Proof.
  unfold pushWhen, push, Analyzer.pushIf. destruct c; [reflexivity|].
  now rewrite write_read_id.
Qed.

Lemma skipn_nth_error (A : Type) (l : list A) (i k : nat) (x : A) :
  nth_error l i = Some x ->
  firstn (S k) (skipn i l) = x :: firstn k (skipn (S i) l).
Proof.
  revert i; induction l as [|y l IH]; intros [|i] H; simpl in *;
    try discriminate.
  - now injection H as ->.
  - now apply IH.
Qed.

(** The loop over [src] pushes to [dst] what the fold over the contents of
    [src] pushes, as long as the two are different arrays. *)
Lemma forEachPush_from (limit : nat) (src dst : addr) (k : nat) :
  forall (h : store string) (i : nat),
    src <> dst -> dst < List.length h ->
    i + k <= List.length (read h src) ->
    forEachPush limit h src dst i k
    = write h dst
        (Insights.pushWhileBelow limit (firstn k (skipn i (read h src)))
           (read h dst)).
Proof.
  induction k as [|k IH]; intros h i Hne Hdst Hlen.
  - cbn [forEachPush firstn]. unfold Insights.pushWhileBelow.
    cbn [fold_left]. now rewrite write_read_id.
  - cbn [forEachPush].
    destruct (nth_error (read h src) i) as [item|] eqn:E.
    2:{ apply nth_error_None in E. lia. }
    rewrite pushWhen_write.
    set (h1 := write h dst _).
    assert (Hsrc : read h1 src = read h src)
      by (unfold h1; apply read_write_other; congruence).
    assert (Hd : read h1 dst
                 = Analyzer.pushIf (List.length (read h dst) <? limit) item
                     (read h dst))
      by (unfold h1; now apply read_write_same).
    rewrite IH; [|assumption | unfold h1; rewrite write_length; assumption
                 | rewrite Hsrc; lia].
    rewrite Hsrc, Hd. unfold h1. rewrite write_write.
    rewrite (@skipn_nth_error _ (read h src) i k item E).
    reflexivity.
Qed.

Lemma forEachPush_write (limit : nat) (h : store string) (src dst : addr) :
  src <> dst -> dst < List.length h ->
  forEachPush limit h src dst 0 (List.length (read h src))
  = write h dst (Insights.pushWhileBelow limit (read h src) (read h dst)).
Proof.
  intros Hne Hdst. rewrite forEachPush_from by (auto; lia).
  cbn [skipn]. now rewrite firstn_all.
Qed.

Lemma padLoop_write (fuel : nat) :
  forall (h : store string) (a : addr),
    a < List.length h ->
    padLoop fuel h a = write h a (Insights.padStrategies fuel (read h a)).
Proof.
  induction fuel as [|fuel IH]; intros h a Ha;
    cbn [padLoop Insights.padStrategies].
  - now rewrite write_read_id.
  - destruct (List.length (read h a) <? 2); [|now rewrite write_read_id].
    unfold push. rewrite IH by (rewrite write_length; assumption).
    rewrite read_write_same by assumption. apply write_write.
Qed.

Lemma keeps_refl (T : Type) (h0 : store T) : exists fresh, h0 = h0 ++ fresh.
Proof. exists []. now rewrite app_nil_r. Qed.

End StoreSteps.

Section BuildersOnStore.

Import FallbackStore.

Ltac heap_len :=
  repeat rewrite ?write_length, ?length_app; cbn [List.length]; lia.

(** Step 1 adds at most one array and changes none. *)
Lemma strengthsOrGeneric_spec (h : store string) (s : addr) :
  s < List.length h ->
  (exists fresh, fst (strengthsOrGeneric h s) = h ++ fresh)
  /\ snd (strengthsOrGeneric h s) < List.length (fst (strengthsOrGeneric h s))
  /\ read (fst (strengthsOrGeneric h s)) (snd (strengthsOrGeneric h s))
     = (if 0 <? List.length (read h s) then read h s
        else [Insights.genericStrength])
  /\ (List.length h <= snd (strengthsOrGeneric h s)
      \/ snd (strengthsOrGeneric h s) = s).
Proof.
  intro Hs. unfold strengthsOrGeneric, alloc.
  destruct (0 <? List.length (read h s)); cbn [fst snd].
  - repeat split; [apply keeps_refl | assumption | now right].
  - repeat split.
    + eauto.
    + heap_len.
    + apply read_alloc_new.
    + left. lia.
Qed.

Lemma improvementAreasOrGeneric_eq (h : store string) (a : addr) :
  improvementAreasOrGeneric h a
  = (h ++ [if 0 <? List.length (read h a) then firstn 2 (read h a)
           else [Insights.genericImprovement]],
     List.length h).
Proof.
  unfold improvementAreasOrGeneric, sliceArray, alloc.
  now destruct (0 <? List.length (read h a)).
Qed.

Lemma preferredCopy_eq (h : store string) (p : option PreferencesRef.t) :
  preferredCopy h p
  = (h ++ [match fieldOf p PreferencesRef.preferredStrategies with
           | Some items =>
               filter (fun item => truthy (trim item)) (read h items)
           | None => []
           end],
     List.length h).
Proof.
  unfold preferredCopy, alloc.
  now destruct (fieldOf p PreferencesRef.preferredStrategies).
Qed.

(** The ladder appends its tips to the array of strategies, and makes at
    most one array more. *)
Lemma ruleLadder_fresh (h f : store string) (k : nat) (hg : store Grade.t)
      (a : AnalysisRef.t) (hi : list Grade.t) :
  k < List.length f ->
  ruleLadder (h ++ f) hg (List.length h + k) a
  = h ++ write f k
           (read f k
              ++ Insights.strategyLadder
                   (StudentMetrics.mk (AnalysisRef.averageScore a) hi
                      (read hg (AnalysisRef.lowestSubjects a))
                      (AnalysisRef.participationScore a)
                      (AnalysisRef.assignmentCompletionRate a)
                      (AnalysisRef.needsAttention a)))
      ++ (if 0 <? List.length (read hg (AnalysisRef.lowestSubjects a))
          then [map Grade.subject (read hg (AnalysisRef.lowestSubjects a))]
          else []).
Proof.
  intro Hk. unfold ruleLadder, Insights.strategyLadder. cbv zeta.
  cbn [StudentMetrics.averageScore StudentMetrics.lowestSubjects
       StudentMetrics.participationScore
       StudentMetrics.assignmentCompletionRate].
  rewrite !pushWhen_write.
  rewrite !write_app_fresh, !read_app_fresh.
  rewrite !read_write_same by (rewrite ?write_length; assumption).
  rewrite !write_write.
  destruct (0 <? List.length (read hg (AnalysisRef.lowestSubjects a))).
  - unfold alloc, push.
    rewrite <- app_assoc.
    rewrite write_app_fresh, !read_app_fresh.
    rewrite write_app_old by (rewrite write_length; assumption).
    rewrite read_app_old by (rewrite write_length; assumption).
    rewrite read_write_same by assumption.
    rewrite write_write.
    rewrite length_app, read_app_fresh, read_alloc_new.
    unfold Analyzer.pushIf.
    destruct (Qltb _ 85), (Qleb _ 6), (Qltb _ 75); cbn [app];
      rewrite <- ?app_assoc; reflexivity.
  - rewrite app_nil_r. unfold Analyzer.pushIf.
    destruct (Qltb _ 85), (Qleb _ 6), (Qltb _ 75); cbn [app];
      rewrite <- ?app_assoc, ?app_nil_r; reflexivity.
Qed.

Lemma read_here (T : Type) (x : list T) (r : store T) : read (x :: r) 0 = x.
Proof. reflexivity. Qed.

Lemma read_next (T : Type) (x : list T) (r : store T) (k : nat) :
  read (x :: r) (S k) = read r k.
Proof. reflexivity. Qed.

Lemma read_app_at (T : Type) (h : store T) (x : list T) (r : store T) :
  read (h ++ x :: r) (List.length h) = x.
Proof.
  replace (List.length h) with (List.length h + 0) at 1 by lia.
  now rewrite read_app_fresh.
Qed.

Ltac heap_norm :=
  repeat first
    [ rewrite <- app_assoc
    | rewrite length_app
    | rewrite write_app_fresh
    | rewrite read_app_fresh
    | rewrite read_next
    | rewrite read_here
    | rewrite read_app_old by lia
    | progress cbn [app List.length write] ].

Lemma student_builder_on_store (w : World) (a : AnalysisRef.t)
      (p : option PreferencesRef.t) :
  analysisIn w a = true -> preferencesIn w p = true ->
  untouched w (fst (buildFallbackStudentInsights w a p))
  /\ studentView (fst (buildFallbackStudentInsights w a p))
       (snd (buildFallbackStudentInsights w a p))
     = Insights.buildFallbackStudentInsights (analysisView w a)
         (preferencesView w p)
  /\ List.length (strings w)
     <= StudentInsightsRef.strengths (snd (buildFallbackStudentInsights w a p))
  /\ List.length (strings w)
     <= StudentInsightsRef.improvementAreas
          (snd (buildFallbackStudentInsights w a p))
  /\ List.length (strings w)
     <= StudentInsightsRef.strategies
          (snd (buildFallbackStudentInsights w a p)).
Proof.
  destruct w as [h0 hg ha].
  unfold analysisIn, preferencesIn, untouched.
  cbn [strings grades attentions AnalysisRef.strengths
       AnalysisRef.improvementAreas AnalysisRef.highestSubjects
       AnalysisRef.lowestSubjects].
  intros Ha Hp.
  repeat (apply andb_prop in Ha as [Ha ?]).
  repeat (apply andb_prop in Hp as [Hp ?]).
  assert (Hgoals : forall x, fieldOf p PreferencesRef.classGoals = Some x ->
                             x < List.length h0)
    by (intros x E; rewrite E in Hp; now apply Nat.ltb_lt in Hp).
  assert (Hpref : forall x,
             fieldOf p PreferencesRef.preferredStrategies = Some x ->
             x < List.length h0)
    by (intros x E; rewrite E in *; cbn [inStore] in *;
        now apply Nat.ltb_lt).
  repeat match goal with H : (_ <? _) = true |- _ => apply Nat.ltb_lt in H end.
  pattern (buildFallbackStudentInsights (mkWorld h0 hg ha) a p).
  match goal with |- ?P _ => set (Q := P) end.
  unfold buildFallbackStudentInsights.
  cbn [strings grades attentions AnalysisRef.strengths
       AnalysisRef.improvementAreas].
  cbv zeta.
  destruct (@strengthsOrGeneric_spec h0 (AnalysisRef.strengths a) Ha)
    as ([f1 E1] & L1 & R1 & F1).
  destruct (strengthsOrGeneric h0 (AnalysisRef.strengths a)) as [h1 strengths].
  cbn [fst snd] in E1, L1, R1, F1. cbv beta iota.
  assert (Hold : forall x, x < List.length h0 -> read h1 x = read h0 x)
    by (intros x Hx; rewrite E1; now apply read_app_old).
  assert (Hlen : List.length h0 <= List.length h1) by (rewrite E1; heap_len).
  rewrite improvementAreasOrGeneric_eq. cbv beta iota.
  unfold alloc at 1. cbv beta iota. heap_norm.
  rewrite (@ruleLadder_fresh h1 _ 1 hg _
             (read hg (AnalysisRef.highestSubjects a))) by (cbn; lia).
  heap_norm.
  destruct (0 <? List.length (read hg (AnalysisRef.lowestSubjects a))) eqn:C4.
  all: heap_norm.
  all: rewrite preferredCopy_eq; cbv beta iota.
  all: rewrite forEachPush_write by (rewrite ?length_app; cbn [List.length]; lia).
  all: heap_norm.
  all: rewrite padLoop_write by (rewrite ?length_app; cbn [List.length]; lia).
  all: heap_norm.
  all: unfold sliceArray, alloc; cbv beta iota.
  all: heap_norm.
  all: subst Q; cbv beta.
  all: cbn [fst snd strings grades attentions StudentInsightsRef.strengths
            StudentInsightsRef.improvementAreas StudentInsightsRef.strategies].
  all: unfold goalOf.
  all: destruct (fieldOf p PreferencesRef.preferredStrategies) as [items|] eqn:EP;
    [ pose proof (Hpref _ eq_refl) | ].
  all: destruct (fieldOf p PreferencesRef.classGoals) as [goals|] eqn:EG;
    [ pose proof (Hgoals _ eq_refl) | ].
  all: heap_norm.
  all: rewrite ?Hold by lia.
  all: (split; [ split; [ rewrite E1, <- app_assoc; eexists; reflexivity
                        | split; exists []; now rewrite app_nil_r ] | ]).
  all: (split; [ | lia ]).
  all: unfold studentView.
  all: cbn [strings StudentInsightsRef.strengths
            StudentInsightsRef.improvementAreas StudentInsightsRef.strategies
            StudentInsightsRef.positiveObservation
            StudentInsightsRef.nextStepGoal StudentInsightsRef.encouragement].
  all: rewrite read_app_at, !read_app_fresh; cbn [Nat.add];
    rewrite ?read_next, ?read_here.
  all: rewrite R1.
  all: try rewrite (Hold goals) by lia.
  all: unfold Insights.buildFallbackStudentInsights, analysisView,
         preferencesView, Insights.preferredOf, Insights.firstGoalOf.
  all: cbn [strings grades StudentAnalysis.strengths
            StudentAnalysis.improvementAreas StudentAnalysis.metrics].
  all: destruct p as [pr|]; cbn [fieldOf] in EP, EG; try discriminate.
  all: cbn [TeacherPreferences.preferredStrategies
            TeacherPreferences.classGoals].
  all: rewrite ?EP, ?EG; cbn [option_map].
  all: try (destruct (read h0 goals) as [|g rest]; cbn [nth_error]).
  all: try reflexivity.

Qed.




Lemma classStrength_eq (h : store string) (top : addr) :
  classStrength h top
  = (h ++ [if 0 <? List.length (read h top)
           then [Insights.topPerformers (join ", " (read h top))]
           else [Insights.genericClassStrength]],
     List.length h).
Proof.
  unfold classStrength, alloc.
  now destruct (0 <? List.length (read h top)).
Qed.

Lemma teacher_builder_on_store (w : World) (s : SummaryRef.t)
      (p : option PreferencesRef.t) :
  summaryIn w s = true -> preferencesIn w p = true ->
  untouched w (fst (buildFallbackTeacherInsights w s p))
  /\ teacherView (fst (buildFallbackTeacherInsights w s p))
       (snd (buildFallbackTeacherInsights w s p))
     = Insights.buildFallbackTeacherInsights (summaryView w s)
         (preferencesView w p)
  /\ List.length (strings w)
     <= TeacherInsightsRef.strengths (snd (buildFallbackTeacherInsights w s p))
  /\ List.length (attentions w)
     <= TeacherInsightsRef.attentionNeeded
          (snd (buildFallbackTeacherInsights w s p))
  /\ List.length (strings w)
     <= TeacherInsightsRef.nextSteps
          (snd (buildFallbackTeacherInsights w s p)).
Proof.
  destruct w as [h0 hg ha].
  unfold summaryIn, preferencesIn, untouched.
  cbn [strings grades attentions].
  intros Hs Hp.
  repeat (apply andb_prop in Hs as [Hs ?]).
  repeat (apply andb_prop in Hp as [Hp ?]).
  assert (Hpref : forall x,
             fieldOf p PreferencesRef.preferredStrategies = Some x ->
             x < List.length h0)
    by (intros x E; rewrite E in *; cbn [inStore] in *;
        now apply Nat.ltb_lt).
  repeat match goal with H : (_ <? _) = true |- _ => apply Nat.ltb_lt in H end.
  pattern (buildFallbackTeacherInsights (mkWorld h0 hg ha) s p).
  match goal with |- ?P _ => set (Q := P) end.
  unfold buildFallbackTeacherInsights.
  cbn [strings grades attentions]. cbv zeta.
  rewrite classStrength_eq. cbv beta iota.
  unfold alloc at 1 2. cbv beta iota.
  unfold preferredOrEmpty.
  destruct (fieldOf p PreferencesRef.preferredStrategies) as [items|] eqn:EP;
    [ pose proof (Hpref _ eq_refl) | unfold alloc at 1 ]; cbv beta iota.
  all: rewrite forEachPush_write
    by (rewrite ?length_app; cbn [List.length]; lia).
  all: heap_norm.
  all: unfold push; heap_norm.
  all: match goal with
       | |- context [if List.length ?l <? 2 then _ else _] =>
           destruct (List.length l <? 2) eqn:C
       end.
  all: unfold sliceArray, alloc; cbv beta iota; heap_norm.
  all: subst Q; cbv beta.
  all: cbn [fst snd strings grades attentions TeacherInsightsRef.strengths
            TeacherInsightsRef.attentionNeeded TeacherInsightsRef.nextSteps
            TeacherInsightsRef.classOverview].
  all: (split; [ split; [ eexists; reflexivity
                        | split; [ exists []; now rewrite app_nil_r
                                 | eexists; reflexivity ] ] | ]).
  all: (split; [ | lia ]).
  all: unfold teacherView.
  all: cbn [strings attentions TeacherInsightsRef.strengths
            TeacherInsightsRef.attentionNeeded TeacherInsightsRef.nextSteps
            TeacherInsightsRef.classOverview].
  all: rewrite !read_app_at, !read_app_fresh; cbn [Nat.add];
    rewrite ?read_next, ?read_here.
  all: unfold Insights.buildFallbackTeacherInsights, summaryView,
         preferencesView, Insights.preferredStrategiesOf.
  all: cbn [strings TeacherSummary.topStudents TeacherSummary.attentionNeeded
            TeacherSummary.classAverage].
  all: destruct p as [pr|]; cbn [fieldOf] in EP; try discriminate.
  all: cbn [TeacherPreferences.preferredStrategies].
  all: rewrite ?EP; cbn [option_map].
  all: rewrite ?C.
  all: try reflexivity.
Qed.


Lemma inStore_kept (T : Type) (h f : store T) (x : option addr) :
  inStore h x = true -> inStore (h ++ f) x = true.
Proof.
  destruct x as [x|]; cbn [inStore]; [ | reflexivity ].
  intros H. apply Nat.ltb_lt in H. apply Nat.ltb_lt. rewrite length_app. lia.
Qed.

Lemma option_read_kept (T : Type) (h f : store T) (x : option addr) :
  inStore h x = true ->
  option_map (read (h ++ f)) x = option_map (read h) x.
Proof.
  destruct x as [x|]; cbn [inStore option_map]; [ | reflexivity ].
  intros H. apply Nat.ltb_lt in H. now rewrite read_app_old.
Qed.

Lemma analysis_kept (w w1 : World) (a : AnalysisRef.t) :
  untouched w w1 -> analysisIn w a = true ->
  analysisIn w1 a = true /\ analysisView w1 a = analysisView w a.
Proof.
  intros ([fs Es] & [fg Eg] & _) Ha.
  unfold analysisIn, analysisView in *. rewrite Es, Eg.
  repeat (apply andb_prop in Ha as [Ha ?]).
  repeat match goal with H : (_ <? _) = true |- _ => apply Nat.ltb_lt in H end.
  split.
  - rewrite !andb_true_iff, !Nat.ltb_lt, !length_app. lia.
  - now rewrite !read_app_old by assumption.
Qed.

Lemma preferences_kept (w w1 : World) (p : option PreferencesRef.t) :
  untouched w w1 -> preferencesIn w p = true ->
  preferencesIn w1 p = true /\ preferencesView w1 p = preferencesView w p.
Proof.
  intros ([fs Es] & _) Hp.
  unfold preferencesIn, preferencesView in *. rewrite Es.
  repeat (apply andb_prop in Hp as [Hp ?]).
  split.
  - now rewrite !inStore_kept.
  - destruct p as [pr|]; [ | reflexivity ].
    cbn [fieldOf] in *. now rewrite !option_read_kept.
Qed.

Lemma summary_kept (w w1 : World) (s : SummaryRef.t) :
  untouched w w1 -> summaryIn w s = true ->
  summaryIn w1 s = true /\ summaryView w1 s = summaryView w s.
Proof.
  intros ([fs Es] & _) Hs.
  unfold summaryIn, summaryView in *. rewrite Es.
  repeat (apply andb_prop in Hs as [Hs ?]).
  repeat match goal with H : (_ <? _) = true |- _ => apply Nat.ltb_lt in H end.
  split.
  - rewrite !andb_true_iff, !Nat.ltb_lt, !length_app. lia.
  - now rewrite !read_app_old by assumption.
Qed.

End BuildersOnStore.

Section FallbackPurity.

Import FallbackStore.

(** C4. The fallback generators are pure and deterministic in their
    arguments.  On the store with the arrays of the program, where an
    argument is a reference and could be written through: for an analysis
    (a class summary) and optional preferences whose arrays exist,
    - a call leaves every array that existed as it was, so the arguments
      are not changed by it;
    - what the returned object holds is the value of
      [Insights.buildFallbackStudentInsights]
      ([Insights.buildFallbackTeacherInsights]) at the contents of the
      arguments, and of nothing else in the store;
    - the same call again, in the store that the first call left, returns
      an object with the same contents;
    - a call in any other store, whatever else that store holds (a
      response of the provider, the results of earlier calls), on
      arguments with the same contents returns an object with the same
      contents;
    - the arrays of the returned object are new: none of them is an array
      of the arguments. *)
Theorem fallback_pure_on_store
        (w w' : World) (a a' : AnalysisRef.t) (s s' : SummaryRef.t)
        (p p' : option PreferencesRef.t) :
  analysisIn w a = true -> summaryIn w s = true ->
  preferencesIn w p = true ->
  analysisIn w' a' = true -> summaryIn w' s' = true ->
  preferencesIn w' p' = true ->
  let student := buildFallbackStudentInsights w a p in
  let teacher := buildFallbackTeacherInsights w s p in
  (untouched w (fst student) /\ untouched w (fst teacher))
  /\ (studentView (fst student) (snd student)
      = Insights.buildFallbackStudentInsights (analysisView w a)
          (preferencesView w p)
      /\ teacherView (fst teacher) (snd teacher)
         = Insights.buildFallbackTeacherInsights (summaryView w s)
             (preferencesView w p))
  /\ ((let again := buildFallbackStudentInsights (fst student) a p in
       studentView (fst again) (snd again)
       = studentView (fst student) (snd student))
      /\ (let again := buildFallbackTeacherInsights (fst teacher) s p in
          teacherView (fst again) (snd again)
          = teacherView (fst teacher) (snd teacher)))
  /\ ((analysisView w' a' = analysisView w a ->
       preferencesView w' p' = preferencesView w p ->
       let other := buildFallbackStudentInsights w' a' p' in
       studentView (fst other) (snd other)
       = studentView (fst student) (snd student))
      /\ (summaryView w' s' = summaryView w s ->
          preferencesView w' p' = preferencesView w p ->
          let other := buildFallbackTeacherInsights w' s' p' in
          teacherView (fst other) (snd other)
          = teacherView (fst teacher) (snd teacher)))
  /\ (List.length (strings w) <= StudentInsightsRef.strengths (snd student)
      /\ List.length (strings w)
         <= StudentInsightsRef.improvementAreas (snd student)
      /\ List.length (strings w) <= StudentInsightsRef.strategies (snd student)
      /\ List.length (strings w) <= TeacherInsightsRef.strengths (snd teacher)
      /\ List.length (attentions w)
         <= TeacherInsightsRef.attentionNeeded (snd teacher)
      /\ List.length (strings w)
         <= TeacherInsightsRef.nextSteps (snd teacher)).
Proof.
  intros Ha Hs Hp Ha' Hs' Hp' student teacher.
  destruct (student_builder_on_store w a p Ha Hp)
    as (US & VS & FS1 & FS2 & FS3).
  destruct (teacher_builder_on_store w s p Hs Hp)
    as (UT & VT & FT1 & FT2 & FT3).
  fold student in US, VS, FS1, FS2, FS3.
  fold teacher in UT, VT, FT1, FT2, FT3.
  destruct (analysis_kept a US Ha) as [Ha1 Ea1].
  destruct (preferences_kept p US Hp) as [Hp1 Ep1].
  destruct (summary_kept s UT Hs) as [Hs2 Es2].
  destruct (preferences_kept p UT Hp) as [Hp2 Ep2].
  split; [ split; assumption | ].
  split; [ split; assumption | ].
  split; [ split | split; [ split | repeat split; assumption ] ].
  - destruct (student_builder_on_store (fst student) a p Ha1 Hp1)
      as (_ & V & _).
    refine (eq_trans V _). refine (eq_trans _ (eq_sym VS)).
    now rewrite Ea1, Ep1.
  - destruct (teacher_builder_on_store (fst teacher) s p Hs2 Hp2)
      as (_ & V & _).
    refine (eq_trans V _). refine (eq_trans _ (eq_sym VT)).
    now rewrite Es2, Ep2.
  - intros Ea Ep.
    destruct (student_builder_on_store w' a' p' Ha' Hp') as (_ & V & _).
    refine (eq_trans V _). refine (eq_trans _ (eq_sym VS)).
    now rewrite Ea, Ep.
  - intros Es Ep.
    destruct (teacher_builder_on_store w' s' p' Hs' Hp') as (_ & V & _).
    refine (eq_trans V _). refine (eq_trans _ (eq_sym VT)).
    now rewrite Es, Ep.
Qed.

(** The theorem at the sample stores: in the second one the same
    contents sit at other addresses, among arrays that hold a response of
    the provider. *)
Lemma fallback_pure_on_store_witness :
  analysisView Samples.busyWorld Samples.busyAnalysis
  = analysisView Samples.plainWorld Samples.plainAnalysis
  /\ Samples.busyWorld <> Samples.plainWorld
  /\ (let student :=
        buildFallbackStudentInsights Samples.plainWorld Samples.plainAnalysis
          (Some Samples.plainPreferences) in
      let other :=
        buildFallbackStudentInsights Samples.busyWorld Samples.busyAnalysis
          (Some Samples.busyPreferences) in
      studentView (fst other) (snd other)
      = studentView (fst student) (snd student))
  /\ (let teacher :=
        buildFallbackTeacherInsights Samples.plainWorld Samples.plainSummary
          (Some Samples.plainPreferences) in
      let other :=
        buildFallbackTeacherInsights Samples.busyWorld Samples.busySummary
          (Some Samples.busyPreferences) in
      teacherView (fst other) (snd other)
      = teacherView (fst teacher) (snd teacher)).
Proof.
  destruct (@fallback_pure_on_store
              Samples.plainWorld Samples.busyWorld
              Samples.plainAnalysis Samples.busyAnalysis
              Samples.plainSummary Samples.busySummary
              (Some Samples.plainPreferences) (Some Samples.busyPreferences)
              eq_refl eq_refl eq_refl eq_refl eq_refl eq_refl)
    as (_ & _ & _ & [Hstudent Hteacher] & _).
  split; [ reflexivity | ].
  split; [ discriminate | ].
  split; [ apply Hstudent; reflexivity | apply Hteacher; reflexivity ].
Defined.

End FallbackPurity.

(* ----------------------------------------------------------------- *)
(** ** Rendering *)

Section LineFacts.

Import Insights Schema.

(** Joining with line feeds: the first line, then every other line after
    a line feed. *)
Lemma join_nl (x : string) (xs : list string) :
  join nl (x :: xs) = (x ++ linesAfter xs)%string.
Proof.
  revert x; induction xs as [|y r IH]; intro x.
  - simpl. now rewrite append_empty_r.
  - change (join nl (x :: y :: r)) with (x ++ nl ++ join nl (y :: r))%string.
    rewrite IH. reflexivity.
Qed.

Lemma linesAfter_app (xs ys : list string) :
  linesAfter (xs ++ ys) = (linesAfter xs ++ linesAfter ys)%string.
Proof.
  induction xs as [|x r IH]; [reflexivity|].
  cbn [app linesAfter]. rewrite IH.
  change (nl ++ x ++ linesAfter r ++ linesAfter ys)%string
    with (nl ++ (x ++ linesAfter r ++ linesAfter ys))%string.
  change (nl ++ x ++ linesAfter r)%string with (nl ++ (x ++ linesAfter r))%string.
  now rewrite !append_assoc.
Qed.

End LineFacts.

(** Distribute [linesAfter] over the sections of a message. *)
Ltac split_sections :=
  repeat (rewrite linesAfter_app; cbn [Schema.linesAfter]).

Section RenderingFacts.

Import Insights Schema.



End RenderingFacts.

Section RenderingClaims.

Import Insights Schema Main.
Variable JSON_parse : string -> option json.

Lemma parseStudentInsights_total (raw : string) :
  match parseStudentInsights JSON_parse raw with
  | Ok v => studentSchemaOk v = true
  | Err es => es <> []
  end.
Proof.
  unfold parseStudentInsights, decodeObject.
  destruct (extractJsonObject raw) as [c|]; [|discriminate].
  destruct (negb (truthy c)); [discriminate|].
  destruct (JSON_parse c) as [v|]; [|discriminate].
  destruct (negb (isObject v)); [discriminate|].
  apply validateStudentRecord_total.
Qed.

Lemma parseTeacherInsights_total (raw : string) :
  match parseTeacherInsights JSON_parse raw with
  | Ok v => teacherSchemaOk v = true
  | Err es => es <> []
  end.
Proof.
  unfold parseTeacherInsights, decodeObject.
  destruct (extractJsonObject raw) as [c|]; [|discriminate].
  destruct (negb (truthy c)); [discriminate|].
  destruct (JSON_parse c) as [v|]; [|discriminate].
  destruct (negb (isObject v)); [discriminate|].
  pose proof (validateTeacherRecord_collects v) as H.
  destruct (validateTeacherRecord v); tauto.
Qed.

End RenderingClaims.

Section TeacherMessageClaim.

Import Insights Schema.

(** C10.  The teacher message is the class overview, a blank line, the
    heading "Class strengths:" with one bullet per strength, a blank
    line, the heading "Students needing attention:" with one bullet per
    entry or, when there is none, the bullet "- No students flagged for
    immediate attention.", a blank line, and the heading "Next steps
    (next week):" with one bullet per step; it is never empty. *)
Theorem renderTeacherMessage_sections (i : TeacherInsights.t) :
  renderTeacherMessage i
  = (TeacherInsights.classOverview i
       ++ nl ++ nl ++ "Class strengths:"
       ++ linesAfter (bullets (TeacherInsights.strengths i))
       ++ nl ++ nl ++ "Students needing attention:"
       ++ linesAfter
            match TeacherInsights.attentionNeeded i with
            | [] => ["- No students flagged for immediate attention."]
            | entries =>
                map (fun item =>
                       "- " ++ Attention.name item ++ ": " ++ Attention.reason item)
                    entries
            end
       ++ nl ++ nl ++ "Next steps (next week):"
       ++ linesAfter (bullets (TeacherInsights.nextSteps i)))%string
  /\ 0 < String.length (renderTeacherMessage i)
  /\ (TeacherInsights.attentionNeeded i = [] ->
      exists before after,
        renderTeacherMessage i
        = (before ++ "Students needing attention:" ++ nl
             ++ "- No students flagged for immediate attention."
             ++ nl ++ nl ++ "Next steps (next week):" ++ after)%string).
Proof.
  assert (Heq : renderTeacherMessage i
                = (TeacherInsights.classOverview i
                     ++ nl ++ nl ++ "Class strengths:"
                     ++ linesAfter (bullets (TeacherInsights.strengths i))
                     ++ nl ++ nl ++ "Students needing attention:"
                     ++ linesAfter
                          match TeacherInsights.attentionNeeded i with
                          | [] => ["- No students flagged for immediate attention."]
                          | entries =>
                              map (fun item =>
                                     "- " ++ Attention.name item ++ ": "
                                          ++ Attention.reason item)
                                  entries
                          end
                     ++ nl ++ nl ++ "Next steps (next week):"
                     ++ linesAfter (bullets (TeacherInsights.nextSteps i)))%string).
  { unfold renderTeacherMessage. cbn [app]. rewrite join_nl.
    f_equal. cbn [linesAfter].
    split_sections.
    destruct (TeacherInsights.attentionNeeded i); reflexivity. }
  split; [exact Heq|]. split.
  - rewrite Heq, append_length. cbn [append String.length nl]. lia.
  - intro Hnone. rewrite Heq, Hnone.
    exists (TeacherInsights.classOverview i
              ++ nl ++ nl ++ "Class strengths:"
              ++ linesAfter (bullets (TeacherInsights.strengths i))
              ++ nl ++ nl)%string,
      (linesAfter (bullets (TeacherInsights.nextSteps i))).
    cbn [linesAfter]. rewrite !append_assoc. reflexivity.
Qed.

End TeacherMessageClaim.

(** A class in which nobody is flagged. *)
Lemma renderTeacherMessage_sections_witness :
  exists before after,
    Insights.renderTeacherMessage
      (Insights.buildFallbackTeacherInsights
         (TeacherSummary.mk (8467 # 100) ["Emma"] [] []) None)
    = (before ++ "Students needing attention:" ++ nl
         ++ "- No students flagged for immediate attention."
         ++ nl ++ nl ++ "Next steps (next week):" ++ after)%string.
Proof.
  apply (renderTeacherMessage_sections
           (Insights.buildFallbackTeacherInsights
              (TeacherSummary.mk (8467 # 100) ["Emma"] [] []) None)).
  reflexivity.
Defined.

(* ================================================================= *)
(** * Part III: further properties of the sources *)
(* ================================================================= *)

(* ----------------------------------------------------------------- *)
(** ** Trimming *)

Section TrimFacts.

Import Props.

Lemma trimStart_startsClean (s : string) : startsClean (trimStart s) = true.
Proof.
  induction s as [|c r IH]; simpl; [reflexivity|].
  destruct (isWhiteSpace c) eqn:Hc; [exact IH|]. simpl. now rewrite Hc.
Qed.

Lemma trimStart_clean (s : string) : startsClean s = true -> trimStart s = s.
Proof.
  destruct s as [|c r]; simpl; [reflexivity|].
  intro H. apply negb_true_iff in H. now rewrite H.
Qed.

Lemma trimEnd_idem (s : string) : trimEnd (trimEnd s) = trimEnd s.
Proof.
  induction s as [|c r IH]; simpl; [reflexivity|].
  destruct (isWhiteSpace c && (trimEnd r =? "")%string) eqn:E;
    [reflexivity|].
  simpl. rewrite IH, E. reflexivity.
Qed.

Lemma trimEnd_keeps_start (s : string) :
  startsClean s = true -> startsClean (trimEnd s) = true.
Proof.
  destruct s as [|c r]; simpl; [reflexivity|].
  intro H. apply negb_true_iff in H. rewrite H. simpl. now rewrite H.
Qed.

Lemma trim_startsClean (s : string) : startsClean (trim s) = true.
Proof. apply trimEnd_keeps_start, trimStart_startsClean. Qed.

Lemma trim_idem (s : string) : trim (trim s) = trim s.
Proof.
  unfold trim at 1. rewrite trimStart_clean by apply trim_startsClean.
  unfold trim. apply trimEnd_idem.
Qed.

Lemma trim_isTrimmed (s : string) : isTrimmed (trim s) = true.
Proof. unfold isTrimmed. rewrite trim_idem. apply String.eqb_refl. Qed.

Lemma isTrimmed_eq (s : string) : isTrimmed s = true <-> trim s = s.
Proof. unfold isTrimmed. apply String.eqb_eq. Qed.

(** A text without white space is its own trimmed form. *)
Lemma trimEnd_no_space (s : string) :
  forallb (fun c => negb (isWhiteSpace c)) (list_ascii_of_string s) = true ->
  trimEnd s = s.
Proof.
  induction s as [|c r IH]; simpl; [reflexivity|].
  intro H. apply andb_prop in H as [Hc Hr]. apply negb_true_iff in Hc.
  rewrite Hc, IH by assumption. reflexivity.
Qed.

Lemma trim_no_space (s : string) :
  forallb (fun c => negb (isWhiteSpace c)) (list_ascii_of_string s) = true ->
  trim s = s.
Proof.
  intro H. unfold trim. rewrite trimStart_clean.
  - now apply trimEnd_no_space.
  - destruct s as [|c r]; [reflexivity|]. simpl in *.
    now apply andb_prop in H as [Hc _].
Qed.

Lemma truthy_trim (s : string) : truthy (trim s) = true -> truthy s = true.
Proof. destruct s; [discriminate | reflexivity]. Qed.

End TrimFacts.

(* ----------------------------------------------------------------- *)
(** ** The e-mail pattern *)

Section EmailPatternFacts.

Import Validator.

Lemma splitAt_append (s a b : string) :
  splitAt s = Some (a, b) -> s = (a ++ String "@" b)%string.
Proof.
  revert a; induction s as [|c r IH]; simpl; intro a; [discriminate|].
  destruct (Ascii.eqb_spec c "@") as [->|Hc].
  - intro H. now inversion H.
  - destruct (splitAt r) as [[a' b']|]; [|discriminate].
    intro H. inversion H; subst. simpl. now rewrite <- (IH a').
Qed.

Lemma plain_no_space (s : string) :
  plain s = true ->
  forallb (fun c => negb (isWhiteSpace c)) (list_ascii_of_string s) = true.
Proof.
  induction s as [|c r IH]; simpl; [reflexivity|].
  intro H. apply andb_prop in H as [H Hr]. apply andb_prop in H as [_ Hc].
  now rewrite Hc, IH.
Qed.

Lemma list_ascii_append (a b : string) :
  list_ascii_of_string (a ++ b) = list_ascii_of_string a ++ list_ascii_of_string b.
Proof. induction a as [|c a IH]; simpl; [reflexivity | now rewrite IH]. Qed.

(** An address that matches the pattern holds no white space, so trimming
    leaves it as it is. *)
Lemma email_pattern_trimmed (s : string) :
  EMAIL_PATTERN_test s = true -> trim s = s.
Proof.
  unfold EMAIL_PATTERN_test.
  destruct (splitAt s) as [[a b]|] eqn:E; [|discriminate].
  intro H. apply andb_prop in H as [H _]. apply andb_prop in H as [H Hb].
  apply andb_prop in H as [_ Ha].
  apply splitAt_append in E. subst s. apply trim_no_space.
  rewrite list_ascii_append, forallb_app. simpl.
  now rewrite (plain_no_space _ Ha), (plain_no_space _ Hb).
Qed.

End EmailPatternFacts.

(* ----------------------------------------------------------------- *)
(** ** What the validator accepts *)

Section ValidatorSoundness.

Import Validator Props.
Variable dateParses : string -> bool.

Lemma positive_length_app (A : Type) (l m : list A) (x : A) :
  (0 <? List.length (l ++ x :: m)) = true.
Proof. apply Nat.ltb_lt. rewrite length_app. simpl. lia. Qed.

Lemma validateGrade_accepts (value : json) (index : nat) :
  wellFormedGrade value = true ->
  validateGrade value index
  = Ok (Grade.mk (trimmedOrEmpty (getProp value "subject"))
          (numberOrZero (getProp value "score"))).
Proof.
  unfold wellFormedGrade, validateGrade. intro H.
  apply andb_prop in H as [H Hscore]. apply andb_prop in H as [Hrec Hsub].
  rewrite Hrec, Hsub, Hscore. reflexivity.
Qed.

Lemma validateGrade_rejects (value : json) (index : nat) :
  wellFormedGrade value = false ->
  exists e es, validateGrade value index = Err (e :: es).
Proof.
  unfold wellFormedGrade, validateGrade. intro H.
  destruct (isRecord (Some value)); simpl; [|eauto].
  destruct (isNonEmptyString (getProp value "subject"));
    destruct (inRange (getProp value "score") 0 100); simpl in *;
    try discriminate; eauto.
Qed.

(** The loop over the grades: all of them accepted, the grades in order
    and no new error; one of them rejected, at least one new error. *)
Lemma fold_gradeStep_accepts (items : list json) (n : nat)
      (vg : list Grade.t) (errs : list string) :
  forallb wellFormedGrade items = true ->
  fold_left gradeStep (combine (seq n (List.length items)) items) (vg, errs)
  = (vg ++ map (fun g => Grade.mk (trimmedOrEmpty (getProp g "subject"))
                           (numberOrZero (getProp g "score"))) items,
     errs).
Proof.
  revert n vg; induction items as [|g gs IH]; intros n vg H; simpl.
  - now rewrite app_nil_r.
  - apply andb_prop in H as [Hg Hgs].
    rewrite (validateGrade_accepts g n Hg), IH by assumption.
    now rewrite <- app_assoc.
Qed.

Lemma fold_gradeStep_grows (l : list (nat * json))
      (vg : list Grade.t) (errs : list string) :
  exists vg' more, fold_left gradeStep l (vg, errs) = (vg', errs ++ more).
Proof.
  revert vg errs; induction l as [|[n g] l IH]; intros vg errs; simpl.
  - exists vg, []. now rewrite app_nil_r.
  - destruct (validateGrade g n) as [v|es].
    + apply IH.
    + destruct (IH vg (errs ++ es)) as (vg' & more & ->).
      exists vg', (es ++ more). now rewrite <- app_assoc.
Qed.

Lemma fold_gradeStep_rejects (items : list json) (n : nat)
      (vg : list Grade.t) (errs : list string) :
  forallb wellFormedGrade items = false ->
  exists vg' e more,
    fold_left gradeStep (combine (seq n (List.length items)) items) (vg, errs)
    = (vg', errs ++ e :: more).
Proof.
  revert n vg errs; induction items as [|g gs IH]; intros n vg errs H;
    simpl in *; [discriminate|].
  destruct (wellFormedGrade g) eqn:Hg.
  - rewrite (validateGrade_accepts g n Hg). now apply IH.
  - destruct (validateGrade_rejects g n Hg) as (e & es & ->).
    destruct (fold_gradeStep_grows
                (combine (seq (S n) (List.length gs)) gs) vg (errs ++ e :: es))
      as (vg' & more & ->).
    exists vg', e, (es ++ more). now rewrite <- app_assoc.
Qed.

End ValidatorSoundness.

Section StudentSoundness.

Import Validator Props.
Variable dateParses : string -> bool.

(** The error accumulator only grows. *)
Lemma nonempty_if (c : bool) (l m : list string) :
  l <> [] -> (if c then l ++ m else l) <> [].
Proof. destruct c, l; simpl; congruence. Qed.

Lemma nonempty_unless (A : Type) (o : option A) (l m : list string) :
  l <> [] -> match o with Some _ => l | None => l ++ m end <> [].
Proof. destruct o, l; simpl; congruence. Qed.

Lemma nonempty_notes (o : option json) (l m : list string) :
  l <> [] -> match o with Some (JStr _) => l | _ => l ++ m end <> [].
Proof. destruct o as [[| | | | |]|], l; simpl; congruence. Qed.

Lemma nonempty_snoc (l m : list string) (x : string) : l ++ x :: m <> [].
Proof. destruct l; simpl; congruence. Qed.

Lemma rejected_not_ok (A : Type) (E : list string) (x s : A) :
  E <> [] -> (if 0 <? List.length E then Err E else Ok x) <> Ok s.
Proof. destruct E; simpl; congruence. Qed.

Ltac grows :=
  repeat first [ discriminate | apply nonempty_snoc | apply nonempty_if
               | apply nonempty_unless | apply nonempty_notes ].

Lemma validateStudent_inv (value : json) (index : nat) (s : Student.t) :
  validateStudent dateParses value index = Ok s ->
  wellFormedRecord dateParses value = true
  /\ exists items note trend date,
      getProp value "grades" = Some (JArr items)
      /\ getProp value "teacherNotes" = Some (JStr note)
      /\ parseTrend (getProp value "performanceTrend") = Some trend
      /\ getProp value "lastAssessmentDate" = Some (JStr date)
      /\ s = Student.mk (trimmedOrEmpty (getProp value "id"))
               (trimmedOrEmpty (getProp value "name"))
               (trimmedOrEmpty (getProp value "email"))
               (map (fun g => Grade.mk (trimmedOrEmpty (getProp g "subject"))
                                (numberOrZero (getProp g "score"))) items)
               (numberOrZero (getProp value "participationScore"))
               (numberOrZero (getProp value "assignmentCompletionRate"))
               note trend date.
Proof.
  unfold validateStudent, wellFormedRecord.
  destruct (isRecord (Some value)); cbn [negb andb]; [|discriminate].
  cbv zeta.
  assert (Hclose : forall (E : list string) (x : Student.t) (P : Prop),
             E <> [] ->
             (if 0 <? List.length E then Err E else Ok x) = Ok s -> P).
  { intros E x P HE H. destruct E; [congruence | discriminate H]. }
  destruct (getProp value "grades") as [[| | | | [|g gs] |]|];
    cbn [List.length Nat.eqb].
  all: try (apply Hclose; grows; fail).
  destruct (forallb wellFormedGrade (g :: gs)) eqn:Hgs; unfold indexed.
  2:{ match goal with
      | |- context [fold_left gradeStep _ (_, ?E)] =>
          destruct (fold_gradeStep_rejects (g :: gs) 0 [] E Hgs)
            as (vg' & e & more & ->)
      end.
      apply Hclose; grows. }
  rewrite (fold_gradeStep_accepts (g :: gs) 0 [] _ Hgs).
  cbn [app].
  destruct (isNonEmptyString (getProp value "id")); cbn [negb andb orb];
    [|apply Hclose; grows].
  destruct (isNonEmptyString (getProp value "name")); cbn [negb andb orb];
    [|apply Hclose; grows].
  destruct (isNonEmptyString (getProp value "email")); cbn [negb andb orb];
    [|apply Hclose; grows].
  destruct (match getProp value "email" with
            | Some (JStr s0) => EMAIL_PATTERN_test s0
            | _ => false
            end); cbn [negb andb orb]; [|apply Hclose; grows].
  destruct (inRange (getProp value "participationScore") 1 10);
    cbn [negb andb orb]; [|apply Hclose; grows].
  destruct (inRange (getProp value "assignmentCompletionRate") 0 100);
    cbn [negb andb orb]; [|apply Hclose; grows].
  destruct (getProp value "teacherNotes") as [[| | | note | |]|].
  all: try (apply Hclose; grows; fail).
  destruct (parseTrend (getProp value "performanceTrend")) as [trend|];
    [|apply Hclose; grows].
  destruct (getProp value "lastAssessmentDate") as [[| | | date | |]|];
    cbn [isValidDate negb].
  all: try (apply Hclose; grows; fail).
  destruct (isNonEmptyString (Some (JStr date))); cbn [negb];
    [|apply Hclose; grows].
  destruct (dateParses date); cbn [negb]; [|apply Hclose; grows].
  cbn [List.length Nat.ltb Nat.leb].
  intro H. injection H as <-. split; [reflexivity|].
  exists (g :: gs), note, trend, date. repeat split; reflexivity.
Qed.



Lemma validateStudent_accepts (value : json) (index : nat) :
  wellFormedRecord dateParses value = true ->
  exists s, validateStudent dateParses value index = Ok s.
Proof.
  unfold validateStudent, wellFormedRecord. intro H.
  destruct (isRecord (Some value)); cbn [negb andb] in *; [|discriminate H].
  cbv zeta.
  destruct (isNonEmptyString (getProp value "id")); cbn [negb andb orb] in *;
    [|discriminate H].
  destruct (isNonEmptyString (getProp value "name")); cbn [negb andb orb] in *;
    [|discriminate H].
  destruct (isNonEmptyString (getProp value "email")); cbn [negb andb orb] in *;
    [|discriminate H].
  destruct (match getProp value "email" with
            | Some (JStr s0) => EMAIL_PATTERN_test s0
            | _ => false
            end); cbn [negb andb orb] in *; [|discriminate H].
  destruct (getProp value "grades") as [[| | | | [|g gs] |]|];
    cbn [andb] in H; try discriminate H.
  destruct (forallb wellFormedGrade (g :: gs)) eqn:Hgs;
    cbn [andb] in H; [|discriminate H].
  cbn [List.length Nat.eqb]. unfold indexed.
  rewrite (fold_gradeStep_accepts (g :: gs) 0 [] _ Hgs).
  destruct (inRange (getProp value "participationScore") 1 10);
    cbn [negb andb orb] in *; [|discriminate H].
  destruct (inRange (getProp value "assignmentCompletionRate") 0 100);
    cbn [negb andb orb] in *; [|discriminate H].
  destruct (getProp value "teacherNotes") as [[| | | note | |]|];
    cbn [andb] in H; try discriminate H.
  destruct (parseTrend (getProp value "performanceTrend")) as [trend|];
    cbn [andb] in H; [|discriminate H].
  rewrite H. cbn [negb List.length Nat.ltb Nat.leb]. eauto.
Qed.

End StudentSoundness.

(* ----------------------------------------------------------------- *)
(** ** Validated students *)

Section ValidatedStudents.

Import Validator Props Schema.
Variable dateParses : string -> bool.

Lemma isNonEmptyString_trimmed (value : option json) :
  isNonEmptyString value = true ->
  truthy (trimmedOrEmpty value) = true
  /\ isTrimmed (trimmedOrEmpty value) = true.
Proof.
  destruct value as [[| | | s | |]|]; try discriminate.
  unfold trimmedOrEmpty. intro H. rewrite H. split.
  - unfold isNonEmptyString in H. apply Nat.ltb_lt in H.
    unfold truthy. destruct (trim s); [simpl in H; lia | reflexivity].
  - apply trim_isTrimmed.
Qed.

Lemma inRange_bounds (value : option json) (lo hi : Q) :
  inRange value lo hi = true ->
  Qleb lo (numberOrZero value) = true /\ Qleb (numberOrZero value) hi = true.
Proof.
  destruct value as [[| | [q| |] | | |]|]; try discriminate.
  simpl. intro H. now apply andb_prop in H.
Qed.

Lemma email_stored (value : option json) :
  isNonEmptyString value = true ->
  match value with Some (JStr s) => EMAIL_PATTERN_test s | _ => false end = true ->
  EMAIL_PATTERN_test (trimmedOrEmpty value) = true.
Proof.
  destruct value as [[| | | e | |]|]; try discriminate.
  unfold trimmedOrEmpty. intros -> H.
  now rewrite (email_pattern_trimmed _ H).
Qed.

Lemma wellFormedGrade_ok (g : json) :
  wellFormedGrade g = true ->
  gradeOk (Grade.mk (trimmedOrEmpty (getProp g "subject"))
             (numberOrZero (getProp g "score"))) = true.
Proof.
  unfold wellFormedGrade, gradeOk. intro H.
  apply andb_prop in H as [H Hscore]. apply andb_prop in H as [_ Hsub].
  apply isNonEmptyString_trimmed in Hsub as [Ht Hc].
  apply inRange_bounds in Hscore as [H0 H100]. cbn [Grade.subject Grade.score].
  now rewrite Ht, Hc, H0, H100.
Qed.

(** X1.  [validateStudent] accepts a value exactly when the value is an
    object whose nine fields all pass their test, whatever its position in
    the batch: a non-empty [id] and [name], an [email] that matches the
    pattern, a non-empty [grades] array of objects with a non-empty
    [subject] and a [score] in [0, 100], a [participationScore] in [1, 10],
    an [assignmentCompletionRate] in [0, 100], a string [teacherNotes], one
    of the three trends and a date that the run time can parse. *)
Theorem validateStudent_accepts_iff (value : json) (index : nat) :
  (exists s, validateStudent dateParses value index = Ok s)
  <-> wellFormedRecord dateParses value = true.
Proof.
  split.
  - intros [s H]. now apply validateStudent_inv in H.
  - apply validateStudent_accepts.
Qed.

Lemma validateStudent_studentOk (value : json) (index : nat)
        (s : Student.t) :
  validateStudent dateParses value index = Ok s ->
  studentOk dateParses s = true.
Proof.
  intro H. apply validateStudent_inv in H.
  destruct H as (Hwf & items & note & trend & date & Hg & Hn & Ht & Hd & ->).
  unfold wellFormedRecord in Hwf. rewrite Hg, Hn, Ht, Hd in Hwf.
  repeat (apply andb_prop in Hwf as [Hwf ?]).
  unfold studentOk.
  cbn [Student.id Student.name Student.email Student.grades
       Student.participationScore Student.assignmentCompletionRate
       Student.lastAssessmentDate].
  assert (Hemail : EMAIL_PATTERN_test (trimmedOrEmpty (getProp value "email"))
                   = true) by now apply email_stored.
  repeat match goal with
         | H : isNonEmptyString _ = true |- _ =>
             apply isNonEmptyString_trimmed in H as [? ?]
         | H : inRange _ _ _ = true |- _ =>
             apply inRange_bounds in H as [? ?]
         end.
  assert (Hlen : (0 <? List.length
                    (map (fun g => Grade.mk (trimmedOrEmpty (getProp g "subject"))
                                     (numberOrZero (getProp g "score"))) items))
                 = true).
  { destruct items; [discriminate | reflexivity]. }
  assert (Hgrades : forallb gradeOk
                      (map (fun g => Grade.mk (trimmedOrEmpty (getProp g "subject"))
                                       (numberOrZero (getProp g "score"))) items)
                    = true).
  { destruct items as [|g gs]; [discriminate|].
    match goal with H : forallb wellFormedGrade _ = true |- _ =>
      rename H into Hall end.
    rewrite forallb_forall in Hall. apply forallb_forall.
    intros x Hx. apply in_map_iff in Hx as (j & <- & Hj).
    apply wellFormedGrade_ok, Hall, Hj. }
  assert (Hdate : dateParses date = true).
  { match goal with H : isValidDate _ _ = true |- _ => revert H end.
    unfold isValidDate. now destruct (negb _). }
  rewrite Hemail, Hlen, Hgrades, Hdate.
  repeat match goal with H : _ = true |- _ => rewrite H; clear H end.
  reflexivity.
Qed.

(** X2.  What a validated student is known to satisfy: [id] and [name] are
    non-empty and carry no white space at either end, [email] matches the
    pattern as stored (the pattern admits no white space, so trimming
    changed nothing), there is at least one grade, every grade has a
    non-empty trimmed subject and a score in [0, 100], the participation
    score is in [1, 10], the completion rate in [0, 100], and the stored
    date is one the run time parses. *)
Theorem validateStudent_invariants (value : json) (index : nat)
        (s : Student.t) :
  validateStudent dateParses value index = Ok s ->
  studentOk dateParses s = true.
Proof. apply validateStudent_studentOk. Qed.

Lemma contribution_accepted (iv : nat * json) :
  wellFormedRecord dateParses (snd iv) = true ->
  exists s, validContribution dateParses iv = [s]
            /\ errorContribution dateParses iv = []
            /\ studentOk dateParses s = true.
Proof.
  intro H. unfold validContribution, errorContribution.
  destruct (validateStudent_accepts dateParses (snd iv) (fst iv) H) as [s Hs].
  rewrite Hs. exists s. repeat split.
  now apply validateStudent_studentOk in Hs.
Qed.

Lemma contribution_rejected (iv : nat * json) :
  wellFormedRecord dateParses (snd iv) = false ->
  validContribution dateParses iv = []
  /\ errorContribution dateParses iv <> [].
Proof.
  intro H. unfold validContribution, errorContribution.
  destruct (validateStudent dateParses (snd iv) (fst iv)) as [s|es] eqn:E.
  - apply validateStudent_inv in E as [E _]. congruence.
  - split; [reflexivity|].
    apply validateStudent_errors_nonempty in E.
    destruct es; [contradiction | discriminate].
Qed.

Lemma contributions_by_form (items : list json) (n : nat) :
  let l := combine (seq n (List.length items)) items in
  Forall (fun s => studentOk dateParses s = true)
    (flat_map (validContribution dateParses) l)
  /\ List.length (flat_map (validContribution dateParses) l)
     = List.length (filter (wellFormedRecord dateParses) items)
  /\ (flat_map (errorContribution dateParses) l = []
      <-> forallb (wellFormedRecord dateParses) items = true).
Proof.
  revert n; induction items as [|v vs IH]; intro n; cbn zeta.
  - simpl. repeat split; auto.
  - destruct (IH (S n)) as (IHok & IHlen & IHerr). cbn zeta in *.
    cbn [List.length seq combine flat_map filter forallb].
    destruct (wellFormedRecord dateParses v) eqn:Hv.
    + destruct (@contribution_accepted (n, v) Hv) as (s & -> & -> & Hs).
      cbn [app List.length andb]. repeat split.
      * now constructor.
      * now rewrite IHlen.
      * apply IHerr.
      * apply IHerr.
    + destruct (@contribution_rejected (n, v) Hv) as (-> & Hne).
      cbn [app andb]. repeat split; try assumption.
      * intro H. apply app_eq_nil in H as [H _]. contradiction.
      * discriminate.
Qed.

(** X3.  [validateStudents] on any value: every student of the valid list
    satisfies the invariants of a validated student; for an array, the
    valid list has one student per well-formed element, and the error
    list is empty exactly when every element is well-formed. *)
Theorem validateStudents_valid_list (x : json) :
  Forall (fun s => studentOk dateParses s = true)
    (valid (validateStudents dateParses x))
  /\ match x with
     | JArr items =>
         List.length (valid (validateStudents dateParses x))
         = List.length (filter (wellFormedRecord dateParses) items)
         /\ (errors (validateStudents dateParses x) = []
             <-> forallb (wellFormedRecord dateParses) items = true)
     | _ => errors (validateStudents dateParses x) <> []
     end.
Proof.
  destruct x as [| b | q | s | items | fields];
    try (split; [constructor | discriminate]).
  unfold validateStudents. rewrite fold_studentStep. cbn [valid errors app].
  unfold indexed.
  destruct (contributions_by_form items 0) as (Hok & Hlen & Herr).
  auto.
Qed.

End ValidatedStudents.

(** The record of the sample batch that passes validation. *)
Lemma validateStudent_invariants_witness :
  Validator.validateStudent Validator.isoDateParses goodRecord 0
  = Ok Samples.goodStudent
  /\ Props.studentOk Validator.isoDateParses Samples.goodStudent = true.
Proof.
  split; [reflexivity|].
  apply (@validateStudent_invariants Validator.isoDateParses goodRecord 0).
  reflexivity.
Defined.

(* ----------------------------------------------------------------- *)
(** ** Averages *)

Section AverageFacts.

Import Analyzer.

Lemma of_nat_succ (n : nat) :
  (inject_Z (Z.of_nat (S n)) == inject_Z (Z.of_nat n) + 1)%Q.
Proof. rewrite Nat2Z.inj_succ, <- Z.add_1_r, inject_Z_plus. reflexivity. Qed.

Lemma sum_acc_bounds (l : list Q) (a : Q) :
  Forall (fun v => 0 <= v <= 100)%Q l ->
  (a <= fold_left (fun acc score => acc + score) l a
   <= a + 100 * inject_Z (Z.of_nat (List.length l)))%Q.
Proof.
  intro H. revert a. induction H as [|v l [Hv0 Hv100] _ IH]; intro a.
  - cbn [fold_left List.length Z.of_nat]. change (inject_Z 0) with 0%Q. lra.
  - cbn [fold_left List.length]. specialize (IH (a + v)%Q).
    pose proof (of_nat_succ (List.length l)) as Hs.
    revert IH Hs.
    generalize (inject_Z (Z.of_nat (S (List.length l)))).
    generalize (inject_Z (Z.of_nat (List.length l))).
    generalize (fold_left (fun acc score => acc + score)%Q l (a + v)%Q).
    intros x n n' IH Hs. lra.
Qed.

Lemma round_between (lo hi : Z) (y : Q) :
  (inject_Z lo <= y <= inject_Z hi)%Q ->
  (inject_Z lo <= Math_round y <= inject_Z hi)%Q.
Proof.
  intros [Hlo Hhi]. unfold Math_round. split.
  - rewrite <- Zle_Qle. apply Z.le_trans with (Qfloor (inject_Z lo)).
    + rewrite Qfloor_Z. lia.
    + apply Qfloor_resp_le. lra.
  - rewrite <- Zle_Qle.
    pose proof (Qfloor_le (y + (1 # 2))) as Hf.
    destruct (Z_le_gt_dec (Qfloor (y + (1 # 2))) hi) as [Hle|Hgt]; [exact Hle|].
    assert (Hz : (hi + 1 <= Qfloor (y + (1 # 2)))%Z) by lia.
    rewrite Zle_Qle, inject_Z_plus in Hz.
    change (inject_Z 1) with 1%Q in Hz. lra.
Qed.

Lemma mean_bounds (l : list Q) :
  l <> [] ->
  Forall (fun v => 0 <= v <= 100)%Q l ->
  (0 <= sum l / inject_Z (Z.of_nat (List.length l)) <= 100)%Q.
Proof.
  intros Hne H. pose proof (sum_acc_bounds 0 H) as [H0 H100].
  fold (sum l) in *.
  assert (Hn : (0 < inject_Z (Z.of_nat (List.length l)))%Q).
  { change 0%Q with (inject_Z 0). rewrite <- Zlt_Qlt.
    destruct l; [contradiction | simpl; lia]. }
  split.
  - apply Qle_shift_div_l; [assumption | lra].
  - apply Qle_shift_div_r; [assumption | lra].
Qed.

Lemma average_range (scores : list Q) :
  Forall (fun v => 0 <= v <= 100)%Q scores ->
  (0 <= average scores <= 100)%Q.
Proof.
  intro H. unfold average. destruct scores as [|v r].
  - simpl. lra.
  - cbn [List.length Nat.eqb].
    assert (Hne : v :: r <> []) by discriminate.
    pose proof (mean_bounds Hne H) as Hm. cbn [List.length] in Hm.
    revert Hm.
    generalize (sum (v :: r) / inject_Z (Z.of_nat (S (List.length r))))%Q.
    intros m [H0 H100].
    pose proof (@round_between 0 10000 (m * 100)%Q) as Hr.
    change (inject_Z 0) with 0%Q in Hr. change (inject_Z 10000) with 10000%Q in Hr.
    destruct Hr as [Hr0 Hr1]; [lra|].
    split; [apply Qle_shift_div_l | apply Qle_shift_div_r]; lra.
Qed.

(** X4.  The average of scores that lie in [0, 100] lies in [0, 100];
    the rounding to two decimals cannot leave that interval.  An empty
    list has average 0. *)
Theorem average_in_range (scores : list Q) :
  Forall (fun v => 0 <= v <= 100)%Q scores ->
  (0 <= average scores <= 100)%Q.
Proof. apply average_range. Qed.

(** The two grades of the test student. *)
Lemma average_in_range_witness :
  (0 <= average (map Grade.score (Student.grades testStudent)) <= 100)%Q.
Proof.
  apply average_in_range.
  repeat constructor; vm_compute; discriminate.
Defined.

End AverageFacts.

(* ----------------------------------------------------------------- *)
(** ** The analysis of one student *)

Section AnalysisFacts.

Import Analyzer Props.

Lemma In_pushIf (c : bool) (m s : string) (xs : list string) :
  In s (pushIf c m xs) <-> In s xs \/ (c = true /\ s = m).
Proof.
  unfold pushIf. destruct c.
  - rewrite in_app_iff. simpl. intuition congruence.
  - intuition congruence.
Qed.

Lemma length_pushIf (c : bool) (m : string) (xs : list string) :
  List.length (pushIf c m xs) = List.length xs + (if c then 1 else 0).
Proof. unfold pushIf. destruct c; [rewrite length_app; simpl|]; lia. Qed.

Lemma sort_length (T : Type) (cmp : T -> T -> Q) (l : list T) :
  List.length (sort cmp l) = List.length l.
Proof. apply Permutation_length, sort_perm. Qed.

(** X6.  The analysis never contradicts itself: of the four pairs of
    opposite observations (strong average / average needs improvement,
    consistent participation / increase participation, high completion /
    improve completion, improving trend / performance decline) no
    student gets the first as a strength and the second as an improvement
    area. *)
Theorem analyzeStudent_consistent (student : Student.t) (a b : string) :
  In (a, b) contradictory ->
  ~ (In a (StudentAnalysis.strengths (analyzeStudent student))
     /\ In b (StudentAnalysis.improvementAreas (analyzeStudent student))).
Proof.
  intros Hab [Ha Hb]. unfold analyzeStudent in Ha, Hb.
  cbv zeta in Ha, Hb.
  cbn [StudentAnalysis.strengths StudentAnalysis.improvementAreas] in Ha, Hb.
  rewrite !In_pushIf in Ha.
  assert (Hb' :
    In b (pushIf (trendEqb (Student.performanceTrend student) declining)
            "Address recent performance decline"
            (pushIf (Qltb (Student.assignmentCompletionRate student) 85)
               "Improve assignment completion rate"
               (pushIf (Qleb (Student.participationScore student) 6)
                  "Increase class participation"
                  (pushIf
                     (Qltb (average (map Grade.score (Student.grades student))) 75)
                     "Overall grade average needs improvement" []))))
    \/ exists x, b = ("Focus on weaker subjects: " ++ x)%string).
  { destruct (0 <? _) in Hb; [|now left].
    apply in_app_iff in Hb as [Hb|[Hb|[]]]; [now left | right; eauto]. }
  clear Hb. rewrite !In_pushIf in Hb'.
  unfold contradictory in Hab. simpl in Hab.
  destruct Hab as [E|[E|[E|[E|[]]]]]; inversion E; subst a b; clear E.
  all: destruct Hb' as [Hb|[x Hx]]; [|discriminate Hx].
  all: repeat match goal with
         | H : _ \/ _ |- _ => destruct H
         | H : _ /\ _ |- _ => destruct H
         | H : In _ [] |- _ => destruct H
         | H : _ = _ :> string |- _ => try discriminate H; clear H
         end.
  all: repeat match goal with
         | H : Qltb _ _ = true |- _ => apply Qltb_lt in H
         | H : Qleb _ _ = true |- _ => apply Qleb_le in H
         | H : trendEqb _ _ = true |- _ => apply trendEqb_eq in H
         end.
  all: try lra; congruence.
Qed.

End AnalysisFacts.

(** The test student: a declining trend, so no improving trend. *)
Lemma analyzeStudent_consistent_witness :
  ~ (In "Recent performance trend is improving"
       (StudentAnalysis.strengths (Analyzer.analyzeStudent testStudent))
     /\ In "Address recent performance decline"
          (StudentAnalysis.improvementAreas (Analyzer.analyzeStudent testStudent))).
Proof.
  apply (@analyzeStudent_consistent testStudent). simpl. tauto.
Defined.

(* ----------------------------------------------------------------- *)
(** ** Attention, risk and the shape of an analysis *)

Section AttentionFacts.

Import Analyzer Props ClassAnalyzer.

(** X7.  The shape of an analysis.  At most four strengths; the two
    subject lists have two entries, or as many as there are grades; a
    student with at least one grade has at least one improvement area, the
    last one being the line that names the lowest subjects, after at most
    four others; a student without grades has average 0 and at most four
    improvement areas. *)
Theorem analyzeStudent_shape (student : Student.t) :
  let a := analyzeStudent student in
  let m := StudentAnalysis.metrics a in
  List.length (StudentAnalysis.strengths a) <= 4
  /\ List.length (StudentMetrics.highestSubjects m)
     = Nat.min 2 (List.length (Student.grades student))
  /\ List.length (StudentMetrics.lowestSubjects m)
     = Nat.min 2 (List.length (Student.grades student))
  /\ match Student.grades student with
     | [] =>
         StudentMetrics.averageScore m = 0%Q
         /\ List.length (StudentAnalysis.improvementAreas a) <= 4
     | _ :: _ =>
         exists front,
           StudentAnalysis.improvementAreas a
           = front ++ [("Focus on weaker subjects: "
                          ++ join ", " (map Grade.subject
                                          (StudentMetrics.lowestSubjects m)))%string]
           /\ List.length front <= 4
     end.
Proof.
  cbv zeta. unfold analyzeStudent. cbv zeta.
  cbn [StudentAnalysis.strengths StudentAnalysis.improvementAreas
       StudentAnalysis.metrics StudentMetrics.highestSubjects
       StudentMetrics.lowestSubjects StudentMetrics.averageScore].
  assert (Hlow : List.length (bottomN (Student.grades student) 2 Grade.score)
                 = Nat.min 2 (List.length (Student.grades student))).
  { unfold bottomN. now rewrite length_firstn, sort_length. }
  split; [|split; [|split]].
  - rewrite !length_pushIf. simpl.
    repeat match goal with |- context [if ?c then 1 else 0] => destruct c end;
      lia.
  - unfold topN. now rewrite length_firstn, sort_length.
  - exact Hlow.
  - destruct (Student.grades student) as [|g gs] eqn:Hg.
    + split; [reflexivity|]. rewrite Hlow. cbn [List.length Nat.min Nat.ltb Nat.leb].
      rewrite !length_pushIf. simpl.
      repeat match goal with |- context [if ?c then 1 else 0] => destruct c end;
        lia.
    + rewrite Hlow. cbn [List.length Nat.min Nat.ltb Nat.leb].
      eexists. split; [reflexivity|].
      rewrite !length_pushIf. simpl.
      repeat match goal with |- context [if ?c then 1 else 0] => destruct c end;
        lia.
Qed.

Lemma attention_excludes_low (student : Student.t) :
  StudentMetrics.needsAttention
    (StudentAnalysis.metrics (analyzeStudent student)) = true ->
  StudentAnalysis.riskLevel (analyzeStudent student) <> low.
Proof.
  unfold analyzeStudent. cbv zeta.
  cbn [StudentAnalysis.metrics StudentAnalysis.riskLevel
       StudentMetrics.needsAttention].
  unfold determineRisk.
  cbn [StudentMetrics.averageScore StudentMetrics.participationScore
       StudentMetrics.assignmentCompletionRate].
  set (avg := average (map Grade.score (Student.grades student))).
  intro H.
  destruct (Qltb avg 70 || _ || _ || _) eqn:Hhigh; [discriminate|].
  destruct (Qltb avg 80 || _ || _) eqn:Hmed; [discriminate|].
  exfalso.
  repeat (apply orb_false_elim in Hhigh as [Hhigh ?]).
  repeat (apply orb_false_elim in Hmed as [Hmed ?]).
  repeat match goal with
         | H : Qltb _ _ = false |- _ => apply Qltb_ge in H
         end.
  revert H. reflect_tests. intros [[H|H]|H]; try lra.
  match goal with
  | H' : trendEqb _ declining = false |- _ =>
      apply not_true_iff_false in H'; apply H'; now apply trendEqb_eq
  end.
Qed.

(** X8.  A student flagged as needing attention is never classified as
    low risk: each of the three reasons for the flag (average below 75,
    completion below 80, declining trend) is also a reason for medium or
    high risk. *)
Theorem needsAttention_not_low (student : Student.t) :
  StudentMetrics.needsAttention
    (StudentAnalysis.metrics (analyzeStudent student)) = true ->
  StudentAnalysis.riskLevel (analyzeStudent student) <> low.
Proof. apply attention_excludes_low. Qed.

(** X9.  A low-risk student has no improvement area other than the line
    that names the lowest subjects, and is not flagged for attention. *)
Theorem low_risk_improvements (student : Student.t) :
  StudentAnalysis.riskLevel (analyzeStudent student) = low ->
  StudentMetrics.needsAttention
    (StudentAnalysis.metrics (analyzeStudent student)) = false
  /\ StudentAnalysis.improvementAreas (analyzeStudent student)
     = match StudentMetrics.lowestSubjects
               (StudentAnalysis.metrics (analyzeStudent student)) with
       | [] => []
       | lowest =>
           [("Focus on weaker subjects: "
               ++ join ", " (map Grade.subject lowest))%string]
       end.
Proof.
  intro Hlow. split.
  - destruct (StudentMetrics.needsAttention _) eqn:E; [|reflexivity].
    now apply attention_excludes_low in E.
  - revert Hlow. unfold analyzeStudent. cbv zeta.
    cbn [StudentAnalysis.metrics StudentAnalysis.riskLevel
         StudentAnalysis.improvementAreas StudentMetrics.lowestSubjects].
    unfold determineRisk.
    cbn [StudentMetrics.averageScore StudentMetrics.participationScore
         StudentMetrics.assignmentCompletionRate].
    set (avg := average (map Grade.score (Student.grades student))).
    destruct (Qltb avg 70 || _ || _ || _) eqn:Hhigh; [discriminate|].
    destruct (Qltb avg 80 || _ || _) eqn:Hmed; [discriminate|].
    intros _.
    repeat (apply orb_false_elim in Hhigh as [Hhigh ?]).
    repeat (apply orb_false_elim in Hmed as [Hmed ?]).
    assert (H75 : Qltb avg 75 = false).
    { apply Qltb_ge. apply Qltb_ge in Hmed. lra. }
    repeat match goal with
           | H : _ = false |- _ => rewrite H; clear H
           end.
    unfold pushIf.
    destruct (bottomN (Student.grades student) 2 Grade.score); reflexivity.
Qed.

Lemma flagged_iff (student : Student.t) :
  flagged (analyzeStudent student) = true
  <-> ((StudentMetrics.averageScore
          (StudentAnalysis.metrics (analyzeStudent student)) < 75)%Q
       \/ (Student.assignmentCompletionRate student < 80)%Q
       \/ Student.performanceTrend student = declining
       \/ (Student.participationScore student <= 4)%Q).
Proof.
  unfold flagged, analyzeStudent. cbv zeta.
  cbn [StudentAnalysis.metrics StudentAnalysis.riskLevel
       StudentMetrics.needsAttention StudentMetrics.averageScore].
  unfold determineRisk.
  cbn [StudentMetrics.averageScore StudentMetrics.participationScore
       StudentMetrics.assignmentCompletionRate].
  set (avg := average (map Grade.score (Student.grades student))).
  destruct (Qltb avg 70 || _ || _ || _) eqn:Hhigh.
  - cbn [riskEqb]. rewrite orb_true_r. split; [intros _|reflexivity].
    revert Hhigh. reflect_tests. intros [[[H|H]|H]|H]; auto.
    + left. lra.
    + right. left. lra.
  - assert (Hrisk : forall b : bool,
               riskEqb (if b then medium else low) high = false)
      by (now intros []).
    rewrite Hrisk, orb_false_r.
    repeat (apply orb_false_elim in Hhigh as [Hhigh ?]).
    repeat match goal with
           | H : Qltb _ _ = false |- _ => apply Qltb_ge in H
           end.
    reflect_tests. split.
    + intros [[Ha|Ha]|Ha]; auto.
    + intros [Ha|[Ha|[Ha|Ha]]]; auto.
      match goal with
      | H' : Qleb _ 4 = false |- _ =>
          apply not_true_iff_false in H'; exfalso; apply H'; now apply Qleb_le
      end.
Qed.

(** X10.  Who is listed for attention in the class summary: the filter
    keeps an analysed student exactly when the average is below 75, the
    completion rate is below 80, the trend is declining, or the
    participation score is at most 4.  The last case is the only one that
    the high-risk test adds to the attention flag. *)
Theorem flagged_analyzeStudent (student : Student.t) :
  flagged (analyzeStudent student) = true
  <-> ((StudentMetrics.averageScore
          (StudentAnalysis.metrics (analyzeStudent student)) < 75)%Q
       \/ (Student.assignmentCompletionRate student < 80)%Q
       \/ Student.performanceTrend student = declining
       \/ (Student.participationScore student <= 4)%Q).
Proof. apply flagged_iff. Qed.

End AttentionFacts.

(** The test student is flagged: the trend is declining. *)
Lemma needsAttention_not_low_witness :
  StudentAnalysis.riskLevel (Analyzer.analyzeStudent testStudent) <> low.
Proof.
  apply (@needsAttention_not_low testStudent). reflexivity.
Defined.

(** The strong student is at low risk. *)
Lemma low_risk_improvements_witness :
  StudentMetrics.needsAttention
    (StudentAnalysis.metrics (Analyzer.analyzeStudent strongStudent)) = false
  /\ StudentAnalysis.improvementAreas (Analyzer.analyzeStudent strongStudent)
     = ["Focus on weaker subjects: Art, Math"].
Proof.
  apply (@low_risk_improvements strongStudent). reflexivity.
Defined.

(* ----------------------------------------------------------------- *)
(** ** The class summary *)

Section SummaryFacts.

Import Analyzer Props ClassAnalyzer Schema Insights.

Lemma sorted_app_inv (T : Type) (R : T -> T -> Prop) (l1 l2 : list T) :
  StronglySorted R (l1 ++ l2) ->
  forall a b, In a l1 -> In b l2 -> R a b.
Proof.
  induction l1 as [|x l1 IH]; intros H a b Ha Hb; [destruct Ha|].
  simpl in H. apply StronglySorted_inv in H as [Hs Hx].
  destruct Ha as [<-|Ha].
  - rewrite Forall_forall in Hx. apply Hx, in_or_app. now right.
  - now apply IH.
Qed.

Lemma summary_top_split (analyses : list StudentAnalysis.t) :
  exists top rest,
    Permutation analyses (top ++ rest)
    /\ TeacherSummary.topStudents (buildTeacherSummary analyses)
       = map nameOf top
    /\ List.length top = Nat.min 3 (List.length analyses)
    /\ StronglySorted (fun a b => (averageOf b <= averageOf a)%Q) top
    /\ forall a b, In a top -> In b rest -> (averageOf b <= averageOf a)%Q.
Proof.
  set (sorted := sort (descending averageOf) analyses).
  exists (firstn 3 sorted), (skipn 3 sorted).
  pose proof (descending_sorted averageOf analyses) as Hs. fold sorted in Hs.
  rewrite <- (firstn_skipn 3 sorted) in Hs.
  repeat split.
  - rewrite firstn_skipn. symmetry. apply sort_perm.
  - rewrite length_firstn. unfold sorted. now rewrite sort_length.
  - clear -Hs. revert Hs. generalize (skipn 3 sorted).
    induction (firstn 3 sorted) as [|x l IH]; intros r Hs; [constructor|].
    simpl in Hs. apply StronglySorted_inv in Hs as [Hs Hx].
    constructor; [now apply IH with r|].
    rewrite Forall_forall in *. intros y Hy. apply Hx, in_or_app. now left.
  - intros a b Ha Hb.
    exact (@sorted_app_inv _ (fun a b => (averageOf b <= averageOf a)%Q)
             _ _ Hs a b Ha Hb).
Qed.

(** X11.  The top students of the class summary: the analyses split into
    a top part of three (or all of them when there are fewer) and a rest,
    the listed names are those of the top part in order, nobody in the
    rest has a higher average than anybody in the top part, and the top
    part is in order of decreasing average. *)
Theorem buildTeacherSummary_top (analyses : list StudentAnalysis.t) :
  exists top rest,
    Permutation analyses (top ++ rest)
    /\ TeacherSummary.topStudents (buildTeacherSummary analyses)
       = map nameOf top
    /\ List.length top = Nat.min 3 (List.length analyses)
    /\ StronglySorted (fun a b => (averageOf b <= averageOf a)%Q) top
    /\ forall a b, In a top -> In b rest -> (averageOf b <= averageOf a)%Q.
Proof. apply summary_top_split. Qed.

Lemma length_filter_le (T : Type) (p q : T -> bool) (l : list T) :
  (forall x, In x l -> p x = true -> q x = true) ->
  List.length (filter p l) <= List.length (filter q l).
Proof.
  induction l as [|x l IH]; intro H; simpl; [lia|].
  assert (IH' : List.length (filter p l) <= List.length (filter q l)).
  { apply IH. intros y Hy. apply H. now right. }
  destruct (p x) eqn:Hp.
  - rewrite (H x (or_introl eq_refl) Hp). simpl. lia.
  - destruct (q x); simpl; lia.
Qed.

(** X12.  The attention list of the summary of a class of analysed
    students.  A name is listed exactly when it is the name of a student
    whose average is below 75, whose completion rate is below 80, whose
    trend is declining or whose participation score is at most 4; the
    list has one name per such student; and the number announced by the
    declining-trend note never exceeds the number of names listed. *)
Theorem buildTeacherSummary_attention (students : list Student.t) :
  let summary := buildTeacherSummary (map analyzeStudent students) in
  (forall name,
      In name (TeacherSummary.attentionNeeded summary)
      <-> exists student,
          In student students /\ Student.name student = name
          /\ ((StudentMetrics.averageScore
                 (StudentAnalysis.metrics (analyzeStudent student)) < 75)%Q
              \/ (Student.assignmentCompletionRate student < 80)%Q
              \/ Student.performanceTrend student = declining
              \/ (Student.participationScore student <= 4)%Q))
  /\ List.length (filter isDeclining (map analyzeStudent students))
     <= List.length (TeacherSummary.attentionNeeded summary)
  /\ List.length (TeacherSummary.notes summary) <= 2.
Proof.
  cbv zeta. unfold buildTeacherSummary. cbv zeta.
  cbn [TeacherSummary.attentionNeeded TeacherSummary.notes].
  split; [|split].
  - intro name. rewrite in_map_iff. split.
    + intros (a & Hname & Ha). apply filter_In in Ha as [Ha Hf].
      apply in_map_iff in Ha as (student & <- & Hin).
      exists student. repeat split; [assumption | exact Hname |].
      now apply flagged_iff.
    + intros (student & Hin & Hname & Hc).
      exists (analyzeStudent student). split; [exact Hname|].
      apply filter_In. split; [now apply in_map|].
      now apply flagged_iff.
  - rewrite length_map. apply length_filter_le.
    intros a Ha Hd. apply in_map_iff in Ha as (student & <- & _).
    apply flagged_iff. right. right. left.
    now apply trendEqb_eq.
  - repeat match goal with |- context [if ?c then _ else _] => destruct c end;
      simpl; lia.
Qed.

Lemma studentOk_scores (dateParses : string -> bool) (student : Student.t) :
  studentOk dateParses student = true ->
  Forall (fun v => 0 <= v <= 100)%Q (map Grade.score (Student.grades student)).
Proof.
  unfold studentOk. intro H. repeat (apply andb_prop in H as [H ?]).
  match goal with H' : forallb gradeOk _ = true |- _ => rename H' into Hg end.
  rewrite forallb_forall in Hg. apply Forall_forall. intros v Hv.
  apply in_map_iff in Hv as (g & <- & Hin). specialize (Hg g Hin).
  unfold gradeOk in Hg. repeat (apply andb_prop in Hg as [Hg ?]).
  split; now apply Qleb_le.
Qed.

Lemma class_average_range (dateParses : string -> bool)
        (students : list Student.t) :
  Forall (fun s => studentOk dateParses s = true) students ->
  Forall (fun s => 0 <= averageOf (analyzeStudent s) <= 100)%Q students
  /\ (0 <= TeacherSummary.classAverage
             (buildTeacherSummary (map analyzeStudent students)) <= 100)%Q.
Proof.
  intro H.
  assert (Hall : Forall (fun s => 0 <= averageOf (analyzeStudent s) <= 100)%Q
                   students).
  { eapply Forall_impl; [|exact H]. intros s Hs.
    apply average_range. now apply studentOk_scores with dateParses. }
  split; [exact Hall|].
  unfold buildTeacherSummary. cbv zeta. cbn [TeacherSummary.classAverage].
  apply average_range. rewrite map_map. now apply Forall_map.
Qed.

(** X13.  Through the pipeline: for a class of validated students, every
    student's average lies in [0, 100] and so does the class average,
    the average of those averages. *)
Theorem validated_class_average (dateParses : string -> bool)
        (students : list Student.t) :
  Forall (fun s => studentOk dateParses s = true) students ->
  Forall (fun s => 0 <= averageOf (analyzeStudent s) <= 100)%Q students
  /\ (0 <= TeacherSummary.classAverage
             (buildTeacherSummary (map analyzeStudent students)) <= 100)%Q.
Proof. apply class_average_range. Qed.

Lemma concat_length_le (sep : string) (xs : list string) (L : nat) :
  Forall (fun x => String.length x <= L) xs ->
  String.length (String.concat sep xs)
  <= List.length xs * L + (List.length xs - 1) * String.length sep.
Proof.
  induction 1 as [|x xs Hx Hxs IH]; [simpl; lia|].
  destruct xs as [|y ys].
  - simpl. lia.
  - change (String.concat sep (x :: y :: ys))
      with (x ++ sep ++ String.concat sep (y :: ys))%string.
    rewrite !append_length. cbn [List.length] in *.
    replace (S (S (List.length ys)) - 1) with (S (S (List.length ys) - 1))
      by lia.
    rewrite !Nat.mul_succ_l. lia.
Qed.

Lemma studentOk_name (dateParses : string -> bool) (student : Student.t) :
  studentOk dateParses student = true -> truthy (Student.name student) = true.
Proof.
  unfold studentOk. intro H. repeat (apply andb_prop in H as [H ?]).
  assumption.
Qed.

(** X14.  Through the pipeline to the teacher fallback: for a class of
    validated students whose names have at most 49 characters, and
    preferred strategies (if any) within the cap of an entry, the fallback
    built from the class summary satisfies the schema of a teacher
    insight, caps included. *)
Theorem validated_class_fallback (dateParses : string -> bool)
        (students : list Student.t) (preferences : option TeacherPreferences.t) :
  Forall (fun s => studentOk dateParses s = true) students ->
  Forall (fun s => String.length (Student.name s) <= 49) students ->
  forallb (withinCap 180) (firstn 2 (preferredStrategiesOf preferences)) = true ->
  teacherSchemaOk
    (buildFallbackTeacherInsights
       (buildTeacherSummary (map analyzeStudent students)) preferences) = true.
Proof.
  intros Hok Hlen Hp. apply fallback_teacher_schema.
  destruct (@class_average_range dateParses students Hok) as [_ [H0 H100]].
  unfold teacherInputsOk.
  apply Qleb_le in H0, H100. rewrite H0, H100, Hp. cbn [andb].
  assert (Hnames : forall a, In a (map analyzeStudent students) ->
                             truthy (nameOf a) = true
                             /\ String.length (nameOf a) <= 49).
  { intros a Ha. apply in_map_iff in Ha as (s & <- & Hs).
    rewrite Forall_forall in Hok, Hlen. split.
    - apply studentOk_name with dateParses. now apply Hok.
    - now apply Hlen. }
  destruct (summary_top_split (map analyzeStudent students))
    as (top & rest & Hperm & -> & Htop & _ & _).
  assert (Hattn : forallb (withinCap 80)
                    (TeacherSummary.attentionNeeded
                       (buildTeacherSummary (map analyzeStudent students)))
                  = true).
  { unfold buildTeacherSummary. cbv zeta. cbn [TeacherSummary.attentionNeeded].
    apply forallb_forall. intros name Hname.
    apply in_map_iff in Hname as (a & <- & Ha). apply filter_In in Ha as [Ha _].
    destruct (Hnames a Ha) as [Ht Hl].
    apply withinCap_intro; [exact Ht | lia]. }
  rewrite Hattn, !andb_true_r. apply Nat.leb_le.
  unfold topPerformers. cbn [append String.length]. rewrite append_length.
  cbn [String.length].
  assert (Hjoin : String.length (join ", " (map nameOf top))
                  <= List.length (map nameOf top) * 49
                     + (List.length (map nameOf top) - 1) * 2).
  { apply (concat_length_le ", "). apply Forall_map, Forall_forall.
    intros a Ha. apply Hnames.
    apply Permutation_in with (top ++ rest);
      [now symmetry | apply in_or_app; now left]. }
  rewrite length_map in Hjoin. lia.
Qed.

End SummaryFacts.

(** The class of the four sample students: the first two are listed. *)
Lemma validated_class_average_witness :
  (0 <= TeacherSummary.classAverage
          (ClassAnalyzer.buildTeacherSummary
             (map Analyzer.analyzeStudent
                [testStudent; boundaryStudent; midStudent; strongStudent]))
   <= 100)%Q.
Proof.
  apply (@validated_class_average Validator.isoDateParses
           [testStudent; boundaryStudent; midStudent; strongStudent]).
  repeat constructor.
Defined.

Lemma validated_class_fallback_witness :
  Schema.teacherSchemaOk
    (Insights.buildFallbackTeacherInsights
       (ClassAnalyzer.buildTeacherSummary
          (map Analyzer.analyzeStudent
             [testStudent; boundaryStudent; midStudent; strongStudent]))
       (Some shortPreferences)) = true.
Proof.
  apply (@validated_class_fallback Validator.isoDateParses
           [testStudent; boundaryStudent; midStudent; strongStudent]
           (Some shortPreferences)).
  - repeat constructor.
  - repeat constructor; simpl; lia.
  - reflexivity.
Defined.

(* ----------------------------------------------------------------- *)
(** ** Cleaning a string *)

Section SafeStringFacts.

Import Insights Props Schema.

Lemma substring_all (s : string) (n : nat) :
  String.length s <= n -> substring 0 n s = s.
Proof.
  revert n; induction s as [|c s IH]; intros [|n] H; simpl in *;
    try reflexivity; try lia.
  now rewrite IH by lia.
Qed.

Lemma substring_0_length (s : string) (n : nat) :
  String.length (substring 0 n s) = Nat.min n (String.length s).
Proof.
  revert n; induction s as [|c s IH]; intros [|n]; simpl; try reflexivity.
  now rewrite IH.
Qed.

Lemma substring_0_startsClean (s : string) (n : nat) :
  startsClean s = true -> startsClean (substring 0 n s) = true.
Proof. destruct s, n; simpl; auto. Qed.

(** X15.  What [safeString] returns, for a positive cap.  A result is the
    trimmed text of a string value cut to the cap: it is not empty, does
    not start with white space, and has the length of the trimmed text or
    the cap, whichever is smaller (the cut is made after trimming, so the
    result may end in white space).  There is no result exactly when the
    value is not a string or is a string of white space only. *)
Theorem safeString_result (value : option json) (maxLen : nat) :
  0 < maxLen ->
  match safeString value maxLen with
  | Some s =>
      exists raw,
        value = Some (JStr raw)
        /\ s = substring 0 maxLen (trim raw)
        /\ truthy s = true
        /\ startsClean s = true
        /\ String.length s = Nat.min maxLen (String.length (trim raw))
  | None =>
      match value with
      | Some (JStr raw) => trim raw = ""
      | _ => True
      end
  end.
Proof.
  intro Hpos. unfold safeString.
  destruct value as [[| | | raw | |]|]; try exact I.
  cbv zeta. destruct (truthy (trim raw)) eqn:Ht; cbn [negb].
  - exists raw.
    assert (Hs : (if maxLen <? String.length (trim raw)
                  then slice (trim raw) 0 maxLen else trim raw)
                 = substring 0 maxLen (trim raw)).
    { unfold slice. rewrite Nat.sub_0_r.
      destruct (maxLen <? String.length (trim raw)) eqn:E; [reflexivity|].
      apply Nat.ltb_ge in E. now rewrite substring_all. }
    rewrite Hs. repeat split.
    + destruct (trim raw); [discriminate|]. destruct maxLen; [lia | reflexivity].
    + apply substring_0_startsClean, trim_startsClean.
    + apply substring_0_length.
  - unfold truthy in Ht. apply negb_false_iff in Ht.
    now apply String.eqb_eq in Ht.
Qed.

(** A trimmed string within its cap is returned as it is. *)
Lemma safeString_clean (s : string) (cap : nat) :
  isTrimmed s = true -> withinCap cap s = true ->
  safeString (Some (JStr s)) cap = Some s.
Proof.
  intros Ht Hc. apply isTrimmed_eq in Ht. unfold withinCap in Hc.
  apply andb_prop in Hc as [Hne Hlen]. apply Nat.leb_le in Hlen.
  unfold safeString. cbv zeta. rewrite Ht, Hne. cbn [negb].
  assert (E : (cap <? String.length s) = false) by (apply Nat.ltb_ge; lia).
  now rewrite E.
Qed.

Lemma keepTruthy_clean (l : list string) :
  forallb isTrimmed l = true -> forallb (withinCap 180) l = true ->
  keepTruthy (map (fun item => safeString (Some item) 180) (map JStr l)) = l.
Proof.
  induction l as [|s l IH]; intros Ht Hc; [reflexivity|].
  cbn [forallb] in Ht, Hc.
  apply andb_prop in Ht as [Hs Ht]. apply andb_prop in Hc as [Hcs Hc].
  cbn [map keepTruthy]. rewrite (@safeString_clean s 180 Hs Hcs).
  unfold withinCap in Hcs. apply andb_prop in Hcs as [-> _].
  now rewrite IH.
Qed.

Lemma normalizeStringArray_clean (l : list string) (min max : nat)
      (label : string) :
  forallb isTrimmed l = true -> entriesOk min max l = true ->
  normalizeStringArray (Some (JArr (map JStr l))) min max label = Ok l.
Proof.
  intros Ht He. unfold entriesOk in He.
  apply andb_prop in He as [He Hc]. apply andb_prop in He as [Hmin Hmax].
  apply Nat.leb_le in Hmin, Hmax.
  unfold normalizeStringArray. cbv zeta. rewrite (@keepTruthy_clean l Ht Hc).
  assert (E : (List.length l <? min) = false) by (apply Nat.ltb_ge; lia).
  rewrite E. now rewrite firstn_all2.
Qed.

End SafeStringFacts.

Lemma safeString_result_witness :
  exists raw,
    Some (JStr "  ab cd  ") = Some (JStr raw)
    /\ "ab " = substring 0 3 (trim raw)
    /\ truthy "ab " = true
    /\ Props.startsClean "ab " = true
    /\ String.length "ab " = Nat.min 3 (String.length (trim raw)).
Proof.
  apply (@safeString_result (Some (JStr "  ab cd  ")) 3). lia.
Defined.

(* ----------------------------------------------------------------- *)
(** ** Parsing what a well-formed insight encodes *)

Section RoundTrip.

Import Insights Props Schema Main.
Variable JSON_parse : string -> option json.

(** X16.  The parsers read the extracted span only: the span is its own
    extraction, and both parsers give on a response what they give on
    the span extracted from it. *)
Theorem parsers_read_candidate_only (raw candidate : string) :
  extractJsonObject raw = Some candidate ->
  extractJsonObject candidate = Some candidate
  /\ parseStudentInsights JSON_parse raw
     = parseStudentInsights JSON_parse candidate
  /\ parseTeacherInsights JSON_parse raw
     = parseTeacherInsights JSON_parse candidate.
Proof.
  intro H.
  assert (Hc : extractJsonObject candidate = Some candidate).
  { apply extract_shape in H as (pre & mid & post & _ & _ & _ & ->).
    exact (@extract_span "" mid "" eq_refl eq_refl). }
  split; [exact Hc|].
  unfold parseStudentInsights, parseTeacherInsights, decodeObject.
  now rewrite H, Hc.
Qed.

Lemma validateStudentRecord_round_trip (i : StudentInsights.t) :
  studentSchemaOk i = true -> studentInsightsTrimmed i = true ->
  validateStudentRecord (studentInsightsToJson i) = Ok i.
Proof.
  destruct i as [po st im sg ng en].
  unfold studentSchemaOk, studentInsightsTrimmed.
  cbn [StudentInsights.positiveObservation StudentInsights.strengths
       StudentInsights.improvementAreas StudentInsights.strategies
       StudentInsights.nextStepGoal StudentInsights.encouragement].
  intros Hs Ht.
  do 5 (apply andb_prop in Hs as [Hs ?]).
  do 5 (apply andb_prop in Ht as [Ht ?]).
  unfold validateStudentRecord. cbv zeta.
  change (getProp (studentInsightsToJson (StudentInsights.mk po st im sg ng en))
            "positiveObservation") with (Some (JStr po)).
  change (getProp (studentInsightsToJson (StudentInsights.mk po st im sg ng en))
            "nextStepGoal") with (Some (JStr ng)).
  change (getProp (studentInsightsToJson (StudentInsights.mk po st im sg ng en))
            "encouragement") with (Some (JStr en)).
  change (getProp (studentInsightsToJson (StudentInsights.mk po st im sg ng en))
            "strengths") with (Some (JArr (map JStr st))).
  change (getProp (studentInsightsToJson (StudentInsights.mk po st im sg ng en))
            "improvementAreas") with (Some (JArr (map JStr im))).
  change (getProp (studentInsightsToJson (StudentInsights.mk po st im sg ng en))
            "strategies") with (Some (JArr (map JStr sg))).
  rewrite !normalizeStringArray_clean by assumption.
  rewrite !safeString_clean by assumption.
  cbn [isOk negb orb pushUnless errorsOf valueOf asString].
  repeat match goal with
         | H : withinCap _ ?s = true |- context [truthy ?s] =>
             let E := fresh in
             assert (E : truthy s = true)
               by (unfold withinCap in H; now apply andb_prop in H as [? _]);
             rewrite E; clear E
         end.
  reflexivity.
Qed.

Lemma attentionEntry_clean (index : nat) (a : Attention.t) :
  attentionOk a = true ->
  isTrimmed (Attention.name a) && isTrimmed (Attention.reason a) = true ->
  attentionEntry (index, attentionToJson a) = ([a], []).
Proof.
  destruct a as [n r]. unfold attentionOk.
  cbn [Attention.name Attention.reason]. intros Hc Ht.
  apply andb_prop in Hc as [Hn Hr]. apply andb_prop in Ht as [Htn Htr].
  unfold attentionEntry, attentionStep. cbv zeta.
  cbn [attentionToJson isObject negb Attention.name Attention.reason].
  change (getProp (attentionToJson (Attention.mk n r)) "name")
    with (Some (JStr n)).
  change (getProp (attentionToJson (Attention.mk n r)) "reason")
    with (Some (JStr r)).
  rewrite (@safeString_clean n 80 Htn Hn), (@safeString_clean r 160 Htr Hr).
  unfold withinCap in Hn, Hr.
  apply andb_prop in Hn as [-> _]. apply andb_prop in Hr as [-> _].
  reflexivity.
Qed.

Lemma attention_fold_clean (l : list Attention.t) (n : nat) :
  forallb attentionOk l = true ->
  forallb (fun a => isTrimmed (Attention.name a)
                    && isTrimmed (Attention.reason a)) l = true ->
  let items := combine (seq n (List.length (map attentionToJson l)))
                 (map attentionToJson l) in
  flat_map (fun ii => fst (attentionEntry ii)) items = l
  /\ flat_map (fun ii => snd (attentionEntry ii)) items = [].
Proof.
  revert n; induction l as [|a l IH]; intros n Hc Ht; cbv zeta;
    [split; reflexivity|].
  cbn [forallb] in Hc, Ht.
  apply andb_prop in Hc as [Ha Hc]. apply andb_prop in Ht as [Hta Ht].
  destruct (IH (S n) Hc Ht) as [IH1 IH2].
  cbn [map List.length seq combine flat_map].
  rewrite (attentionEntry_clean n _ Ha Hta). cbn [fst snd app].
  now rewrite IH1, IH2.
Qed.

Lemma validateTeacherRecord_round_trip (i : TeacherInsights.t) :
  teacherSchemaOk i = true -> teacherInsightsTrimmed i = true ->
  validateTeacherRecord (teacherInsightsToJson i) = Ok i.
Proof.
  destruct i as [co st at_ ns].
  unfold teacherSchemaOk, teacherInsightsTrimmed.
  cbn [TeacherInsights.classOverview TeacherInsights.strengths
       TeacherInsights.attentionNeeded TeacherInsights.nextSteps].
  intros Hs Ht.
  do 3 (apply andb_prop in Hs as [Hs ?]).
  do 3 (apply andb_prop in Ht as [Ht ?]).
  unfold validateTeacherRecord. cbv zeta.
  change (getProp (teacherInsightsToJson (TeacherInsights.mk co st at_ ns))
            "classOverview") with (Some (JStr co)).
  change (getProp (teacherInsightsToJson (TeacherInsights.mk co st at_ ns))
            "strengths") with (Some (JArr (map JStr st))).
  change (getProp (teacherInsightsToJson (TeacherInsights.mk co st at_ ns))
            "nextSteps") with (Some (JArr (map JStr ns))).
  change (getProp (teacherInsightsToJson (TeacherInsights.mk co st at_ ns))
            "attentionNeeded") with (Some (JArr (map attentionToJson at_))).
  cbv beta iota. rewrite fold_attentionStep. unfold indexed.
  match goal with
  | Ha : forallb attentionOk at_ = true,
    Hb : forallb _ at_ = true |- _ =>
      destruct (attention_fold_clean at_ 0 Ha Hb) as [-> ->]
  end.
  rewrite !normalizeStringArray_clean by assumption.
  rewrite !safeString_clean by assumption.
  cbn [fst snd app isOk negb orb pushUnless errorsOf valueOf asString
       List.length Nat.ltb Nat.leb].
  repeat match goal with
         | H : withinCap _ ?s = true |- context [truthy ?s] =>
             let E := fresh in
             assert (E : truthy s = true)
               by (unfold withinCap in H; now apply andb_prop in H as [? _]);
             rewrite E; clear E
         end.
  reflexivity.
Qed.

Lemma decodeObject_candidate (raw candidate : string) (v : json) :
  extractJsonObject raw = Some candidate ->
  JSON_parse candidate = Some v -> isObject v = true ->
  decodeObject JSON_parse raw = Ok v.
Proof.
  intros H Hp Ho. unfold decodeObject. rewrite H.
  apply extract_shape in H as (pre & mid & post & _ & _ & _ & ->).
  cbn [append truthy String.eqb negb]. cbn [append] in Hp.
  now rewrite Hp, Ho.
Qed.

(** X17.  A student insight that respects the schema and whose strings
    are trimmed survives the round trip: when the span extracted from the
    response decodes to the object that carries the insight, the parser
    returns that very insight, and the insight step delivers it, rendered,
    without fallback. *)
Theorem student_round_trip (raw candidate : string) (i : StudentInsights.t)
        (analysis : StudentAnalysis.t) (rules : option TeacherPreferences.t) :
  extractJsonObject raw = Some candidate ->
  JSON_parse candidate = Some (studentInsightsToJson i) ->
  studentSchemaOk i = true -> studentInsightsTrimmed i = true ->
  parseStudentInsights JSON_parse raw = Ok i
  /\ studentInsightStep JSON_parse analysis rules raw
     = StudentOutcome.mk i (renderStudentMessage i) false.
Proof.
  intros H Hp Hs Ht.
  assert (E : parseStudentInsights JSON_parse raw = Ok i).
  { unfold parseStudentInsights.
    rewrite (decodeObject_candidate _ H Hp eq_refl).
    now apply validateStudentRecord_round_trip. }
  split; [exact E|]. unfold studentInsightStep. cbv zeta. now rewrite E.
Qed.

(** X18.  The same for a teacher insight, attention entries included. *)
Theorem teacher_round_trip (raw candidate : string) (i : TeacherInsights.t)
        (summary : TeacherSummary.t) (rules : option TeacherPreferences.t) :
  extractJsonObject raw = Some candidate ->
  JSON_parse candidate = Some (teacherInsightsToJson i) ->
  teacherSchemaOk i = true -> teacherInsightsTrimmed i = true ->
  parseTeacherInsights JSON_parse raw = Ok i
  /\ teacherInsightStep JSON_parse summary rules raw
     = TeacherOutcome.mk i (renderTeacherMessage i) false.
Proof.
  intros H Hp Hs Ht.
  assert (E : parseTeacherInsights JSON_parse raw = Ok i).
  { unfold parseTeacherInsights.
    rewrite (decodeObject_candidate _ H Hp eq_refl).
    now apply validateTeacherRecord_round_trip. }
  split; [exact E|]. unfold teacherInsightStep. cbv zeta. now rewrite E.
Qed.

End RoundTrip.

Lemma parsers_read_candidate_only_witness :
  Insights.extractJsonObject ("{" ++ wrappedBody ++ "}")
  = Some ("{" ++ wrappedBody ++ "}")%string
  /\ Insights.parseStudentInsights parseJson wrappedPayload
     = Insights.parseStudentInsights parseJson ("{" ++ wrappedBody ++ "}")
  /\ Insights.parseTeacherInsights parseJson wrappedPayload
     = Insights.parseTeacherInsights parseJson ("{" ++ wrappedBody ++ "}").
Proof.
  apply (@parsers_read_candidate_only parseJson wrappedPayload).
  reflexivity.
Defined.

(** The wrapped payload of the examples, decoded by the executable
    parser. *)
Lemma student_round_trip_witness :
  Insights.parseStudentInsights parseJson wrappedPayload
  = Ok Samples.wrappedInsights
  /\ Main.studentInsightStep parseJson (Analyzer.analyzeStudent testStudent)
       None wrappedPayload
     = Main.StudentOutcome.mk Samples.wrappedInsights
         (Insights.renderStudentMessage Samples.wrappedInsights) false.
Proof.
  apply (@student_round_trip parseJson wrappedPayload
           ("{" ++ wrappedBody ++ "}")%string);
    reflexivity.
Defined.

(** A teacher payload with prose around it. *)
Lemma teacher_round_trip_witness :
  Insights.parseTeacherInsights parseJson
    ("Summary: {" ++ quoted "classOverview" ++ ": " ++ quoted "The class is steady."
       ++ ", " ++ quoted "strengths" ++ ": [" ++ quoted "Good participation" ++ "], "
       ++ quoted "attentionNeeded" ++ ": [{" ++ quoted "name" ++ ": " ++ quoted "Alex"
       ++ ", " ++ quoted "reason" ++ ": " ++ quoted "Two missed assignments" ++ "}], "
       ++ quoted "nextSteps" ++ ": [" ++ quoted "Plan a check-in" ++ ", "
       ++ quoted "Share the rubric" ++ "]} Regards")
  = Ok Samples.classInsights.
Proof.
  eapply (@teacher_round_trip parseJson _ _ Samples.classInsights smallSummary None);
    reflexivity.
Defined.

(* ----------------------------------------------------------------- *)
(** ** From the analysis to the student fallback *)

Section StudentPipeline.

Import Analyzer Props Schema Insights.

Lemma Forall_pushIf (P : string -> Prop) (c : bool) (m : string)
      (xs : list string) :
  P m -> Forall P xs -> Forall P (pushIf c m xs).
Proof.
  intros Hm Hxs. unfold pushIf. destruct c; [|exact Hxs].
  apply Forall_app. split; [exact Hxs | now constructor].
Qed.

Lemma lowest_join_length (student : Student.t) :
  Forall (fun g => String.length (Grade.subject g) <= 59)
    (Student.grades student) ->
  String.length
    (join ", " (map Grade.subject (bottomN (Student.grades student) 2 Grade.score)))
  <= 120.
Proof.
  intro H. unfold bottomN.
  set (l := firstn 2 (sort (ascending Grade.score) (Student.grades student))).
  assert (Hlen : List.length l <= 2) by (unfold l; rewrite length_firstn; lia).
  assert (Hall : Forall (fun x => String.length x <= 59) (map Grade.subject l)).
  { apply Forall_map, Forall_forall. intros g Hg.
    rewrite Forall_forall in H. apply H.
    apply Permutation_in with (sort (ascending Grade.score) (Student.grades student));
      [apply sort_perm | now apply In_firstn with 2]. }
  pose proof (@concat_length_le ", " _ 59 Hall) as Hc.
  rewrite length_map in Hc. unfold join.
  change (String.length ", ") with 2 in Hc.
  destruct l as [|a [|b [|c l]]]; cbn [List.length] in *; lia.
Qed.

(** X19.  Through the pipeline to the student fallback: for the analysis
    of any student whose subject names have at most 59 characters, with
    preferred strategies (if any) of at most 180 characters and a first
    class goal (if any) of at most 200, the fallback satisfies the schema
    of a student insight, caps included. *)
Theorem analysed_student_fallback (student : Student.t)
        (preferences : option TeacherPreferences.t) :
  Forall (fun g => String.length (Grade.subject g) <= 59)
    (Student.grades student) ->
  forallb (fun s => String.length s <=? 180) (preferredOf preferences) = true ->
  match firstGoalOf preferences with
  | Some g => String.length g <=? 200
  | None => true
  end = true ->
  studentSchemaOk
    (buildFallbackStudentInsights (analyzeStudent student) preferences) = true.
Proof.
  intros Hsub Hpref Hgoal. apply fallback_student_schema.
  pose proof (@lowest_join_length student Hsub) as Hjoin.
  unfold studentInputsOk. rewrite Hpref, Hgoal, !andb_true_r.
  unfold analyzeStudent. cbv zeta.
  cbn [StudentAnalysis.strengths StudentAnalysis.improvementAreas
       StudentAnalysis.metrics StudentMetrics.lowestSubjects].
  assert (H1 : forall l, Forall (fun s => withinCap 180 s = true) l ->
                         forallb (withinCap 180) l = true).
  { intros l Hl. apply forallb_forall. now rewrite Forall_forall in Hl. }
  rewrite H1, H1.
  - cbn [andb]. apply Nat.leb_le. unfold subjectTip.
    rewrite !append_length. cbn [String.length]. lia.
  - apply Forall_firstn.
    match goal with
    | |- Forall _ (if ?c then _ else _) => destruct c
    end.
    + apply Forall_app. split.
      * repeat apply Forall_pushIf; try reflexivity. constructor.
      * constructor; [|constructor].
        apply withinCap_intro; [reflexivity|].
        rewrite append_length. cbn [String.length]. lia.
    + repeat apply Forall_pushIf; try reflexivity. constructor.
  - apply Forall_firstn. repeat apply Forall_pushIf; try reflexivity.
    constructor.
Qed.

End StudentPipeline.

Lemma analysed_student_fallback_witness :
  Schema.studentSchemaOk
    (Insights.buildFallbackStudentInsights (Analyzer.analyzeStudent testStudent)
       (Some shortPreferences)) = true.
Proof.
  apply (@analysed_student_fallback testStudent (Some shortPreferences)).
  - repeat constructor; simpl; lia.
  - reflexivity.
  - reflexivity.
Defined.

(* ----------------------------------------------------------------- *)
(** ** Teacher rules *)

Section RulesFacts.

Import Rules Props Insights.

Lemma stringsOf_map_JStr (l : list string) : stringsOf (map JStr l) = l.
Proof. induction l as [|s l IH]; simpl; [reflexivity | now rewrite IH]. Qed.

Lemma cleaned_fixpoint (l : list string) :
  Forall (fun s => truthy s = true /\ isTrimmed s = true) l ->
  filter truthy (map trim l) = l.
Proof.
  induction 1 as [|s l [Ht Hc] _ IH]; [reflexivity|].
  apply isTrimmed_eq in Hc. cbn [map filter]. rewrite Hc, Ht. now rewrite IH.
Qed.

Lemma cleaned_entries (l : list string) :
  Forall (fun s => truthy s = true /\ isTrimmed s = true)
    (filter truthy (map trim l)).
Proof.
  apply Forall_forall. intros s Hs. apply filter_In in Hs as [Hin Ht].
  apply in_map_iff in Hin as (raw & <- & _). split; [exact Ht|].
  apply trim_isTrimmed.
Qed.

Lemma sanitize_result (value : option json) (l : list string) :
  sanitizeStringArray value = Some l ->
  l <> []
  /\ Forall (fun s => truthy s = true /\ isTrimmed s = true) l
  /\ sanitizeStringArray (Some (JArr (map JStr l))) = Some l.
Proof.
  unfold sanitizeStringArray.
  destruct value as [[| | | | items |]|]; try discriminate.
  cbv zeta.
  destruct (0 <? List.length (filter truthy (map trim (stringsOf items))))
    eqn:E; [|discriminate].
  intro H. injection H as <-.
  pose proof (cleaned_entries (stringsOf items)) as Hc.
  split; [|split].
  - intro Hnil. rewrite Hnil in E. discriminate.
  - exact Hc.
  - rewrite stringsOf_map_JStr, (cleaned_fixpoint Hc). now rewrite E.
Qed.

(** X20.  What [sanitizeStringArray] returns.  A result is never the
    empty list; its entries are non-empty and carry no white space at
    either end; and cleaning is idempotent: a result, read again as an
    array of strings, is returned unchanged. *)
Theorem sanitizeStringArray_clean (value : option json) (l : list string) :
  sanitizeStringArray value = Some l ->
  l <> []
  /\ Forall (fun s => truthy s = true /\ isTrimmed s = true) l
  /\ sanitizeStringArray (Some (JArr (map JStr l))) = Some l.
Proof. apply sanitize_result. Qed.

(** X21.  Rules as loaded and the student fallback.  For preferences
    produced by the loader, the filter that the fallback applies to the
    preferred strategies removes nothing, the first class goal (when there
    is one) becomes the goal of the fallback as it stands, and without
    class goals the goal is the generic one. *)
Theorem loaded_rules_in_fallback (parsed : json) (p : TeacherPreferences.t)
        (analysis : StudentAnalysis.t) :
  rulesOfParsed parsed = Some p ->
  preferredOf (Some p) = preferredStrategiesOf (Some p)
  /\ StudentInsights.nextStepGoal
       (buildFallbackStudentInsights analysis (Some p))
     = match TeacherPreferences.classGoals p with
       | Some goals => hd genericGoal goals
       | None => genericGoal
       end
  /\ match TeacherPreferences.classGoals p with
     | Some goals => goals <> []
     | None => True
     end.
Proof.
  unfold rulesOfParsed. destruct (negb (isObject parsed)); [discriminate|].
  intro H. injection H as <-.
  cbn [preferredOf preferredStrategiesOf firstGoalOf
       TeacherPreferences.preferredStrategies TeacherPreferences.classGoals
       buildFallbackStudentInsights StudentInsights.nextStepGoal].
  split; [|split].
  - destruct (sanitizeStringArray (getProp parsed "preferredStrategies"))
      as [l|] eqn:E; [|reflexivity].
    apply sanitize_result in E as (_ & Hl & _).
    induction Hl as [|s l [Ht Hc] _ IH]; [reflexivity|].
    apply isTrimmed_eq in Hc. cbn [filter]. rewrite Hc, Ht. now rewrite IH.
  - destruct (sanitizeStringArray (getProp parsed "classGoals"))
      as [l|] eqn:E; [|reflexivity].
    apply sanitize_result in E as (Hne & Hl & _).
    destruct l as [|g gs]; [contradiction|].
    apply Forall_inv in Hl as [Ht Hc]. apply isTrimmed_eq in Hc.
    cbn [hd]. now rewrite Hc, Ht.
  - destruct (sanitizeStringArray (getProp parsed "classGoals"))
      as [l|] eqn:E; [|exact I].
    now apply sanitize_result in E as (Hne & _).
Qed.

End RulesFacts.

(** An array with a blank string and a number among its items. *)
Lemma sanitizeStringArray_clean_witness :
  ["a b"; "c"] <> []
  /\ Forall (fun s => truthy s = true /\ Props.isTrimmed s = true) ["a b"; "c"]
  /\ Rules.sanitizeStringArray (Some (JArr (map JStr ["a b"; "c"])))
     = Some ["a b"; "c"].
Proof.
  apply (@sanitizeStringArray_clean
           (Some (JArr [JStr " a b "; JStr "  "; JNum (Num 1); JStr "c"]))).
  reflexivity.
Defined.

(** The sample rules file, and the fallback for the test student. *)
Lemma loaded_rules_in_fallback_witness :
  Insights.preferredOf (Some shortPreferences)
  = Insights.preferredStrategiesOf (Some shortPreferences)
  /\ StudentInsights.nextStepGoal
       (Insights.buildFallbackStudentInsights
          (Analyzer.analyzeStudent testStudent) (Some shortPreferences))
     = "Build a growth mindset"
  /\ ["Build a growth mindset"] <> [].
Proof.
  apply (@loaded_rules_in_fallback Samples.rulesFile shortPreferences
           (Analyzer.analyzeStudent testStudent)).
  reflexivity.
Defined.

(* ----------------------------------------------------------------- *)
(** ** The e-mail body and the file name *)

Section EmailFacts.

Import Email Props.

(** X22.  [replace(/\n/g, "<br />")]: the result holds no line feed, is
    longer than the text by five characters per line feed replaced, and
    is the text itself when there is no line feed in it. *)
Theorem breakLines_spec (s : string) :
  occurs (ascii_of_nat 10) (breakLines s) = false
  /\ String.length (breakLines s)
     = String.length s + 5 * countChar (ascii_of_nat 10) s
  /\ (occurs (ascii_of_nat 10) s = false -> breakLines s = s).
Proof.
  induction s as [|c s (IH1 & IH2 & IH3)]; [repeat split|].
  cbn [breakLines countChar occurs String.length].
  destruct (Ascii.eqb c (ascii_of_nat 10)) eqn:E.
  - split; [|split].
    + cbn [append occurs]. exact IH1.
    + rewrite append_length, IH2. cbn [String.length]. lia.
    + discriminate.
  - split; [|split].
    + cbn [occurs]. now rewrite E.
    + cbn [String.length]. rewrite IH2. lia.
    + cbn [orb]. intro H. now rewrite IH3.
Qed.

(** X23.  The recipient part of the file name: every character is a
    letter, a digit, a dot, an underscore or a hyphen, so it holds no path
    separator; the length is that of the address; file-safe characters
    stay as they are and the replacement is idempotent. *)
Theorem safeRecipient_spec (s : string) :
  allFileSafe (safeRecipient s) = true
  /\ occurs "/" (safeRecipient s) = false
  /\ String.length (safeRecipient s) = String.length s
  /\ safeRecipient (safeRecipient s) = safeRecipient s
  /\ (allFileSafe s = true -> safeRecipient s = s).
Proof.
  induction s as [|c s (IH1 & IH2 & IH3 & IH4 & IH5)]; [repeat split|].
  cbn [safeRecipient allFileSafe occurs String.length].
  rewrite IH1, IH2, IH3, IH4.
  destruct (isFileSafe c) eqn:E.
  - rewrite E. repeat split.
    + cbn [andb orb]. rewrite orb_false_r.
      destruct (Ascii.eqb c "/") eqn:Hc; [|reflexivity].
      apply Ascii.eqb_eq in Hc. subst c. discriminate E.
    + cbn [andb]. intro H. now rewrite IH5.
  - repeat split. discriminate.
Qed.

End EmailFacts.

(** A text of one line, and an address made of file-safe characters. *)
Lemma breakLines_spec_witness :
  Email.breakLines "Small steps add up." = "Small steps add up.".
Proof.
  apply (@breakLines_spec "Small steps add up."). reflexivity.
Defined.

Lemma safeRecipient_spec_witness :
  Email.safeRecipient "emma.stone-2_example.com" = "emma.stone-2_example.com".
Proof.
  apply (@safeRecipient_spec "emma.stone-2_example.com"). reflexivity.
Defined.

(* ----------------------------------------------------------------- *)
(** ** Memory *)

Section MemoryFacts.

Import Memory Props.

Lemma has_In (seen : list string) (item : string) :
  has seen item = true <-> In item seen.
Proof.
  unfold has. rewrite existsb_exists. split.
  - intros (x & Hx & E). apply String.eqb_eq in E. now subst.
  - intro H. exists item. split; [exact H | apply String.eqb_refl].
Qed.

(** The loop of [uniqueList], from any state it can be in when an
    iteration starts. *)
Lemma uniqueLoop_inv (cleaned : list string) :
  forall (seen result : list string) (max : nat),
    (forall x, In x seen <-> In x result) ->
    NoDup result ->
    List.length result < Nat.max 1 max ->
    NoDup (uniqueLoop cleaned seen result max)
    /\ List.length (uniqueLoop cleaned seen result max) <= Nat.max 1 max
    /\ (exists more,
           uniqueLoop cleaned seen result max = result ++ more
           /\ forall x, In x more -> In x cleaned)
    /\ (List.length (uniqueLoop cleaned seen result max) < max ->
        forall x, In x cleaned -> In x (uniqueLoop cleaned seen result max)).
Proof.
  induction cleaned as [|item rest IH]; intros seen result max Hseen Hnd Hlen.
  - cbn [uniqueLoop]. repeat split; try assumption; try lia.
    + exists []. now rewrite app_nil_r.
    + intros _ x [].
  - cbn [uniqueLoop]. destruct (has seen item) eqn:Hhas.
    + apply has_In in Hhas. apply Hseen in Hhas.
      destruct (IH seen result max Hseen Hnd Hlen) as (H1 & H2 & (more & E & Hm) & H4).
      repeat split; try assumption.
      * exists more. split; [exact E|]. intros x Hx. right. now apply Hm.
      * intros Hcut x [<-|Hx]; [|now apply H4].
        rewrite E. apply in_or_app. now left.
    + assert (Hnew : ~ In item result).
      { intro Hin. apply Hseen in Hin. apply has_In in Hin. congruence. }
      assert (Hnd' : NoDup (result ++ [item])).
      { apply NoDup_app; [exact Hnd | repeat constructor; intros [] |].
        intros x Hx [<-|[]]. contradiction. }
      cbv zeta.
      destruct (max <=? List.length (result ++ [item])) eqn:Hfull.
      * apply Nat.leb_le in Hfull. rewrite length_app in *. cbn [List.length] in *.
        repeat split; try assumption; try lia.
        exists [item]. split; [reflexivity|]. intros x [<-|[]]. now left.
      * apply Nat.leb_gt in Hfull.
        assert (Hseen' : forall x, In x (item :: seen) <-> In x (result ++ [item])).
        { intro x. rewrite in_app_iff. cbn [In]. rewrite Hseen. tauto. }
        assert (Hlen' : List.length (result ++ [item]) < Nat.max 1 max) by lia.
        destruct (IH (item :: seen) (result ++ [item]) max Hseen' Hnd' Hlen')
          as (H1 & H2 & (more & E & Hm) & H4).
        repeat split; try assumption.
        -- exists (item :: more). split.
           ++ rewrite E, <- app_assoc. reflexivity.
           ++ intros x [<-|Hx]; [now left | right; now apply Hm].
        -- intros Hcut x [<-|Hx]; [|now apply H4].
           rewrite E. apply in_or_app. left. apply in_or_app. right. now left.
Qed.

Lemma uniqueList_inv (items : list string) (max : nat) :
  NoDup (uniqueList items max)
  /\ List.length (uniqueList items max) <= Nat.max 1 max
  /\ Forall (fun s => truthy s = true /\ isTrimmed s = true
                      /\ In s (map trim items))
       (uniqueList items max)
  /\ (List.length (uniqueList items max) < max ->
      forall s, In s (map trim items) -> truthy s = true ->
                In s (uniqueList items max))
  /\ hd_error (uniqueList items max)
     = hd_error (filter truthy (map trim items)).
Proof.
  unfold uniqueList. cbv zeta.
  set (cleaned := filter truthy (map trim items)).
  assert (H0 : forall x : string, In x [] <-> In x []) by tauto.
  assert (Hl : @List.length string [] < Nat.max 1 max) by (cbn [List.length]; lia).
  destruct (@uniqueLoop_inv cleaned [] [] max H0 (NoDup_nil _) Hl)
    as (H1 & H2 & (more & E & Hm) & H4).
  cbn [app] in E.
  split; [exact H1|]. split; [exact H2|]. split; [|split].
  - rewrite E. apply Forall_forall. intros s Hs. apply Hm in Hs.
    apply filter_In in Hs as [Hin Ht]. repeat split; try assumption.
    apply in_map_iff in Hin as (raw & <- & _). apply trim_isTrimmed.
  - intros Hcut s Hs Ht. apply H4; [exact Hcut|].
    apply filter_In. now split.
  - destruct cleaned as [|s rest] eqn:Ec; [reflexivity|].
    cbn [uniqueLoop has existsb app]. cbv zeta.
    destruct (max <=? List.length [s]) eqn:Hfull; [reflexivity|].
    apply Nat.leb_gt in Hfull. cbn [List.length] in Hfull.
    assert (Hs1 : forall x : string, In x [s] <-> In x [s]) by tauto.
    assert (Hn1 : NoDup [s]) by (repeat constructor; intros []).
    assert (Hl1 : List.length [s] < Nat.max 1 max) by (cbn [List.length]; lia).
    destruct (@uniqueLoop_inv rest [s] [s] max Hs1 Hn1 Hl1)
      as (_ & _ & (more' & -> & _) & _).
    reflexivity.
Qed.

(** X24.  [uniqueList].  The result has no repeated entry and at most
    [max] entries, but one entry when [max] is 0 and some item is not
    blank (the bound is tested after the push); every entry is a
    trimmed, non-empty form of an item; when the result has fewer than
    [max] entries, every non-blank item is in it; and its first entry is
    the first non-blank item. *)
Theorem uniqueList_spec (items : list string) (max : nat) :
  NoDup (uniqueList items max)
  /\ List.length (uniqueList items max) <= Nat.max 1 max
  /\ Forall (fun s => truthy s = true /\ isTrimmed s = true
                      /\ In s (map trim items))
       (uniqueList items max)
  /\ (List.length (uniqueList items max) < max ->
      forall s, In s (map trim items) -> truthy s = true ->
                In s (uniqueList items max))
  /\ hd_error (uniqueList items max)
     = hd_error (filter truthy (map trim items)).
Proof. apply uniqueList_inv. Qed.

Lemma trimHistory_length (entries : list MemoryEntry.t) (limit : Z) :
  List.length (trimHistory entries limit)
  = Nat.min (Z.to_nat limit) (List.length entries).
Proof.
  unfold trimHistory. destruct (limit <=? 0)%Z eqn:E.
  - apply Z.leb_le in E. replace (Z.to_nat limit) with 0 by lia. reflexivity.
  - apply length_firstn.
Qed.

(** X25.  [updateStudentMemory].  The history holds at most [limit]
    entries (none for a limit of 0 or less), the new entry first and then
    the most recent earlier ones; each of the three lists has at most
    three entries; the goals are distinct, and the goal of the new
    insight, when it is not blank, is the first of them. *)
Theorem updateStudentMemory_spec (now : string) (previous : StudentMemory.t)
        (student : Student.t) (insights : StudentInsights.t) (limit : Z) :
  let m := updateStudentMemory now previous student insights limit in
  List.length (StudentMemory.history m)
  = Nat.min (Z.to_nat limit) (S (List.length (StudentMemory.history previous)))
  /\ (exists note,
         StudentMemory.history m
         = firstn (Z.to_nat limit)
             (MemoryEntry.mk now note :: StudentMemory.history previous))
  /\ List.length (StudentMemory.strengths m) <= 3
  /\ List.length (StudentMemory.improvementAreas m) <= 3
  /\ List.length (StudentMemory.goals m) <= 3
  /\ NoDup (StudentMemory.goals m)
  /\ hd_error (StudentMemory.goals m)
     = hd_error
         (filter truthy
            (map trim (StudentInsights.nextStepGoal insights
                         :: StudentMemory.goals previous))).
Proof.
  cbv zeta. unfold updateStudentMemory. cbv zeta.
  cbn [StudentMemory.history StudentMemory.strengths
       StudentMemory.improvementAreas StudentMemory.goals].
  split; [apply trimHistory_length|]. split.
  - eexists. unfold trimHistory. destruct (limit <=? 0)%Z eqn:E; [|reflexivity].
    apply Z.leb_le in E. replace (Z.to_nat limit) with 0 by lia. reflexivity.
  - repeat split;
      match goal with
      | |- context [uniqueList ?l ?n] =>
          destruct (uniqueList_inv l n) as (Hnd & Hlen & _ & _ & Hhd)
      end; change (Nat.max 1 3) with 3 in Hlen; assumption.
Qed.

(** X26.  [updateTeacherMemory].  The history is bounded and ordered as
    for a student; the class goals and the focus areas come from the
    previous memory only (the insight adds nothing to them), each list
    distinct and of at most four entries. *)
Theorem updateTeacherMemory_spec (now : string) (previous : TeacherMemory.t)
        (insights : TeacherInsights.t) (limit : Z) :
  let m := updateTeacherMemory now previous insights limit in
  List.length (TeacherMemory.history m)
  = Nat.min (Z.to_nat limit) (S (List.length (TeacherMemory.history previous)))
  /\ (exists note,
         TeacherMemory.history m
         = firstn (Z.to_nat limit)
             (MemoryEntry.mk now note :: TeacherMemory.history previous))
  /\ Forall (fun g => In g (map trim (TeacherMemory.classGoals previous)))
       (TeacherMemory.classGoals m)
  /\ Forall (fun g => In g (map trim (TeacherMemory.focusAreas previous)))
       (TeacherMemory.focusAreas m)
  /\ NoDup (TeacherMemory.classGoals m) /\ NoDup (TeacherMemory.focusAreas m)
  /\ List.length (TeacherMemory.classGoals m) <= 4
  /\ List.length (TeacherMemory.focusAreas m) <= 4.
Proof.
  cbv zeta. unfold updateTeacherMemory. cbv zeta.
  cbn [TeacherMemory.history TeacherMemory.classGoals TeacherMemory.focusAreas].
  split; [apply trimHistory_length|]. split.
  - eexists. unfold trimHistory. destruct (limit <=? 0)%Z eqn:E; [|reflexivity].
    apply Z.leb_le in E. replace (Z.to_nat limit) with 0 by lia. reflexivity.
  - destruct (uniqueList_inv (TeacherMemory.classGoals previous) 4)
      as (Hnd1 & Hlen1 & Hin1 & _ & _).
    destruct (uniqueList_inv (TeacherMemory.focusAreas previous) 4)
      as (Hnd2 & Hlen2 & Hin2 & _ & _).
    change (Nat.max 1 4) with 4 in Hlen1, Hlen2.
    repeat split; try assumption.
    + eapply Forall_impl; [|exact Hin1]. intros g (_ & _ & Hg). exact Hg.
    + eapply Forall_impl; [|exact Hin2]. intros g (_ & _ & Hg). exact Hg.
Qed.

End MemoryFacts.

(** Five items, two of them equal after trimming and one blank, cut at
    three: the third distinct item is the last one kept. *)
Lemma uniqueList_spec_witness :
  Memory.uniqueList [" a"; "a "; "  "; "b"; "c"; "d"] 3 = ["a"; "b"; "c"]
  /\ hd_error (Memory.uniqueList [" a"; "a "; "  "; "b"; "c"; "d"] 0) = Some "a".
Proof.
  split; [reflexivity|].
  apply (@uniqueList_spec [" a"; "a "; "  "; "b"; "c"; "d"] 0).
Defined.

(* ----------------------------------------------------------------- *)
(** ** One run *)

Section RunFacts.

Import Run Props Schema.

Variable JSON_parse : string -> option json.
Variable dateParses : string -> bool.
Variable generateStudentInsights : nat -> StudentAnalysis.t -> Provided.
Variable generateTeacherSummary : TeacherSummary.t -> Provided.
Variable sendEmail : nat -> Email.EmailContent.t -> option string.
Variable teacherEmail : string.
Variable teacherRules : option TeacherPreferences.t.

(** Each turn of the loop adds the analysis of its student and records
    one message. *)
Lemma studentTurn_adds (st : list StudentAnalysis.t * list StudentMessage.t)
      (ts : nat * Student.t) :
  exists m,
    studentTurn JSON_parse generateStudentInsights sendEmail teacherRules st ts
    = (fst st ++ [Analyzer.analyzeStudent (snd ts)], snd st ++ [m])
    /\ studentTurn JSON_parse generateStudentInsights sendEmail teacherRules
         ([], []) ts
       = ([Analyzer.analyzeStudent (snd ts)], [m]).
Proof.
  destruct st as [analyses recorded], ts as [n student].
  unfold studentTurn. cbn [fst snd app].
  destruct (generateStudentInsights n (Analyzer.analyzeStudent student));
    eexists; split; reflexivity.
Qed.

Lemma fold_studentTurn (l : list (nat * Student.t))
      (st : list StudentAnalysis.t * list StudentMessage.t) :
  fold_left
    (studentTurn JSON_parse generateStudentInsights sendEmail teacherRules) l st
  = (fst st ++ map (fun ts => Analyzer.analyzeStudent (snd ts)) l,
     snd st
       ++ flat_map
            (fun ts =>
               snd (studentTurn JSON_parse generateStudentInsights sendEmail
                      teacherRules ([], []) ts)) l).
Proof.
  revert st; induction l as [|ts l IH]; intro st; cbn [fold_left map flat_map].
  - rewrite !app_nil_r. now destruct st.
  - destruct (studentTurn_adds st ts) as (m & E & E0).
    rewrite IH, E, E0. cbn [fst snd]. now rewrite <- !app_assoc.
Qed.

Lemma map_snd_indexed (A : Type) (l : list A) : map snd (indexed l) = l.
Proof.
  unfold indexed. generalize 0.
  induction l as [|x l IH]; intro n; simpl; [reflexivity | now rewrite IH].
Qed.

Lemma valid_count (parsed : json) :
  List.length (fst (loadStudents dateParses parsed))
  <= snd (loadStudents dateParses parsed).
Proof.
  unfold loadStudents. cbn [fst snd].
  destruct parsed as [| b | q | s | items | fields]; try (simpl; lia).
  unfold Validator.validateStudents. rewrite fold_studentStep.
  cbn [Validator.valid app].
  pose proof (contribution_count dateParses (indexed items)) as H.
  rewrite indexed_length in H. lia.
Qed.

(** The messages of a run, student by student. *)
Lemma run_messages (parsed : json) :
  Outcome.studentMessages
    (runOnce JSON_parse dateParses generateStudentInsights
       generateTeacherSummary sendEmail teacherEmail teacherRules parsed)
  = flat_map
      (fun ts =>
         snd (studentTurn JSON_parse generateStudentInsights sendEmail
                teacherRules ([], []) ts))
      (indexed (fst (loadStudents dateParses parsed))).
Proof.
  unfold runOnce.
  destruct (loadStudents dateParses parsed) as [students total].
  cbn [fst]. destruct students as [|s students]; [reflexivity|].
  cbn [List.length Nat.eqb]. rewrite fold_studentTurn.
  cbn [fst snd app].
  destruct (List.length _ =? 0); reflexivity.
Qed.

Lemma run_outcome (parsed : json) :
  let students := fst (loadStudents dateParses parsed) in
  Outcome.validStudentCount
    (runOnce JSON_parse dateParses generateStudentInsights
       generateTeacherSummary sendEmail teacherEmail teacherRules parsed)
  = List.length students
  /\ Outcome.studentCount
       (runOnce JSON_parse dateParses generateStudentInsights
          generateTeacherSummary sendEmail teacherEmail teacherRules parsed)
     = snd (loadStudents dateParses parsed)
  /\ Outcome.finalStatus
       (runOnce JSON_parse dateParses generateStudentInsights
          generateTeacherSummary sendEmail teacherEmail teacherRules parsed)
     = (if List.length students =? 0 then "no_valid_students" else "completed")
  /\ Outcome.teacherMessage
       (runOnce JSON_parse dateParses generateStudentInsights
          generateTeacherSummary sendEmail teacherEmail teacherRules parsed)
     = (if List.length students =? 0 then None
        else Some (teacherTurn JSON_parse generateTeacherSummary sendEmail
                     teacherEmail teacherRules
                     (map Analyzer.analyzeStudent students)
                     (List.length students))).
Proof.
  cbv zeta. unfold runOnce.
  destruct (loadStudents dateParses parsed) as [students total].
  cbn [fst snd]. destruct students as [|s students]; [repeat split|].
  cbn [Nat.eqb List.length]. rewrite fold_studentTurn.
  cbn [fst snd app].
  rewrite <- (map_map snd Analyzer.analyzeStudent), map_snd_indexed.
  cbn [map List.length Nat.eqb]. repeat split.
Qed.

Lemma message_ids (l : list Student.t) :
  map StudentMessage.studentId
    (flat_map
       (fun ts =>
          snd (studentTurn JSON_parse generateStudentInsights sendEmail
                 teacherRules ([], []) ts))
       (indexed l))
  = map Student.id l.
Proof.
  unfold indexed. generalize 0.
  induction l as [|s l IH]; intro n; [reflexivity|].
  cbn [List.length seq combine flat_map map].
  destruct (studentTurn_adds ([], []) (n, s)) as (m & _ & E). rewrite E.
  cbn [snd app map]. rewrite IH. f_equal.
  revert E. unfold studentTurn. cbn [app].
  destruct (generateStudentInsights n (Analyzer.analyzeStudent s));
    intro E; injection E as <-; reflexivity.
Qed.

(** X27.  The outcome of a run.  The number of valid students is at
    most the number of records; the run ends as [no_valid_students] when
    no record is valid and as [completed] otherwise (the status
    [no_successful_analyses] is never recorded, since every valid student
    is analysed); one message is recorded per valid student, in order, and
    a teacher message exactly when there is a valid student. *)
Theorem runOnce_outcome (parsed : json) :
  let students := fst (loadStudents dateParses parsed) in
  let outcome :=
    runOnce JSON_parse dateParses generateStudentInsights
      generateTeacherSummary sendEmail teacherEmail teacherRules parsed in
  Outcome.validStudentCount outcome = List.length students
  /\ Outcome.validStudentCount outcome <= Outcome.studentCount outcome
  /\ Outcome.finalStatus outcome
     = (if Outcome.validStudentCount outcome =? 0
        then "no_valid_students" else "completed")
  /\ map StudentMessage.studentId (Outcome.studentMessages outcome)
     = map Student.id students
  /\ (Outcome.teacherMessage outcome = None
      <-> Outcome.validStudentCount outcome = 0).
Proof.
  cbv zeta. destruct (run_outcome parsed) as (Hv & Hc & Hs & Ht).
  rewrite Hv, Hc, Hs, Ht. split; [reflexivity|]. split; [apply valid_count|].
  split; [reflexivity|]. split.
  - rewrite run_messages. apply message_ids.
  - destruct (fst (loadStudents dateParses parsed)); cbn [List.length Nat.eqb];
      split; intro H; try reflexivity; discriminate.
Qed.

(** X28.  Every message recorded for a student carries the analysis of a
    valid student and is of one of two kinds.  [sent]: the provider
    returned, the message has insights and a subject and no error, and
    when the fallback was not used the insights satisfy the schema.
    [insights_failed]: the provider threw, the message has the error and
    neither insights nor subject nor path, and the fallback flag is off:
    no fallback is built when the provider throws. *)
Theorem runOnce_student_messages (parsed : json) (m : StudentMessage.t) :
  In m (Outcome.studentMessages
          (runOnce JSON_parse dateParses generateStudentInsights
             generateTeacherSummary sendEmail teacherEmail teacherRules parsed)) ->
  (exists student,
      In student (fst (loadStudents dateParses parsed))
      /\ StudentMessage.analysis m = Some (Analyzer.analyzeStudent student)
      /\ StudentMessage.studentId m = Student.id student)
  /\ ((StudentMessage.status m = "sent"
       /\ StudentMessage.error m = None
       /\ StudentMessage.emailSubject m <> None
       /\ exists i,
           StudentMessage.insights m = Some i
           /\ (StudentMessage.usedFallback m = false ->
               studentSchemaOk i = true)
           /\ (StudentMessage.usedFallback m = true ->
               exists a,
                 StudentMessage.analysis m = Some a
                 /\ i = Insights.buildFallbackStudentInsights a teacherRules))
      \/ (StudentMessage.status m = "insights_failed"
          /\ StudentMessage.error m <> None
          /\ StudentMessage.insights m = None
          /\ StudentMessage.emailSubject m = None
          /\ StudentMessage.emailPath m = None
          /\ StudentMessage.usedFallback m = false)).
Proof.
  rewrite run_messages. intro H. apply in_flat_map in H as ([n s] & Hin & Hm).
  assert (Hs : In s (fst (loadStudents dateParses parsed))).
  { rewrite <- (map_snd_indexed (fst (loadStudents dateParses parsed))).
    apply in_map_iff. now exists (n, s). }
  revert Hm. unfold studentTurn. cbn [app snd].
  destruct (generateStudentInsights n (Analyzer.analyzeStudent s)) as [raw|msg];
    intros [<-|[]]; cbn.
  - split; [exists s; repeat split; assumption|]. left.
    repeat split; try discriminate.
    eexists. split; [reflexivity|].
    unfold Main.studentInsightStep. cbv zeta.
    cbn [Main.StudentOutcome.usedFallback Main.StudentOutcome.insights].
    pose proof (parseStudentInsights_total JSON_parse raw) as Ht.
    destruct (Insights.parseStudentInsights JSON_parse raw) as [v|es];
      cbn [isOk negb]; split; intro E; try discriminate; try exact Ht.
    eexists. split; reflexivity.
  - split; [exists s; repeat split; assumption|]. right.
    repeat split; discriminate.
Qed.

(** X29.  The teacher message of a run with a valid student.  Its summary
    is the class summary of the analyses of all valid students, also of
    those whose insights failed.  It is [sent], with insights that satisfy
    the schema unless they are the fallback built from that summary, or
    [summary_failed], with the error and no insights. *)
Theorem runOnce_teacher_message (parsed : json) (t : TeacherMessage.t) :
  Outcome.teacherMessage
    (runOnce JSON_parse dateParses generateStudentInsights
       generateTeacherSummary sendEmail teacherEmail teacherRules parsed)
  = Some t ->
  TeacherMessage.summary t
  = ClassAnalyzer.buildTeacherSummary
      (map Analyzer.analyzeStudent (fst (loadStudents dateParses parsed)))
  /\ ((TeacherMessage.status t = "sent"
       /\ TeacherMessage.error t = None
       /\ exists i,
           TeacherMessage.insights t = Some i
           /\ (if TeacherMessage.usedFallback t
               then i = Insights.buildFallbackTeacherInsights
                          (TeacherMessage.summary t) teacherRules
               else teacherSchemaOk i = true))
      \/ (TeacherMessage.status t = "summary_failed"
          /\ TeacherMessage.error t <> None
          /\ TeacherMessage.insights t = None
          /\ TeacherMessage.usedFallback t = false)).
Proof.
  destruct (run_outcome parsed) as (_ & _ & _ & Ht). rewrite Ht.
  destruct (List.length _ =? 0); [discriminate|].
  intro H. injection H as <-. unfold teacherTurn. cbv zeta.
  destruct (generateTeacherSummary _) as [raw|msg];
    cbn [TeacherMessage.summary TeacherMessage.status TeacherMessage.error
         TeacherMessage.insights TeacherMessage.usedFallback].
  - split; [reflexivity|]. left. repeat split.
    eexists. split; [reflexivity|].
    unfold Main.teacherInsightStep. cbv zeta.
    cbn [Main.TeacherOutcome.usedFallback Main.TeacherOutcome.insights].
    pose proof (parseTeacherInsights_total JSON_parse raw) as Hp.
    destruct (Insights.parseTeacherInsights JSON_parse raw) as [v|es];
      cbn [isOk negb]; [exact Hp | reflexivity].
  - split; [reflexivity|]. right. repeat split; discriminate.
Qed.

End RunFacts.

(** The sample run: one valid record out of three. *)
Lemma runOnce_student_messages_witness :
  match Run.Outcome.studentMessages Samples.sampleRun with
  | m :: _ =>
      Run.StudentMessage.status m = "sent"
      \/ Run.StudentMessage.status m = "insights_failed"
  | [] => False
  end.
Proof.
  destruct (Run.Outcome.studentMessages Samples.sampleRun) as [|m l] eqn:E;
    [vm_compute in E; discriminate E|].
  assert (Hin : In m (Run.Outcome.studentMessages Samples.sampleRun))
    by (rewrite E; now left).
  destruct (@runOnce_student_messages parseJson Validator.isoDateParses
              Samples.providerReturns Samples.summaryFails Samples.noFile
              "teacher@example.com" None rawBatch m Hin)
    as [_ [(Hs & _)|(Hs & _)]]; [left | right]; exact Hs.
Defined.

Lemma runOnce_teacher_message_witness :
  match Run.Outcome.teacherMessage Samples.sampleRun with
  | Some t =>
      Run.TeacherMessage.summary t
      = ClassAnalyzer.buildTeacherSummary
          (map Analyzer.analyzeStudent
             (fst (Run.loadStudents Validator.isoDateParses rawBatch)))
  | None => False
  end.
Proof.
  destruct (Run.Outcome.teacherMessage Samples.sampleRun) as [t|] eqn:E;
    [|vm_compute in E; discriminate E].
  apply (@runOnce_teacher_message parseJson Validator.isoDateParses
           Samples.providerReturns Samples.summaryFails Samples.noFile
           "teacher@example.com" None rawBatch t E).
Defined.

(* ----------------------------------------------------------------- *)
(** ** One message per analysed student *)

Section RunMessages.

Import Run Props Schema.

Variable JSON_parse : string -> option json.
Variable dateParses : string -> bool.
Variable generateStudentInsights : nat -> StudentAnalysis.t -> Provided.
Variable generateTeacherSummary : TeacherSummary.t -> Provided.
Variable sendEmail : nat -> Email.EmailContent.t -> option string.
Variable teacherEmail : string.
Variable teacherRules : option TeacherPreferences.t.



End RunMessages.


(* ----------------------------------------------------------------- *)
(** ** The e-mail pattern as a decomposition *)

Section EmailPatternSpec.

Import Validator.

Lemma plain_append (a b : string) :
  plain (a ++ b) = plain a && plain b.
Proof.
  induction a as [|c a IH]; [reflexivity|].
  cbn [append plain]. rewrite IH. now rewrite !andb_assoc.
Qed.

Lemma splitAt_plain (a b : string) :
  plain a = true -> splitAt (a ++ String "@" b) = Some (a, b).
Proof.
  induction a as [|c a IH]; intro H; [reflexivity|].
  cbn [plain] in H. apply andb_prop in H as [H Ha].
  apply andb_prop in H as [Hc _]. apply negb_true_iff in Hc.
  cbn [append splitAt]. now rewrite Hc, IH.
Qed.

Lemma dotBeforeLast_split (s : string) :
  dotBeforeLast s = true ->
  exists a b, s = (a ++ String "." b)%string /\ b <> "".
Proof.
  induction s as [|c s IH]; [discriminate|].
  destruct s as [|d s]; [discriminate|].
  change (dotBeforeLast (String c (String d s)))
    with (Ascii.eqb c "." || dotBeforeLast (String d s)).
  destruct (Ascii.eqb c ".") eqn:E.
  - intros _. apply Ascii.eqb_eq in E. subst c.
    exists "", (String d s). split; [reflexivity | discriminate].
  - cbn [orb]. intro H. destruct (IH H) as (a & b & -> & Hb).
    exists (String c a), b. split; [reflexivity | exact Hb].
Qed.

Lemma dotBeforeLast_append (a b : string) :
  b <> "" -> dotBeforeLast (a ++ String "." b) = true.
Proof.
  intro Hb. induction a as [|c a IH].
  - destruct b; [contradiction | reflexivity].
  - cbn [append]. destruct (a ++ String "." b)%string eqn:E.
    + destruct a; discriminate E.
    + change (Ascii.eqb c "." || dotBeforeLast (String a0 s) = true).
      rewrite IH. apply orb_true_r.
Qed.

(** X30.  The pattern [/^[^@\s]+@[^@\s]+\.[^@\s]+$/], as the validator
    tests it: a string matches exactly when it is a local part, an at
    sign, and a domain made of two parts around a dot, the three parts
    non-empty and free of at signs and white space. *)
Theorem EMAIL_PATTERN_spec (s : string) :
  EMAIL_PATTERN_test s = true
  <-> exists local front back,
      s = (local ++ "@" ++ front ++ "." ++ back)%string
      /\ local <> "" /\ front <> "" /\ back <> ""
      /\ plain local = true /\ plain front = true /\ plain back = true.
Proof.
  unfold EMAIL_PATTERN_test. split.
  - destruct (splitAt s) as [[local domain]|] eqn:E; [|discriminate].
    intro H. apply splitAt_append in E.
    apply andb_prop in H as [H Hdot]. apply andb_prop in H as [H Hdom].
    apply andb_prop in H as [Hne Hloc].
    unfold dotInside in Hdot. destruct domain as [|c domain]; [discriminate|].
    apply dotBeforeLast_split in Hdot as (a & b & -> & Hb).
    change (String c (a ++ String "." b)) with (String c a ++ String "." b)%string
      in *.
    rewrite plain_append in Hdom. apply andb_prop in Hdom as [Hfront Hback].
    exists local, (String c a), b. repeat split; try assumption.
    + destruct local; [discriminate Hne | discriminate].
    + discriminate.
  - intros (local & front & back & -> & Hl & Hf & Hb & Pl & Pf & Pb).
    change (local ++ "@" ++ front ++ "." ++ back)%string
      with (local ++ String "@" (front ++ String "." back))%string.
    rewrite (@splitAt_plain local _ Pl), Pl.
    rewrite plain_append, Pf. cbn [plain]. rewrite Pb.
    destruct local; [contradiction|]. destruct front as [|c front]; [contradiction|].
    cbn [truthy String.eqb negb andb append dotInside].
    now apply dotBeforeLast_append.
Qed.

End EmailPatternSpec.
